(** * stocksmart-manager: schema, row-level security, triggers and page controllers

    A shallow embedding of the two SQL migrations under
    [supabase/migrations] and of the page controllers that talk to the
    schema ([Receipts.handleSubmit], [Dashboard.fetchStats]).

    Tables are lists of records (one record type per [CREATE TABLE], in a
    module of the table's name so that columns keep their names), SQL
    statements are functions from a database to a [result], row-level
    security is evaluated over the catalogue of [CREATE POLICY] statements,
    and the [stock_balances] view is a hash aggregate into a [gmap].
    JavaScript numbers are IEEE 754 binary64 values ([spec_float] with 53
    bits of precision). *)

From Stdlib Require Import ZArith NArith List String Bool Lia.
From Stdlib Require Import DecimalString SpecFloat Zpower.
From Stdlib Require DecimalZ.
From stdpp Require Import gmap strings list fin_maps.

Local Open Scope string_scope.
Local Open Scope list_scope.
Local Open Scope Z_scope.

(** ** Column types *)

(** [UUID]: a 128-bit number. *)
Definition uuid := N.
(** [TIMESTAMPTZ]: microseconds since the epoch. *)
Definition timestamptz := Z.
(** [DATE]: days since the epoch. *)
Definition date := Z.
(** [NUMERIC(10,2)]: the stored value counted in hundredths. *)
Definition numeric := Z.

(** Ten digits of precision, two of them after the point: the absolute
    value stays below 10^8, that is below 10^10 hundredths. *)
Definition numeric_10_2_ok (q : numeric) : bool := Z.abs q <? 10 ^ 10.

(** [CREATE TYPE public.app_role AS ENUM ('admin', 'manager', 'staff')] *)
Inductive app_role := admin | manager | staff.
(** [CREATE TYPE public.stock_status AS ENUM (...)] *)
Inductive stock_status := draft | waiting | ready | done | canceled.
(** [CREATE TYPE public.movement_type AS ENUM (...)] *)
Inductive movement_type := receipt | delivery | transfer | adjustment.

#[export] Instance app_role_eq_dec : EqDecision app_role.
Proof. solve_decision. Defined.
#[export] Instance stock_status_eq_dec : EqDecision stock_status.
Proof. solve_decision. Defined.
#[export] Instance movement_type_eq_dec : EqDecision movement_type.
Proof. solve_decision. Defined.

(** A [jsonb] value as the [->>] operator sees it: SQL NULL for a JSON
    null, the contents of a string, and the text rendering of anything
    else. *)
Inductive jsonb_value :=
| JNull
| JString (s : string)
| JOther (rendering : string).

(** ** Rows, one module per table *)

(** [auth.users] belongs to the hosted authentication service; only the
    columns the migration reads are kept. *)
Module users.
Record row := {
  id : uuid;
  email : option string;
  raw_user_meta_data : option (gmap string jsonb_value)
}.
End users.

Module profiles.
Record row := {
  id : uuid;
  full_name : string;
  email : string;
  created_at : timestamptz;
  updated_at : timestamptz
}.

(** The columns an INSERT supplies; [None] leaves a column to its
  default, or to NULL when it has none. *)
Module new.
Record row := {
  id : option uuid;
  full_name : option string;
  email : option string;
  created_at : option timestamptz;
  updated_at : option timestamptz
}.
End new.
End profiles.

Module user_roles.
Record row := {
  id : uuid;
  user_id : uuid;
  role : app_role;
  created_at : timestamptz
}.

Module new.
Record row := {
  id : option uuid;
  user_id : option uuid;
  role : option app_role;
  created_at : option timestamptz
}.
End new.
End user_roles.

Module warehouses.
Record row := {
  id : uuid;
  name : string;
  code : string;
  address : option string;
  is_active : bool;
  created_at : timestamptz;
  updated_at : timestamptz
}.
End warehouses.

Module categories.
Record row := {
  id : uuid;
  name : string;
  description : option string;
  created_at : timestamptz;
  updated_at : timestamptz
}.
End categories.

Module products.
Record row := {
  id : uuid;
  name : string;
  sku : string;
  category_id : option uuid;
  unit_of_measure : string;
  reorder_level : option numeric;
  description : option string;
  is_active : bool;
  created_at : timestamptz;
  updated_at : timestamptz
}.
End products.

Module receipts.
Record row := {
  id : uuid;
  reference : string;
  warehouse_id : uuid;
  supplier_name : string;
  status : stock_status;
  scheduled_date : option date;
  received_date : option timestamptz;
  notes : option string;
  created_by : option uuid;
  created_at : timestamptz;
  updated_at : timestamptz
}.

Module new.
Record row := {
  id : option uuid;
  reference : option string;
  warehouse_id : option uuid;
  supplier_name : option string;
  status : option stock_status;
  scheduled_date : option date;
  received_date : option timestamptz;
  notes : option string;
  created_by : option uuid;
  created_at : option timestamptz;
  updated_at : option timestamptz
}.
End new.
End receipts.

Module receipt_lines.
Record row := {
  id : uuid;
  receipt_id : uuid;
  product_id : uuid;
  quantity : numeric;
  received_quantity : option numeric;
  created_at : timestamptz
}.

Module new.
Record row := {
  id : option uuid;
  receipt_id : option uuid;
  product_id : option uuid;
  quantity : option numeric;
  received_quantity : option (option numeric);
  created_at : option timestamptz
}.
End new.
End receipt_lines.

Module deliveries.
Record row := {
  id : uuid;
  reference : string;
  warehouse_id : uuid;
  customer_name : string;
  status : stock_status;
  scheduled_date : option date;
  delivered_date : option timestamptz;
  notes : option string;
  created_by : option uuid;
  created_at : timestamptz;
  updated_at : timestamptz
}.

Module new.
Record row := {
  id : option uuid;
  reference : option string;
  warehouse_id : option uuid;
  customer_name : option string;
  status : option stock_status;
  scheduled_date : option date;
  delivered_date : option timestamptz;
  notes : option string;
  created_by : option uuid;
  created_at : option timestamptz;
  updated_at : option timestamptz
}.
End new.
End deliveries.

Module delivery_lines.
Record row := {
  id : uuid;
  delivery_id : uuid;
  product_id : uuid;
  quantity : numeric;
  delivered_quantity : option numeric;
  created_at : timestamptz
}.
End delivery_lines.

Module stock_movements.
(** The columns an INSERT supplies. *)
Module new.
Record row := {
  id : option uuid;
  product_id : option uuid;
  warehouse_id : option uuid;
  movement_type : option movement_type;
  reference_id : option uuid;
  quantity : option numeric;
  balance_after : option numeric;
  notes : option string;
  created_by : option uuid;
  created_at : option timestamptz
}.
End new.

Record row := {
  id : uuid;
  product_id : uuid;
  warehouse_id : uuid;
  movement_type : movement_type;
  reference_id : option uuid;
  quantity : numeric;
  balance_after : numeric;
  notes : option string;
  created_by : option uuid;
  created_at : timestamptz
}.
End stock_movements.

(** ** The database *)

Record database := {
  auth_users : list users.row;
  db_profiles : list profiles.row;
  db_user_roles : list user_roles.row;
  db_warehouses : list warehouses.row;
  db_categories : list categories.row;
  db_products : list products.row;
  db_receipts : list receipts.row;
  db_receipt_lines : list receipt_lines.row;
  db_deliveries : list deliveries.row;
  db_delivery_lines : list delivery_lines.row;
  db_stock_movements : list stock_movements.row
}.

(** What the server supplies to one statement: [now()] and the next
    [gen_random_uuid()]. *)
Record env := { now : timestamptz; gen_random_uuid : uuid }.

(** SQLSTATE classes the schema can raise. *)
Inductive sqlerror :=
| insufficient_privilege
| unique_violation (constraint : string)
| not_null_violation (column : string)
| foreign_key_violation (constraint : string)
| check_violation (constraint : string)
| numeric_value_out_of_range
| invalid_text_representation.

Inductive result (A : Type) :=
| Ok (a : A)
| Error (e : sqlerror).
Arguments Ok {A} a.
Arguments Error {A} e.

(** A write statement that succeeds yields the new database and the number
    of rows it affected. *)
Definition write_result := result (database * nat).

(** The database once the statement is over: a failed statement is rolled
    back. *)
Definition state_after (r : write_result) (db : database) : database :=
  match r with
  | Ok (db', _) => db'
  | Error _ => db
  end.

(** Replacing the contents of one table. *)
Definition with_auth_users (rows : list users.row) (db : database) : database :=
  {| auth_users := rows;
     db_profiles := db_profiles db;
     db_user_roles := db_user_roles db;
     db_warehouses := db_warehouses db;
     db_categories := db_categories db;
     db_products := db_products db;
     db_receipts := db_receipts db;
     db_receipt_lines := db_receipt_lines db;
     db_deliveries := db_deliveries db;
     db_delivery_lines := db_delivery_lines db;
     db_stock_movements := db_stock_movements db |}.
Definition with_profiles (rows : list profiles.row) (db : database) : database :=
  {| auth_users := auth_users db;
     db_profiles := rows;
     db_user_roles := db_user_roles db;
     db_warehouses := db_warehouses db;
     db_categories := db_categories db;
     db_products := db_products db;
     db_receipts := db_receipts db;
     db_receipt_lines := db_receipt_lines db;
     db_deliveries := db_deliveries db;
     db_delivery_lines := db_delivery_lines db;
     db_stock_movements := db_stock_movements db |}.
Definition with_user_roles (rows : list user_roles.row) (db : database) : database :=
  {| auth_users := auth_users db;
     db_profiles := db_profiles db;
     db_user_roles := rows;
     db_warehouses := db_warehouses db;
     db_categories := db_categories db;
     db_products := db_products db;
     db_receipts := db_receipts db;
     db_receipt_lines := db_receipt_lines db;
     db_deliveries := db_deliveries db;
     db_delivery_lines := db_delivery_lines db;
     db_stock_movements := db_stock_movements db |}.
Definition with_warehouses (rows : list warehouses.row) (db : database) : database :=
  {| auth_users := auth_users db;
     db_profiles := db_profiles db;
     db_user_roles := db_user_roles db;
     db_warehouses := rows;
     db_categories := db_categories db;
     db_products := db_products db;
     db_receipts := db_receipts db;
     db_receipt_lines := db_receipt_lines db;
     db_deliveries := db_deliveries db;
     db_delivery_lines := db_delivery_lines db;
     db_stock_movements := db_stock_movements db |}.
Definition with_categories (rows : list categories.row) (db : database) : database :=
  {| auth_users := auth_users db;
     db_profiles := db_profiles db;
     db_user_roles := db_user_roles db;
     db_warehouses := db_warehouses db;
     db_categories := rows;
     db_products := db_products db;
     db_receipts := db_receipts db;
     db_receipt_lines := db_receipt_lines db;
     db_deliveries := db_deliveries db;
     db_delivery_lines := db_delivery_lines db;
     db_stock_movements := db_stock_movements db |}.
Definition with_products (rows : list products.row) (db : database) : database :=
  {| auth_users := auth_users db;
     db_profiles := db_profiles db;
     db_user_roles := db_user_roles db;
     db_warehouses := db_warehouses db;
     db_categories := db_categories db;
     db_products := rows;
     db_receipts := db_receipts db;
     db_receipt_lines := db_receipt_lines db;
     db_deliveries := db_deliveries db;
     db_delivery_lines := db_delivery_lines db;
     db_stock_movements := db_stock_movements db |}.
Definition with_receipts (rows : list receipts.row) (db : database) : database :=
  {| auth_users := auth_users db;
     db_profiles := db_profiles db;
     db_user_roles := db_user_roles db;
     db_warehouses := db_warehouses db;
     db_categories := db_categories db;
     db_products := db_products db;
     db_receipts := rows;
     db_receipt_lines := db_receipt_lines db;
     db_deliveries := db_deliveries db;
     db_delivery_lines := db_delivery_lines db;
     db_stock_movements := db_stock_movements db |}.
Definition with_receipt_lines (rows : list receipt_lines.row) (db : database) : database :=
  {| auth_users := auth_users db;
     db_profiles := db_profiles db;
     db_user_roles := db_user_roles db;
     db_warehouses := db_warehouses db;
     db_categories := db_categories db;
     db_products := db_products db;
     db_receipts := db_receipts db;
     db_receipt_lines := rows;
     db_deliveries := db_deliveries db;
     db_delivery_lines := db_delivery_lines db;
     db_stock_movements := db_stock_movements db |}.
Definition with_deliveries (rows : list deliveries.row) (db : database) : database :=
  {| auth_users := auth_users db;
     db_profiles := db_profiles db;
     db_user_roles := db_user_roles db;
     db_warehouses := db_warehouses db;
     db_categories := db_categories db;
     db_products := db_products db;
     db_receipts := db_receipts db;
     db_receipt_lines := db_receipt_lines db;
     db_deliveries := rows;
     db_delivery_lines := db_delivery_lines db;
     db_stock_movements := db_stock_movements db |}.
Definition with_delivery_lines (rows : list delivery_lines.row) (db : database) : database :=
  {| auth_users := auth_users db;
     db_profiles := db_profiles db;
     db_user_roles := db_user_roles db;
     db_warehouses := db_warehouses db;
     db_categories := db_categories db;
     db_products := db_products db;
     db_receipts := db_receipts db;
     db_receipt_lines := db_receipt_lines db;
     db_deliveries := db_deliveries db;
     db_delivery_lines := rows;
     db_stock_movements := db_stock_movements db |}.
Definition with_stock_movements (rows : list stock_movements.row) (db : database) : database :=
  {| auth_users := auth_users db;
     db_profiles := db_profiles db;
     db_user_roles := db_user_roles db;
     db_warehouses := db_warehouses db;
     db_categories := db_categories db;
     db_products := db_products db;
     db_receipts := db_receipts db;
     db_receipt_lines := db_receipt_lines db;
     db_deliveries := db_deliveries db;
     db_delivery_lines := db_delivery_lines db;
     db_stock_movements := rows |}.

(** ** Sessions *)

(** The two database roles the API connects with. *)
Inductive pg_role := role_anon | role_authenticated.

#[export] Instance pg_role_eq_dec : EqDecision pg_role.
Proof. solve_decision. Defined.

(** A caller of the API: anonymous, or an identity that signed in. *)
Inductive caller :=
| Anon
| Authenticated (uid : uuid).

(** [auth.uid()] *)
Definition auth_uid (who : caller) : option uuid :=
  match who with
  | Anon => None
  | Authenticated uid => Some uid
  end.

Definition current_role (who : caller) : pg_role :=
  match who with
  | Anon => role_anon
  | Authenticated _ => role_authenticated
  end.

(** A session is an API caller, or the owner of the tables: the role that
    runs the migrations (its [INSERT INTO public.warehouses] comes after
    [ENABLE ROW LEVEL SECURITY] and has no policy to pass).  No table has
    [FORCE ROW LEVEL SECURITY], so policies do not apply to the owner. *)
Inductive session :=
| Api (who : caller)
| Owner.

(** [public.has_role(_user_id, _role)]: [SECURITY DEFINER], so it reads the
    whole of [user_roles].  A NULL [_user_id] equals no [user_id]. *)
Definition has_role (db : database) (_user_id : option uuid) (_role : app_role) : bool :=
  match _user_id with
  | None => false
  | Some u =>
      existsb (fun r => bool_decide (user_roles.user_id r = u)
                        && bool_decide (user_roles.role r = _role))
              (db_user_roles db)
  end.

(** ** The policy catalogue *)

Inductive table :=
| public_profiles | public_user_roles | public_warehouses | public_categories
| public_products | public_receipts | public_receipt_lines | public_deliveries
| public_delivery_lines | public_stock_movements.

Inductive command := SELECT | INSERT | UPDATE | DELETE | ALL.

#[export] Instance table_eq_dec : EqDecision table.
Proof. solve_decision. Defined.
#[export] Instance command_eq_dec : EqDecision command.
Proof. solve_decision. Defined.

(** The expressions the policies are written with. *)
Inductive expr :=
| Etrue                           (* true *)
| Euid_eq_id                      (* auth.uid() = id *)
| Ecreated_by_eq_uid              (* created_by = auth.uid() *)
| Euid_not_null                   (* auth.uid() IS NOT NULL *)
| Ehas_role (r : app_role)        (* public.has_role(auth.uid(), r) *)
| Eor (a b : expr).               (* a OR b *)

(** One [CREATE POLICY]: [polroles] is the [TO] clause ([None] for PUBLIC),
    [polqual] the [USING] expression, [polwithcheck] the [WITH CHECK] one. *)
Record policy := {
  polname : string;
  poltable : table;
  polcmd : command;
  polroles : option pg_role;
  polqual : option expr;
  polwithcheck : option expr
}.

Definition admin_or_manager : expr := Eor (Ehas_role admin) (Ehas_role manager).
Definition creator_or_privileged : expr :=
  Eor Ecreated_by_eq_uid (Eor (Ehas_role admin) (Ehas_role manager)).

Definition policies : list policy := [
  {| polname := "Users can view own profile"; poltable := public_profiles;
     polcmd := SELECT; polroles := None;
     polqual := Some Euid_eq_id; polwithcheck := None |};
  {| polname := "Users can update own profile"; poltable := public_profiles;
     polcmd := UPDATE; polroles := None;
     polqual := Some Euid_eq_id; polwithcheck := None |};
  {| polname := "Admins can view all roles"; poltable := public_user_roles;
     polcmd := SELECT; polroles := None;
     polqual := Some (Ehas_role admin); polwithcheck := None |};
  {| polname := "Admins can insert roles"; poltable := public_user_roles;
     polcmd := INSERT; polroles := None;
     polqual := None; polwithcheck := Some (Ehas_role admin) |};
  {| polname := "Admins can delete roles"; poltable := public_user_roles;
     polcmd := DELETE; polroles := None;
     polqual := Some (Ehas_role admin); polwithcheck := None |};
  {| polname := "Authenticated users can view warehouses"; poltable := public_warehouses;
     polcmd := SELECT; polroles := Some role_authenticated;
     polqual := Some Etrue; polwithcheck := None |};
  {| polname := "Admins can insert warehouses"; poltable := public_warehouses;
     polcmd := INSERT; polroles := None;
     polqual := None; polwithcheck := Some (Ehas_role admin) |};
  {| polname := "Admins can update warehouses"; poltable := public_warehouses;
     polcmd := UPDATE; polroles := None;
     polqual := Some (Ehas_role admin); polwithcheck := None |};
  {| polname := "Authenticated users can view categories"; poltable := public_categories;
     polcmd := SELECT; polroles := Some role_authenticated;
     polqual := Some Etrue; polwithcheck := None |};
  {| polname := "Admins can manage categories"; poltable := public_categories;
     polcmd := ALL; polroles := None;
     polqual := Some (Ehas_role admin); polwithcheck := None |};
  {| polname := "Authenticated users can view products"; poltable := public_products;
     polcmd := SELECT; polroles := Some role_authenticated;
     polqual := Some Etrue; polwithcheck := None |};
  {| polname := "Managers and admins can insert products"; poltable := public_products;
     polcmd := INSERT; polroles := None;
     polqual := None; polwithcheck := Some admin_or_manager |};
  {| polname := "Managers and admins can update products"; poltable := public_products;
     polcmd := UPDATE; polroles := None;
     polqual := Some admin_or_manager; polwithcheck := None |};
  {| polname := "Authenticated users can view receipts"; poltable := public_receipts;
     polcmd := SELECT; polroles := Some role_authenticated;
     polqual := Some Etrue; polwithcheck := None |};
  {| polname := "Staff can create receipts"; poltable := public_receipts;
     polcmd := INSERT; polroles := None;
     polqual := None; polwithcheck := Some Euid_not_null |};
  {| polname := "Staff can update own receipts or managers/admins can update all";
     poltable := public_receipts;
     polcmd := UPDATE; polroles := None;
     polqual := Some creator_or_privileged; polwithcheck := None |};
  {| polname := "Authenticated users can view receipt lines"; poltable := public_receipt_lines;
     polcmd := SELECT; polroles := Some role_authenticated;
     polqual := Some Etrue; polwithcheck := None |};
  {| polname := "Users can insert receipt lines"; poltable := public_receipt_lines;
     polcmd := INSERT; polroles := None;
     polqual := None; polwithcheck := Some Euid_not_null |};
  {| polname := "Users can update receipt lines"; poltable := public_receipt_lines;
     polcmd := UPDATE; polroles := None;
     polqual := Some Euid_not_null; polwithcheck := None |};
  {| polname := "Authenticated users can view deliveries"; poltable := public_deliveries;
     polcmd := SELECT; polroles := Some role_authenticated;
     polqual := Some Etrue; polwithcheck := None |};
  {| polname := "Staff can create deliveries"; poltable := public_deliveries;
     polcmd := INSERT; polroles := None;
     polqual := None; polwithcheck := Some Euid_not_null |};
  {| polname := "Staff can update own deliveries or managers/admins can update all";
     poltable := public_deliveries;
     polcmd := UPDATE; polroles := None;
     polqual := Some creator_or_privileged; polwithcheck := None |};
  {| polname := "Authenticated users can view delivery lines"; poltable := public_delivery_lines;
     polcmd := SELECT; polroles := Some role_authenticated;
     polqual := Some Etrue; polwithcheck := None |};
  {| polname := "Users can insert delivery lines"; poltable := public_delivery_lines;
     polcmd := INSERT; polroles := None;
     polqual := None; polwithcheck := Some Euid_not_null |};
  {| polname := "Users can update delivery lines"; poltable := public_delivery_lines;
     polcmd := UPDATE; polroles := None;
     polqual := Some Euid_not_null; polwithcheck := None |};
  {| polname := "Authenticated users can view stock movements"; poltable := public_stock_movements;
     polcmd := SELECT; polroles := Some role_authenticated;
     polqual := Some Etrue; polwithcheck := None |};
  {| polname := "System can insert stock movements"; poltable := public_stock_movements;
     polcmd := INSERT; polroles := None;
     polqual := None; polwithcheck := Some Euid_not_null |}
].

(** ** Row-level security *)

(** A stored table: what a policy expression can see of a row (the table
    it is in, its [id], and its [created_by] where the table has one), and
    where its rows live in the database. *)
Class Relation (R : Type) := {
  relname : table;
  pk : R -> uuid;
  owner_col : R -> option uuid;
  rows_of : database -> list R;
  with_rows : list R -> database -> database
}.

#[export] Instance profiles_rel : Relation profiles.row :=
  {| relname := public_profiles; pk := profiles.id; owner_col := fun _ => None;
     rows_of := db_profiles; with_rows := with_profiles |}.
#[export] Instance user_roles_rel : Relation user_roles.row :=
  {| relname := public_user_roles; pk := user_roles.id; owner_col := fun _ => None;
     rows_of := db_user_roles; with_rows := with_user_roles |}.
#[export] Instance warehouses_rel : Relation warehouses.row :=
  {| relname := public_warehouses; pk := warehouses.id; owner_col := fun _ => None;
     rows_of := db_warehouses; with_rows := with_warehouses |}.
#[export] Instance categories_rel : Relation categories.row :=
  {| relname := public_categories; pk := categories.id; owner_col := fun _ => None;
     rows_of := db_categories; with_rows := with_categories |}.
#[export] Instance products_rel : Relation products.row :=
  {| relname := public_products; pk := products.id; owner_col := fun _ => None;
     rows_of := db_products; with_rows := with_products |}.
#[export] Instance receipts_rel : Relation receipts.row :=
  {| relname := public_receipts; pk := receipts.id; owner_col := receipts.created_by;
     rows_of := db_receipts; with_rows := with_receipts |}.
#[export] Instance receipt_lines_rel : Relation receipt_lines.row :=
  {| relname := public_receipt_lines; pk := receipt_lines.id; owner_col := fun _ => None;
     rows_of := db_receipt_lines; with_rows := with_receipt_lines |}.
#[export] Instance deliveries_rel : Relation deliveries.row :=
  {| relname := public_deliveries; pk := deliveries.id; owner_col := deliveries.created_by;
     rows_of := db_deliveries; with_rows := with_deliveries |}.
#[export] Instance delivery_lines_rel : Relation delivery_lines.row :=
  {| relname := public_delivery_lines; pk := delivery_lines.id; owner_col := fun _ => None;
     rows_of := db_delivery_lines; with_rows := with_delivery_lines |}.
#[export] Instance stock_movements_rel : Relation stock_movements.row :=
  {| relname := public_stock_movements; pk := stock_movements.id; owner_col := stock_movements.created_by;
     rows_of := db_stock_movements; with_rows := with_stock_movements |}.

(** SQL's three-valued OR. *)
Definition sql_or (a b : option bool) : option bool :=
  match a, b with
  | Some true, _ | _, Some true => Some true
  | Some false, Some false => Some false
  | _, _ => None
  end.

(** SQL's [=]: NULL as soon as one side is NULL. *)
Definition sql_eq (a b : option uuid) : option bool :=
  match a, b with
  | Some x, Some y => Some (bool_decide (x = y))
  | _, _ => None
  end.

Fixpoint eval (db : database) (who : caller) (row_id row_created_by : option uuid)
    (e : expr) : option bool :=
  match e with
  | Etrue => Some true
  | Euid_eq_id => sql_eq (auth_uid who) row_id
  | Ecreated_by_eq_uid => sql_eq row_created_by (auth_uid who)
  | Euid_not_null => Some (bool_decide (auth_uid who <> None))
  | Ehas_role r => Some (has_role db (auth_uid who) r)
  | Eor a b => sql_or (eval db who row_id row_created_by a)
                      (eval db who row_id row_created_by b)
  end.

(** A row passes an expression when it evaluates to true; false and NULL
    both fail.  A missing expression lets nothing through. *)
Definition holds (db : database) (who : caller) (row_id row_created_by : option uuid)
    (e : option expr) : bool :=
  match e with
  | Some e => bool_decide (eval db who row_id row_created_by e = Some true)
  | None => false
  end.

(** The policies of table [t] that apply to command [c] run by [who]:
    those written for [c] or for ALL, addressed to PUBLIC or to the
    caller's role. *)
Definition applicable (t : table) (c : command) (who : caller) (p : policy) : bool :=
  bool_decide (poltable p = t)
  && (bool_decide (polcmd p = c) || bool_decide (polcmd p = ALL))
  && match polroles p with
     | None => true
     | Some r => bool_decide (r = current_role who)
     end.

(** [WITH CHECK] falls back on [USING] when it is not written. *)
Definition with_check_of (p : policy) : option expr :=
  match polwithcheck p with
  | Some e => Some e
  | None => polqual p
  end.

(** Policies are permissive: OR over the applicable ones, and no
    applicable policy means no row (default deny). *)
Definition using_ok (db : database) (who : caller) (t : table) (c : command)
    (row_id row_created_by : option uuid) : bool :=
  existsb (fun p => applicable t c who p && holds db who row_id row_created_by (polqual p))
          policies.

Definition check_ok (db : database) (who : caller) (t : table) (c : command)
    (row_id row_created_by : option uuid) : bool :=
  existsb (fun p => applicable t c who p && holds db who row_id row_created_by (with_check_of p))
          policies.

(** An existing row can be read by command [c] in session [s]. *)
Definition row_visible {R} `{Relation R} (db : database) (s : session) (c : command)
    (r : R) : bool :=
  match s with
  | Owner => true
  | Api who => using_ok db who relname c (Some (pk r)) (owner_col r)
  end.

(** A new row (inserted, or the result of an update) passes the WITH CHECK
    of command [c]. *)
Definition row_accepted {R} `{Relation R} (db : database) (s : session) (c : command)
    (r : R) : bool :=
  match s with
  | Owner => true
  | Api who => check_ok db who relname c (Some (pk r)) (owner_col r)
  end.

(** The row an UPDATE with a WHERE clause produces must pass the UPDATE
    policies' checks and, because the statement reads the table, the
    SELECT policies too. *)
Definition updated_row_ok {R} `{Relation R} (db : database) (s : session) (r' : R) : bool :=
  row_accepted db s UPDATE r' && row_visible db s SELECT r'.

(** [SELECT * FROM t]: rows that fail the policies are left out without
    any error. *)
Definition rls_select {R} `{Relation R} (db : database) (s : session) (rows : list R) : list R :=
  List.filter (row_visible db s SELECT) rows.

(** The rows an UPDATE or DELETE with a WHERE clause works on: the clause
    reads the row, so the SELECT policies apply on top of the command's
    own; rows that fail are skipped without any error. *)
Definition targeted {R} `{Relation R} (db : database) (s : session) (c : command)
    (where_ : R -> bool) (r : R) : bool :=
  where_ r && row_visible db s SELECT r && row_visible db s c r.

(** [DELETE FROM t WHERE ...] on one table: the rows that stay and the
    rows that go. *)
Definition rls_delete {R} `{Relation R} (db : database) (s : session)
    (where_ : R -> bool) (rows : list R) : list R * list R :=
  (List.filter (fun r => negb (targeted db s DELETE where_ r)) rows,
   List.filter (targeted db s DELETE where_) rows).

(** [UPDATE t SET ... WHERE ...] on one table.  [before_update] is the
    table's BEFORE UPDATE row trigger (the identity when it has none); the
    new row must pass the policies and then the table's constraints, or
    the statement fails. *)
Fixpoint rls_update {R} `{Relation R} (db : database) (s : session)
    (where_ : R -> bool) (set_ : R -> R) (before_update : R -> R)
    (constraints : option R -> R -> option sqlerror)
    (rows : list R) : result (list R * nat) :=
  match rows with
  | [] => Ok ([], 0%nat)
  | r :: rest =>
      if targeted db s UPDATE where_ r then
        let r' := before_update (set_ r) in
        if updated_row_ok db s r' then
          match constraints (Some r) r' with
          | Some e => Error e
          | None =>
              match rls_update db s where_ set_ before_update constraints rest with
              | Ok (rest', n) => Ok (r' :: rest', S n)
              | Error e => Error e
              end
          end
        else Error insufficient_privilege
      else
        match rls_update db s where_ set_ before_update constraints rest with
        | Ok (rest', n) => Ok (r :: rest', n)
        | Error e => Error e
        end
  end.

(** ** Constraints *)

(** The first constraint that fails, in the order the checks are listed. *)
Fixpoint first_violation (checks : list (bool * sqlerror)) : option sqlerror :=
  match checks with
  | [] => None
  | (true, _) :: rest => first_violation rest
  | (false, e) :: _ => Some e
  end.

(** Some row of the table has this [id]. *)
Definition has_id {R} `{Relation R} (db : database) (i : uuid) : bool :=
  existsb (fun r => bool_decide (pk r = i)) (rows_of db).

Definition has_user (db : database) (i : uuid) : bool :=
  existsb (fun u => bool_decide (users.id u = i)) (auth_users db).

(** A nullable foreign key is checked only when it is not NULL. *)
Definition fk_null_or (present : uuid -> bool) (k : option uuid) : bool :=
  match k with
  | None => true
  | Some i => present i
  end.

(** A NOT NULL column of an inserted row: the supplied value, or the
    column's default, or a violation. *)
Definition not_null {A} (column : string) (supplied : option A) (default_ : option A)
    : result A :=
  match supplied, default_ with
  | Some a, _ => Ok a
  | None, Some d => Ok d
  | None, None => Error (not_null_violation column)
  end.

(** Sequencing of fallible steps: [x ← r; k] stops at the first error. *)
#[export] Instance result_ret : MRet result := fun A a => Ok a.
#[export] Instance result_bind : MBind result := fun A B k r =>
  match r with
  | Ok a => k a
  | Error e => Error e
  end.

(** A UNIQUE or PRIMARY KEY constraint on [key]: the new row's key is not
    taken by another row.  [old] is the row being updated, [None] for an
    insert. *)
Definition key_free {R K} `{EqDecision K} (key : R -> K) (rows : list R)
    (old : option R) (new : R) : bool :=
  let taken := existsb (fun r => bool_decide (key r = key new)) rows in
  match old with
  | Some o => bool_decide (key o = key new) || negb taken
  | None => negb taken
  end.

(** [INSERT INTO t] of one row, for a table without triggers.  The INSERT
    policies' WITH CHECK comes first and sees the new row's [id] and
    [created_by]; then the NOT NULL columns are checked ([build]), then
    the keys and the foreign keys ([constraints]).  The new row goes at the
    end of the table. *)
Definition sql_insert {R} `{Relation R} (db : database) (s : session)
    (new_id new_created_by : option uuid) (build : result R)
    (constraints : database -> option R -> R -> option sqlerror) : write_result :=
  let allowed := match s with
                 | Owner => true
                 | Api who => check_ok db who (relname (R := R)) INSERT new_id new_created_by
                 end in
  if allowed then
    r ← build;
    match constraints db None r with
    | Some e => Error e
    | None => Ok (with_rows (rows_of db ++ [r]) db, 1%nat)
    end
  else Error insufficient_privilege.

(** [DELETE FROM t WHERE ...] as a statement on the database.
    [restrict] looks for a row that still references a row being deleted
    through an ON DELETE RESTRICT foreign key. *)
Definition sql_delete {R} `{Relation R} (restrict : database -> R -> option sqlerror)
    (db : database) (s : session) (where_ : R -> bool) : write_result :=
  let '(kept, gone) := rls_delete db s where_ (rows_of db) in
  match first_violation
          (List.map (fun r => match restrict db r with
                              | Some e => (false, e)
                              | None => (true, insufficient_privilege)
                              end) gone) with
  | Some e => Error e
  | None => Ok (with_rows kept db, length gone)
  end.

(** ** Triggers *)

(** Tables with an [updated_at] column: the assignment
    [NEW.updated_at = ...]. *)
Class HasUpdatedAt (R : Type) := { set_updated_at : timestamptz -> R -> R }.

#[export] Instance profiles_updated : HasUpdatedAt profiles.row :=
  {| set_updated_at t r :=
       {| profiles.id := profiles.id r; profiles.full_name := profiles.full_name r;
          profiles.email := profiles.email r; profiles.created_at := profiles.created_at r;
          profiles.updated_at := t |} |}.
#[export] Instance warehouses_updated : HasUpdatedAt warehouses.row :=
  {| set_updated_at t r :=
       {| warehouses.id := warehouses.id r; warehouses.name := warehouses.name r;
          warehouses.code := warehouses.code r; warehouses.address := warehouses.address r;
          warehouses.is_active := warehouses.is_active r;
          warehouses.created_at := warehouses.created_at r;
          warehouses.updated_at := t |} |}.
#[export] Instance categories_updated : HasUpdatedAt categories.row :=
  {| set_updated_at t r :=
       {| categories.id := categories.id r; categories.name := categories.name r;
          categories.description := categories.description r;
          categories.created_at := categories.created_at r;
          categories.updated_at := t |} |}.
#[export] Instance products_updated : HasUpdatedAt products.row :=
  {| set_updated_at t r :=
       {| products.id := products.id r; products.name := products.name r;
          products.sku := products.sku r; products.category_id := products.category_id r;
          products.unit_of_measure := products.unit_of_measure r;
          products.reorder_level := products.reorder_level r;
          products.description := products.description r;
          products.is_active := products.is_active r;
          products.created_at := products.created_at r;
          products.updated_at := t |} |}.
#[export] Instance receipts_updated : HasUpdatedAt receipts.row :=
  {| set_updated_at t r :=
       {| receipts.id := receipts.id r; receipts.reference := receipts.reference r;
          receipts.warehouse_id := receipts.warehouse_id r;
          receipts.supplier_name := receipts.supplier_name r;
          receipts.status := receipts.status r;
          receipts.scheduled_date := receipts.scheduled_date r;
          receipts.received_date := receipts.received_date r;
          receipts.notes := receipts.notes r; receipts.created_by := receipts.created_by r;
          receipts.created_at := receipts.created_at r;
          receipts.updated_at := t |} |}.
#[export] Instance deliveries_updated : HasUpdatedAt deliveries.row :=
  {| set_updated_at t r :=
       {| deliveries.id := deliveries.id r; deliveries.reference := deliveries.reference r;
          deliveries.warehouse_id := deliveries.warehouse_id r;
          deliveries.customer_name := deliveries.customer_name r;
          deliveries.status := deliveries.status r;
          deliveries.scheduled_date := deliveries.scheduled_date r;
          deliveries.delivered_date := deliveries.delivered_date r;
          deliveries.notes := deliveries.notes r; deliveries.created_by := deliveries.created_by r;
          deliveries.created_at := deliveries.created_at r;
          deliveries.updated_at := t |} |}.

(** [public.handle_updated_at()]:
    [NEW.updated_at = now(); RETURN NEW;] *)
Definition handle_updated_at {R} `{HasUpdatedAt R} (e : env) (NEW : R) : R :=
  set_updated_at (now e) NEW.

(** The BEFORE UPDATE ... FOR EACH ROW triggers the migrations create, by
    name and table.  [profiles_updated_at] is the only one. *)
Definition before_update_triggers : list (string * table) :=
  [ ("profiles_updated_at", public_profiles) ].

(** What the BEFORE UPDATE triggers of a row's table make of NEW. *)
Definition fire_before_update {R} `{Relation R} `{HasUpdatedAt R} (e : env) (NEW : R) : R :=
  if existsb (fun tg => bool_decide (tg.2 = relname (R := R))) before_update_triggers
  then handle_updated_at e NEW
  else NEW.

(** [UPDATE t SET ... WHERE ...] as a statement on the database. *)
Definition sql_update {R} `{Relation R} (before_update : R -> R)
    (constraints : database -> option R -> R -> option sqlerror)
    (db : database) (s : session) (where_ : R -> bool) (set_ : R -> R) : write_result :=
  match rls_update db s where_ set_ before_update (constraints db) (rows_of db) with
  | Error e => Error e
  | Ok (rows', n) => Ok (with_rows rows' db, n)
  end.

(** ** The ledger: [public.stock_movements] and [public.stock_balances] *)

(** PRIMARY KEY on [id]; [product_id], [warehouse_id] and [created_by]
    reference [products], [warehouses] and [auth.users]; both amounts are
    NUMERIC(10,2). *)
Definition stock_movements_constraints (db : database)
    (old : option stock_movements.row) (r : stock_movements.row) : option sqlerror :=
  first_violation [
    (numeric_10_2_ok (stock_movements.quantity r)
       && numeric_10_2_ok (stock_movements.balance_after r),
     numeric_value_out_of_range);
    (key_free stock_movements.id (db_stock_movements db) old r,
     unique_violation "stock_movements_pkey");
    (has_id (R := products.row) db (stock_movements.product_id r),
     foreign_key_violation "stock_movements_product_id_fkey");
    (has_id (R := warehouses.row) db (stock_movements.warehouse_id r),
     foreign_key_violation "stock_movements_warehouse_id_fkey");
    (fk_null_or (has_user db) (stock_movements.created_by r),
     foreign_key_violation "stock_movements_created_by_fkey")
  ].

(** The row an INSERT makes of the columns it is given: [id] and
    [created_at] have defaults, the other NOT NULL columns have none. *)
Definition stock_movements_build (e : env) (p : stock_movements.new.row)
    : result stock_movements.row :=
  product_id ← not_null "product_id" (stock_movements.new.product_id p) None;
  warehouse_id ← not_null "warehouse_id" (stock_movements.new.warehouse_id p) None;
  movement_type ← not_null "movement_type" (stock_movements.new.movement_type p) None;
  quantity ← not_null "quantity" (stock_movements.new.quantity p) None;
  balance_after ← not_null "balance_after" (stock_movements.new.balance_after p) None;
  Ok {| stock_movements.id := default (gen_random_uuid e) (stock_movements.new.id p);
        stock_movements.product_id := product_id;
        stock_movements.warehouse_id := warehouse_id;
        stock_movements.movement_type := movement_type;
        stock_movements.reference_id := stock_movements.new.reference_id p;
        stock_movements.quantity := quantity;
        stock_movements.balance_after := balance_after;
        stock_movements.notes := stock_movements.new.notes p;
        stock_movements.created_by := stock_movements.new.created_by p;
        stock_movements.created_at :=
          default (now e) (stock_movements.new.created_at p) |}.

(** [INSERT INTO public.stock_movements] *)
Definition insert_stock_movement (db : database) (e : env) (s : session)
    (p : stock_movements.new.row) : write_result :=
  sql_insert db s
    (Some (default (gen_random_uuid e) (stock_movements.new.id p)))
    (stock_movements.new.created_by p)
    (stock_movements_build e p)
    stock_movements_constraints.

(** [UPDATE public.stock_movements SET ... WHERE ...]: the table has no
    trigger. *)
Definition update_stock_movements (db : database) (s : session)
    (where_ : stock_movements.row -> bool)
    (set_ : stock_movements.row -> stock_movements.row) : write_result :=
  sql_update (fun NEW => NEW) stock_movements_constraints db s where_ set_.

(** [DELETE FROM public.stock_movements WHERE ...]: no table references
    the ledger. *)
Definition delete_stock_movements (db : database) (s : session)
    (where_ : stock_movements.row -> bool) : write_result :=
  sql_delete (fun _ _ => None) db s where_.

(** The view
    [SELECT product_id, warehouse_id, SUM(quantity) AS quantity
     FROM public.stock_movements GROUP BY product_id, warehouse_id]
    as one pass over the ledger that keeps a running sum per group.  A view
    reads its table with the rights of the view's owner, so every row of
    the ledger takes part whoever asks. *)
Definition stock_balances (db : database) : gmap (uuid * uuid) numeric :=
  foldl (fun groups r =>
           let k := (stock_movements.product_id r, stock_movements.warehouse_id r) in
           <[k := default 0 (groups !! k) + stock_movements.quantity r]> groups)
        ∅ (db_stock_movements db).

(** The movements of one (product, warehouse) pair, oldest first. *)
Definition movements_of (product warehouse : uuid) (ledger : list stock_movements.row)
    : list stock_movements.row :=
  List.filter (fun r => bool_decide (stock_movements.product_id r = product)
                        && bool_decide (stock_movements.warehouse_id r = warehouse))
              ledger.

(** The arithmetic sum of the signed quantities of some movements. *)
Definition sum_quantity (rows : list stock_movements.row) : Z :=
  fold_right Z.add 0 (List.map stock_movements.quantity rows).

(** One INSERT of a sequence: the session and server values it runs with,
    and the columns it supplies. *)
Record attempt := {
  att_env : env;
  att_session : session;
  att_row : stock_movements.new.row
}.

(** A sequence of INSERTs into the ledger, each one a statement of its
    own: a failed one changes nothing and the next one still runs. *)
Definition insert_all (db : database) (attempts : list attempt) : database :=
  foldl (fun d a => state_after (insert_stock_movement d (att_env a) (att_session a) (att_row a)) d)
        db attempts.

(** The rows a sequence of INSERTs adds to the ledger: the row built from
    each attempt that succeeded, in order. *)
Fixpoint inserted (db : database) (attempts : list attempt) : list stock_movements.row :=
  match attempts with
  | [] => []
  | a :: rest =>
      let res := insert_stock_movement db (att_env a) (att_session a) (att_row a) in
      match res, stock_movements_build (att_env a) (att_row a) with
      | Ok _, Ok r => r :: inserted (state_after res db) rest
      | _, _ => inserted (state_after res db) rest
      end
  end.

(** ** Profiles and the sign-up trigger *)

(** PRIMARY KEY on [id], which references [auth.users]. *)
Definition profiles_constraints (db : database)
    (old : option profiles.row) (r : profiles.row) : option sqlerror :=
  first_violation [
    (key_free profiles.id (db_profiles db) old r, unique_violation "profiles_pkey");
    (has_user db (profiles.id r), foreign_key_violation "profiles_id_fkey")
  ].

(** [id], [full_name] and [email] are NOT NULL without a default; the two
    timestamps default to [now()]. *)
Definition profiles_build (e : env) (p : profiles.new.row) : result profiles.row :=
  id ← not_null "id" (profiles.new.id p) None;
  full_name ← not_null "full_name" (profiles.new.full_name p) None;
  email ← not_null "email" (profiles.new.email p) None;
  Ok {| profiles.id := id;
        profiles.full_name := full_name;
        profiles.email := email;
        profiles.created_at := default (now e) (profiles.new.created_at p);
        profiles.updated_at := default (now e) (profiles.new.updated_at p) |}.

(** [INSERT INTO public.profiles] *)
Definition insert_profile (db : database) (e : env) (s : session)
    (p : profiles.new.row) : write_result :=
  sql_insert db s (profiles.new.id p) None (profiles_build e p) profiles_constraints.

(** [UPDATE public.profiles SET ... WHERE ...] *)
Definition update_profiles (db : database) (e : env) (s : session)
    (where_ : profiles.row -> bool) (set_ : profiles.row -> profiles.row) : write_result :=
  sql_update (fire_before_update e) profiles_constraints db s where_ set_.

(** [j ->> key]: the field of a JSON object as text; NULL when [j] is NULL
    or not an object, when it has no such field, and when the field is a
    JSON null. *)
Definition json_get_text (j : option (gmap string jsonb_value)) (key : string)
    : option string :=
  match j with
  | None => None
  | Some fields =>
      match fields !! key with
      | Some (JString s) => Some s
      | Some (JOther rendering) => Some rendering
      | Some JNull | None => None
      end
  end.

(** [COALESCE(a, b)] with a second argument that is never NULL. *)
Definition COALESCE {A} (a : option A) (b : A) : A := default b a.

(** [public.handle_new_user()]:
    [INSERT INTO public.profiles (id, full_name, email)
     VALUES (NEW.id, COALESCE(NEW.raw_user_meta_data->>'full_name', ''), NEW.email)].
    SECURITY DEFINER: the INSERT runs as the function's owner. *)
Definition handle_new_user (db : database) (e : env) (NEW : users.row) : write_result :=
  insert_profile db e Owner
    {| profiles.new.id := Some (users.id NEW);
       profiles.new.full_name :=
         Some (COALESCE (json_get_text (users.raw_user_meta_data NEW) "full_name") EmptyString);
       profiles.new.email := users.email NEW;
       profiles.new.created_at := None;
       profiles.new.updated_at := None |}.

(** The authentication service creating an identity: an INSERT into
    [auth.users], whose [id] is its primary key, and then the trigger
    [on_auth_user_created] (AFTER INSERT ... FOR EACH ROW).  An error in
    the trigger aborts the whole statement. *)
Definition insert_auth_user (db : database) (e : env) (NEW : users.row) : write_result :=
  if has_user db (users.id NEW) then Error (unique_violation "users_pkey")
  else
    '(db', _) ← handle_new_user (with_auth_users (auth_users db ++ [NEW]) db) e NEW;
    Ok (db', 1%nat).

(** The profile rows of one identity. *)
Definition profiles_of (i : uuid) (db : database) : list profiles.row :=
  List.filter (fun p => bool_decide (profiles.id p = i)) (db_profiles db).

(** ** Role assignments *)

(** PRIMARY KEY on [id], UNIQUE(user_id, role), and [user_id] references
    [auth.users]. *)
Definition user_roles_constraints (db : database)
    (old : option user_roles.row) (r : user_roles.row) : option sqlerror :=
  first_violation [
    (key_free user_roles.id (db_user_roles db) old r, unique_violation "user_roles_pkey");
    (key_free (fun r => (user_roles.user_id r, user_roles.role r)) (db_user_roles db) old r,
     unique_violation "user_roles_user_id_role_key");
    (has_user db (user_roles.user_id r), foreign_key_violation "user_roles_user_id_fkey")
  ].

Definition user_roles_build (e : env) (p : user_roles.new.row) : result user_roles.row :=
  user_id ← not_null "user_id" (user_roles.new.user_id p) None;
  role ← not_null "role" (user_roles.new.role p) None;
  Ok {| user_roles.id := default (gen_random_uuid e) (user_roles.new.id p);
        user_roles.user_id := user_id;
        user_roles.role := role;
        user_roles.created_at := default (now e) (user_roles.new.created_at p) |}.

(** [INSERT INTO public.user_roles] *)
Definition insert_user_role (db : database) (e : env) (s : session)
    (p : user_roles.new.row) : write_result :=
  sql_insert db s (Some (default (gen_random_uuid e) (user_roles.new.id p))) None
    (user_roles_build e p) user_roles_constraints.

(** [DELETE FROM public.user_roles WHERE ...]: no table references it. *)
Definition delete_user_roles (db : database) (s : session)
    (where_ : user_roles.row -> bool) : write_result :=
  sql_delete (fun _ _ => None) db s where_.

(** [SELECT * FROM public.user_roles] *)
Definition select_user_roles (db : database) (s : session) : list user_roles.row :=
  rls_select db s (db_user_roles db).

(** ** Warehouses and products *)

(** PRIMARY KEY on [id], UNIQUE on [code]. *)
Definition warehouses_constraints (db : database)
    (old : option warehouses.row) (r : warehouses.row) : option sqlerror :=
  first_violation [
    (key_free warehouses.id (db_warehouses db) old r, unique_violation "warehouses_pkey");
    (key_free warehouses.code (db_warehouses db) old r, unique_violation "warehouses_code_key")
  ].

(** [UPDATE public.warehouses SET ... WHERE ...] *)
Definition update_warehouses (db : database) (e : env) (s : session)
    (where_ : warehouses.row -> bool) (set_ : warehouses.row -> warehouses.row)
    : write_result :=
  sql_update (fire_before_update e) warehouses_constraints db s where_ set_.

(** The ON DELETE RESTRICT references to a warehouse: [receipts],
    [deliveries] and [stock_movements], in the order they are created. *)
Definition warehouses_restrict (db : database) (w : warehouses.row) : option sqlerror :=
  first_violation [
    (negb (existsb (fun r => bool_decide (receipts.warehouse_id r = warehouses.id w))
                   (db_receipts db)),
     foreign_key_violation "receipts_warehouse_id_fkey");
    (negb (existsb (fun d => bool_decide (deliveries.warehouse_id d = warehouses.id w))
                   (db_deliveries db)),
     foreign_key_violation "deliveries_warehouse_id_fkey");
    (negb (existsb (fun m => bool_decide (stock_movements.warehouse_id m = warehouses.id w))
                   (db_stock_movements db)),
     foreign_key_violation "stock_movements_warehouse_id_fkey")
  ].

(** [DELETE FROM public.warehouses WHERE ...] *)
Definition delete_warehouses (db : database) (s : session)
    (where_ : warehouses.row -> bool) : write_result :=
  sql_delete warehouses_restrict db s where_.

(** The ON DELETE RESTRICT references to a product: [receipt_lines],
    [delivery_lines] and [stock_movements]. *)
Definition products_restrict (db : database) (p : products.row) : option sqlerror :=
  first_violation [
    (negb (existsb (fun l => bool_decide (receipt_lines.product_id l = products.id p))
                   (db_receipt_lines db)),
     foreign_key_violation "receipt_lines_product_id_fkey");
    (negb (existsb (fun l => bool_decide (delivery_lines.product_id l = products.id p))
                   (db_delivery_lines db)),
     foreign_key_violation "delivery_lines_product_id_fkey");
    (negb (existsb (fun m => bool_decide (stock_movements.product_id m = products.id p))
                   (db_stock_movements db)),
     foreign_key_violation "stock_movements_product_id_fkey")
  ].

(** [DELETE FROM public.products WHERE ...] *)
Definition delete_products (db : database) (s : session)
    (where_ : products.row -> bool) : write_result :=
  sql_delete products_restrict db s where_.

(** A foreign-key violation, whichever constraint raised it. *)
Definition is_foreign_key_violation (r : write_result) : bool :=
  match r with
  | Error (foreign_key_violation _) => true
  | _ => false
  end.

(** ** Predicates and statements the properties are about *)

(** An UPDATE that sets [old] to [new] goes through the policies: the
    statement reaches the row, and the new row passes the check. *)
Definition update_permitted {R} `{Relation R} (db : database) (s : session)
    (old new : R) : bool :=
  targeted db s UPDATE (fun _ => true) old && updated_row_ok db s new.

(** The caller created the document, or is an admin or a manager. *)
Definition creator_or_privileged_holds (db : database) (uid : uuid)
    (created_by : option uuid) : bool :=
  bool_decide (created_by = Some uid)
  || has_role db (Some uid) admin
  || has_role db (Some uid) manager.

(** Some movement of the ledger is about this warehouse, or this product. *)
Definition warehouse_has_movement (db : database) (w : warehouses.row) : bool :=
  existsb (fun m => bool_decide (stock_movements.warehouse_id m = warehouses.id w))
          (db_stock_movements db).

Definition product_has_movement (db : database) (p : products.row) : bool :=
  existsb (fun m => bool_decide (stock_movements.product_id m = products.id p))
          (db_stock_movements db).

(** The foreign key of [profiles.id]: every profile belongs to an
    identity. *)
Definition profiles_reference_users (db : database) : Prop :=
  forall p, In p (db_profiles db) -> has_user db (profiles.id p) = true.

(** [UPDATE public.warehouses SET name = ... WHERE id = ...] *)
Definition rename_warehouse (db : database) (e : env) (s : session)
    (i : uuid) (new_name : string) : write_result :=
  update_warehouses db e s
    (fun w => bool_decide (warehouses.id w = i))
    (fun w => {| warehouses.id := warehouses.id w; warehouses.name := new_name;
                 warehouses.code := warehouses.code w;
                 warehouses.address := warehouses.address w;
                 warehouses.is_active := warehouses.is_active w;
                 warehouses.created_at := warehouses.created_at w;
                 warehouses.updated_at := warehouses.updated_at w |}).

(** [UPDATE public.profiles SET full_name = ... WHERE id = ...] *)
Definition rename_profile (db : database) (e : env) (s : session)
    (i : uuid) (new_name : string) : write_result :=
  update_profiles db e s
    (fun p => bool_decide (profiles.id p = i))
    (fun p => {| profiles.id := profiles.id p; profiles.full_name := new_name;
                 profiles.email := profiles.email p;
                 profiles.created_at := profiles.created_at p;
                 profiles.updated_at := profiles.updated_at p |}).

(** ** Receipts and the Receipts page *)

(** PRIMARY KEY on [id], UNIQUE on [reference]; [warehouse_id] references
    [warehouses] and [created_by] references [auth.users].  The unique
    indexes are checked when the row is stored, the foreign keys after. *)
Definition receipts_constraints (db : database)
    (old : option receipts.row) (r : receipts.row) : option sqlerror :=
  first_violation [
    (key_free receipts.id (db_receipts db) old r, unique_violation "receipts_pkey");
    (key_free receipts.reference (db_receipts db) old r,
     unique_violation "receipts_reference_key");
    (has_id (R := warehouses.row) db (receipts.warehouse_id r),
     foreign_key_violation "receipts_warehouse_id_fkey");
    (fk_null_or (has_user db) (receipts.created_by r),
     foreign_key_violation "receipts_created_by_fkey")
  ].

(** [reference], [warehouse_id] and [supplier_name] are NOT NULL without a
    default; [id], [status] and the two timestamps have one. *)
Definition receipts_build (e : env) (p : receipts.new.row) : result receipts.row :=
  reference ← not_null "reference" (receipts.new.reference p) None;
  warehouse_id ← not_null "warehouse_id" (receipts.new.warehouse_id p) None;
  supplier_name ← not_null "supplier_name" (receipts.new.supplier_name p) None;
  Ok {| receipts.id := default (gen_random_uuid e) (receipts.new.id p);
        receipts.reference := reference;
        receipts.warehouse_id := warehouse_id;
        receipts.supplier_name := supplier_name;
        receipts.status := default draft (receipts.new.status p);
        receipts.scheduled_date := receipts.new.scheduled_date p;
        receipts.received_date := receipts.new.received_date p;
        receipts.notes := receipts.new.notes p;
        receipts.created_by := receipts.new.created_by p;
        receipts.created_at := default (now e) (receipts.new.created_at p);
        receipts.updated_at := default (now e) (receipts.new.updated_at p) |}.

(** [INSERT INTO public.receipts] *)
Definition insert_receipt (db : database) (e : env) (s : session)
    (p : receipts.new.row) : write_result :=
  sql_insert db s
    (Some (default (gen_random_uuid e) (receipts.new.id p)))
    (receipts.new.created_by p)
    (receipts_build e p)
    receipts_constraints.

(** A value that arrives as text and does not read as its column's type
    fails the request before any row is built. *)
Definition cast {A} (parsed : option A) : result A :=
  match parsed with
  | Some a => Ok a
  | None => Error invalid_text_representation
  end.

(** The labels of [stock_status]. *)
Definition stock_status_in (label : string) : option stock_status :=
  if bool_decide (label = "draft") then Some draft
  else if bool_decide (label = "waiting") then Some waiting
  else if bool_decide (label = "ready") then Some ready
  else if bool_decide (label = "done") then Some done
  else if bool_decide (label = "canceled") then Some canceled
  else None.

(** A JavaScript integer in a template string: its decimal digits. *)
Definition string_of_number (n : Z) : string := NilZero.string_of_int (Z.to_int n).

Module Receipts.

(** The form of the page: three text inputs, empty to start with. *)
Record formData := {
  supplier_name : string;
  warehouse_id : string;
  scheduled_date : string
}.

Section page.

(** How the server reads a [uuid] and a [date] from text. *)
Variable uuid_in : string -> option uuid.
Variable date_in : string -> option date.

(** [handleSubmit]:
    [const reference = `RCP-${Date.now()}`;
     supabase.from("receipts").insert([{ reference, supplier_name,
       warehouse_id, scheduled_date: formData.scheduled_date || null,
       status: "draft" }])].
    [date_now] is the browser's [Date.now()].  What the page then shows
    (toast, dialog, list) is not modelled; the result of the INSERT is. *)
Definition handleSubmit (db : database) (e : env) (who : caller) (date_now : Z)
    (form : formData) : write_result :=
  let reference := ("RCP-" ++ string_of_number date_now)%string in
  warehouse_id ← cast (uuid_in (warehouse_id form));
  scheduled_date ←
    (if bool_decide (scheduled_date form = EmptyString) then Ok None
     else d ← cast (date_in (scheduled_date form)); Ok (Some d));
  status ← cast (stock_status_in "draft");
  insert_receipt db e (Api who)
    {| receipts.new.id := None;
       receipts.new.reference := Some reference;
       receipts.new.warehouse_id := Some warehouse_id;
       receipts.new.supplier_name := Some (supplier_name form);
       receipts.new.status := Some status;
       receipts.new.scheduled_date := scheduled_date;
       receipts.new.received_date := None;
       receipts.new.notes := None;
       receipts.new.created_by := None;
       receipts.new.created_at := None;
       receipts.new.updated_at := None |}.

(** The form reads as a row: a warehouse was chosen, and the date is
    empty or a date. *)
Definition well_formed (form : formData) : Prop :=
  uuid_in (warehouse_id form) <> None
  /\ (scheduled_date form = EmptyString \/ date_in (scheduled_date form) <> None).

End page.

End Receipts.

(** ** The dashboard *)

(** A JavaScript number that holds an integer: the nearest binary64
    value, which is the integer itself below 2^53. *)
Definition number_of_Z (n : Z) : spec_float := binary_normalize 53 1024 n 0 false.

(** The literal [0.15]: the binary64 value nearest to 15/100. *)
Definition lit_0_15 : spec_float := SFdiv 53 1024 (number_of_Z 15) (number_of_Z 100).

(** [Math.floor]: the largest integer not above [x], which is always a
    binary64 value again; NaN, the infinities and the zeros are returned
    as they are. *)
Definition Math_floor (x : spec_float) : spec_float :=
  match x with
  | S754_finite s m e =>
      let v := if s then Zneg m else Zpos m in
      number_of_Z (if 0 <=? e then v * 2 ^ e else v / 2 ^ (- e))
  | _ => x
  end.

(** [a * b] on numbers. *)
Definition number_mul (a b : spec_float) : spec_float := SFmul 53 1024 a b.

(** [products] with another [reorder_level]. *)
Definition with_reorder_level (level : option numeric) (p : products.row) : products.row :=
  {| products.id := products.id p; products.name := products.name p;
     products.sku := products.sku p; products.category_id := products.category_id p;
     products.unit_of_measure := products.unit_of_measure p;
     products.reorder_level := level;
     products.description := products.description p;
     products.is_active := products.is_active p;
     products.created_at := products.created_at p;
     products.updated_at := products.updated_at p |}.

Module Dashboard.

Record DashboardStats := {
  totalProducts : spec_float;
  lowStockProducts : spec_float;
  pendingReceipts : spec_float;
  pendingDeliveries : spec_float
}.

(** [supabase.from(t).select("*", { count: "exact", head: true })] with a
    filter: the number of rows of [t] that the caller can see and that
    pass the filter.  The type is [number | null]; the requests of this
    model always answer. *)
Definition count_exact {R} `{Relation R} (db : database) (who : caller)
    (filter_ : R -> bool) : option Z :=
  Some (Z.of_nat (length (List.filter filter_ (rls_select db (Api who) (rows_of db))))).

(** [count || 0] *)
Definition or_zero (count : option Z) : spec_float :=
  match count with
  | Some n => number_of_Z n
  | None => number_of_Z 0
  end.

(** [.in("status", ["draft", "waiting"])] *)
Definition pending (s : stock_status) : bool :=
  bool_decide (s = draft) || bool_decide (s = waiting).

(** [fetchStats]: the four counts, and the value [setStats] receives. *)
Definition fetchStats (db : database) (who : caller) : DashboardStats :=
  let totalProducts := count_exact db who products.is_active in
  let lowStockProducts := count_exact db who products.is_active in
  let pendingReceipts := count_exact db who (fun r => pending (receipts.status r)) in
  let pendingDeliveries := count_exact db who (fun d => pending (deliveries.status d)) in
  {| totalProducts := or_zero totalProducts;
     lowStockProducts := Math_floor (number_mul (or_zero lowStockProducts) lit_0_15);
     pendingReceipts := or_zero pendingReceipts;
     pendingDeliveries := or_zero pendingDeliveries |}.

End Dashboard.

(** The number of active products in the table. *)
Definition active_products (db : database) : Z :=
  Z.of_nat (length (List.filter products.is_active (db_products db))).

(** ** A small database for examples

    Identity 1 is an admin, identity 2 is staff, identity 3 has no role;
    the main warehouse of the seed data holds one product, received once
    and delivered once. *)

Definition example_users : list users.row := [
  {| users.id := 1%N; users.email := Some "admin@example.com";
     users.raw_user_meta_data := Some {[ "full_name" := JString "Ada Admin" ]} |};
  {| users.id := 2%N; users.email := Some "staff@example.com";
     users.raw_user_meta_data := Some ∅ |};
  {| users.id := 3%N; users.email := Some "guest@example.com";
     users.raw_user_meta_data := None |}
].

Definition example_profiles : list profiles.row := [
  {| profiles.id := 1%N; profiles.full_name := "Ada Admin";
     profiles.email := "admin@example.com";
     profiles.created_at := 1000; profiles.updated_at := 1000 |};
  {| profiles.id := 2%N; profiles.full_name := EmptyString;
     profiles.email := "staff@example.com";
     profiles.created_at := 1000; profiles.updated_at := 1000 |};
  {| profiles.id := 3%N; profiles.full_name := EmptyString;
     profiles.email := "guest@example.com";
     profiles.created_at := 1000; profiles.updated_at := 1000 |}
].

Definition example_user_roles : list user_roles.row := [
  {| user_roles.id := 10%N; user_roles.user_id := 1%N; user_roles.role := admin;
     user_roles.created_at := 1000 |};
  {| user_roles.id := 11%N; user_roles.user_id := 2%N; user_roles.role := staff;
     user_roles.created_at := 1000 |}
].

Definition main_warehouse : warehouses.row :=
  {| warehouses.id := 100%N; warehouses.name := "Main Warehouse";
     warehouses.code := "WH-MAIN"; warehouses.address := Some "123 Warehouse Street";
     warehouses.is_active := true;
     warehouses.created_at := 1000; warehouses.updated_at := 1000 |}.

Definition widget : products.row :=
  {| products.id := 200%N; products.name := "Widget"; products.sku := "W-1";
     products.category_id := None; products.unit_of_measure := "unit";
     products.reorder_level := Some 0; products.description := None;
     products.is_active := true;
     products.created_at := 1000; products.updated_at := 1000 |}.

Definition example_movements : list stock_movements.row := [
  {| stock_movements.id := 300%N; stock_movements.product_id := 200%N;
     stock_movements.warehouse_id := 100%N; stock_movements.movement_type := receipt;
     stock_movements.reference_id := None; stock_movements.quantity := 5000;
     stock_movements.balance_after := 5000; stock_movements.notes := None;
     stock_movements.created_by := Some 2%N; stock_movements.created_at := 1100 |};
  {| stock_movements.id := 301%N; stock_movements.product_id := 200%N;
     stock_movements.warehouse_id := 100%N; stock_movements.movement_type := delivery;
     stock_movements.reference_id := None; stock_movements.quantity := -2000;
     stock_movements.balance_after := 3000; stock_movements.notes := None;
     stock_movements.created_by := Some 2%N; stock_movements.created_at := 1200 |}
].

Definition example_db : database :=
  {| auth_users := example_users;
     db_profiles := example_profiles;
     db_user_roles := example_user_roles;
     db_warehouses := [main_warehouse];
     db_categories := [];
     db_products := [widget];
     db_receipts := [];
     db_receipt_lines := [];
     db_deliveries := [];
     db_delivery_lines := [];
     db_stock_movements := example_movements |}.

(** Readers for the examples: a [uuid] written as a decimal number, a
    [date] written as a number of days. *)
Definition example_uuid_in (s : string) : option uuid :=
  match NilZero.int_of_string s with
  | Some d => Some (Z.to_N (Z.of_int d))
  | None => None
  end.

Definition example_date_in (s : string) : option date :=
  match NilZero.int_of_string s with
  | Some d => Some (Z.of_int d)
  | None => None
  end.

(** Two submissions of the Receipts page, for the examples: identity 2
    and identity 3 both choose the main warehouse. *)
Definition form_acme : Receipts.formData :=
  {| Receipts.supplier_name := "Acme"; Receipts.warehouse_id := "100";
     Receipts.scheduled_date := EmptyString |}.

Definition form_globex : Receipts.formData :=
  {| Receipts.supplier_name := "Globex"; Receipts.warehouse_id := "100";
     Receipts.scheduled_date := "20050" |}.

Definition db_after_acme : database :=
  state_after
    (Receipts.handleSubmit example_uuid_in example_date_in example_db
       {| now := 9000; gen_random_uuid := 500%N |} (Authenticated 2%N)
       1763786722000 form_acme)
    example_db.

(** The example database with [n] more products like the widget, active
    ones, with ids from 201. *)
Definition with_more_widgets (n : nat) : database :=
  with_products
    (widget :: List.map (fun i => {| products.id := N.of_nat (201 + i);
                                     products.name := "Widget"; products.sku := "W";
                                     products.category_id := None;
                                     products.unit_of_measure := "unit";
                                     products.reorder_level := Some 1000;
                                     products.description := None;
                                     products.is_active := true;
                                     products.created_at := 1000;
                                     products.updated_at := 1000 |})
                        (seq 0 n))
    example_db.

(** ** Further statements on the schema *)





(** [UPDATE public.receipts SET ... WHERE ...] *)
Definition update_receipts (db : database) (e : env) (s : session)
    (where_ : receipts.row -> bool) (set_ : receipts.row -> receipts.row)
    : write_result :=
  sql_update (fire_before_update e) receipts_constraints db s where_ set_.

(** [products] with another [category_id]. *)
Definition with_category_id (c : option uuid) (p : products.row) : products.row :=
  {| products.id := products.id p; products.name := products.name p;
     products.sku := products.sku p; products.category_id := c;
     products.unit_of_measure := products.unit_of_measure p;
     products.reorder_level := products.reorder_level p;
     products.description := products.description p;
     products.is_active := products.is_active p;
     products.created_at := products.created_at p;
     products.updated_at := products.updated_at p |}.

(** The product refers to one of these categories. *)
Definition in_categories (gone : list categories.row) (p : products.row) : bool :=
  match products.category_id p with
  | Some c => existsb (fun g => bool_decide (categories.id g = c)) gone
  | None => false
  end.

(** [DELETE FROM public.categories WHERE ...]: nothing restricts it, and
    [products.category_id] is ON DELETE SET NULL, an action that runs
    whatever the caller's policies on [products] are. *)
Definition delete_categories (db : database) (s : session)
    (where_ : categories.row -> bool) : write_result :=
  let '(kept, gone) := rls_delete db s where_ (db_categories db) in
  Ok (with_products
        (List.map (fun p => if in_categories gone p then with_category_id None p else p)
                  (db_products db))
        (with_categories kept db),
      length gone).

(** [DELETE FROM public.receipts WHERE ...]: nothing restricts it, and
    [receipt_lines.receipt_id] is ON DELETE CASCADE.  No table references
    [receipt_lines], and [stock_movements.reference_id] is a plain column
    without a foreign key. *)
Definition delete_receipts (db : database) (s : session)
    (where_ : receipts.row -> bool) : write_result :=
  let '(kept, gone) := rls_delete db s where_ (db_receipts db) in
  Ok (with_receipt_lines
        (List.filter
           (fun l => negb (existsb (fun g => bool_decide (receipts.id g = receipt_lines.receipt_id l))
                                   gone))
           (db_receipt_lines db))
        (with_receipts kept db),
      length gone).

(** ** Deliveries and the Deliveries page *)

(** PRIMARY KEY on [id], UNIQUE on [reference]; [warehouse_id] references
    [warehouses] and [created_by] references [auth.users]. *)
Definition deliveries_constraints (db : database)
    (old : option deliveries.row) (r : deliveries.row) : option sqlerror :=
  first_violation [
    (key_free deliveries.id (db_deliveries db) old r, unique_violation "deliveries_pkey");
    (key_free deliveries.reference (db_deliveries db) old r,
     unique_violation "deliveries_reference_key");
    (has_id (R := warehouses.row) db (deliveries.warehouse_id r),
     foreign_key_violation "deliveries_warehouse_id_fkey");
    (fk_null_or (has_user db) (deliveries.created_by r),
     foreign_key_violation "deliveries_created_by_fkey")
  ].

Definition deliveries_build (e : env) (p : deliveries.new.row) : result deliveries.row :=
  reference ← not_null "reference" (deliveries.new.reference p) None;
  warehouse_id ← not_null "warehouse_id" (deliveries.new.warehouse_id p) None;
  customer_name ← not_null "customer_name" (deliveries.new.customer_name p) None;
  Ok {| deliveries.id := default (gen_random_uuid e) (deliveries.new.id p);
        deliveries.reference := reference;
        deliveries.warehouse_id := warehouse_id;
        deliveries.customer_name := customer_name;
        deliveries.status := default draft (deliveries.new.status p);
        deliveries.scheduled_date := deliveries.new.scheduled_date p;
        deliveries.delivered_date := deliveries.new.delivered_date p;
        deliveries.notes := deliveries.new.notes p;
        deliveries.created_by := deliveries.new.created_by p;
        deliveries.created_at := default (now e) (deliveries.new.created_at p);
        deliveries.updated_at := default (now e) (deliveries.new.updated_at p) |}.

(** [INSERT INTO public.deliveries] *)
Definition insert_delivery (db : database) (e : env) (s : session)
    (p : deliveries.new.row) : write_result :=
  sql_insert db s
    (Some (default (gen_random_uuid e) (deliveries.new.id p)))
    (deliveries.new.created_by p)
    (deliveries_build e p)
    deliveries_constraints.

(** [UPDATE public.deliveries SET ... WHERE ...] *)
Definition update_deliveries (db : database) (e : env) (s : session)
    (where_ : deliveries.row -> bool) (set_ : deliveries.row -> deliveries.row)
    : write_result :=
  sql_update (fire_before_update e) deliveries_constraints db s where_ set_.

Module Deliveries.

(** The form of the page. *)
Record formData := {
  customer_name : string;
  warehouse_id : string;
  scheduled_date : string
}.

Section page.

Variable uuid_in : string -> option uuid.
Variable date_in : string -> option date.

(** [handleSubmit]:
    [const reference = `DEL-${Date.now()}`;
     supabase.from("deliveries").insert([{ reference, customer_name,
       warehouse_id, scheduled_date: formData.scheduled_date || null,
       status: "draft" }])]. *)
Definition handleSubmit (db : database) (e : env) (who : caller) (date_now : Z)
    (form : formData) : write_result :=
  let reference := ("DEL-" ++ string_of_number date_now)%string in
  warehouse_id ← cast (uuid_in (warehouse_id form));
  scheduled_date ←
    (if bool_decide (scheduled_date form = EmptyString) then Ok None
     else d ← cast (date_in (scheduled_date form)); Ok (Some d));
  status ← cast (stock_status_in "draft");
  insert_delivery db e (Api who)
    {| deliveries.new.id := None;
       deliveries.new.reference := Some reference;
       deliveries.new.warehouse_id := Some warehouse_id;
       deliveries.new.customer_name := Some (customer_name form);
       deliveries.new.status := Some status;
       deliveries.new.scheduled_date := scheduled_date;
       deliveries.new.delivered_date := None;
       deliveries.new.notes := None;
       deliveries.new.created_by := None;
       deliveries.new.created_at := None;
       deliveries.new.updated_at := None |}.

End page.

End Deliveries.

(** [profiles] with another [full_name]. *)
Definition with_full_name (name : string) (p : profiles.row) : profiles.row :=
  {| profiles.id := profiles.id p; profiles.full_name := name;
     profiles.email := profiles.email p;
     profiles.created_at := profiles.created_at p;
     profiles.updated_at := profiles.updated_at p |}.

(** The row a submission of the Receipts page stores: the form's fields,
    the reference made of the clock reading, and the defaults of the
    columns the page does not send. *)
Definition submitted_receipt (e : env) (date_now : Z) (form : Receipts.formData)
    (warehouse : uuid) (scheduled : option date) : receipts.row :=
  {| receipts.id := gen_random_uuid e;
     receipts.reference := ("RCP-" ++ string_of_number date_now)%string;
     receipts.warehouse_id := warehouse;
     receipts.supplier_name := Receipts.supplier_name form;
     receipts.status := draft;
     receipts.scheduled_date := scheduled;
     receipts.received_date := None;
     receipts.notes := None;
     receipts.created_by := None;
     receipts.created_at := now e;
     receipts.updated_at := now e |}.

(** The date a form's text field stands for: NULL when it is empty. *)
Definition scheduled_of (date_in : string -> option date) (text : string)
    : option (option date) :=
  if bool_decide (text = EmptyString) then Some None
  else match date_in text with
       | Some d => Some (Some d)
       | None => None
       end.

(** The row an INSERT into the ledger stores when the five mandatory
    columns are given. *)
Definition recorded_movement (e : env) (p : stock_movements.new.row)
    (product warehouse : uuid) (kind : movement_type) (quantity balance_after : numeric)
    : stock_movements.row :=
  {| stock_movements.id := default (gen_random_uuid e) (stock_movements.new.id p);
     stock_movements.product_id := product;
     stock_movements.warehouse_id := warehouse;
     stock_movements.movement_type := kind;
     stock_movements.reference_id := stock_movements.new.reference_id p;
     stock_movements.quantity := quantity;
     stock_movements.balance_after := balance_after;
     stock_movements.notes := stock_movements.new.notes p;
     stock_movements.created_by := stock_movements.new.created_by p;
     stock_movements.created_at := default (now e) (stock_movements.new.created_at p) |}.

(** What [stock_balances] reads of a movement. *)
Definition balance_columns (m : stock_movements.row) : uuid * uuid * numeric :=
  (stock_movements.product_id m, stock_movements.warehouse_id m, stock_movements.quantity m).

(** Every movement of the ledger refers to a product and a warehouse that
    are in their tables. *)
Definition ledger_references_valid (db : database) : Prop :=
  forall m, In m (db_stock_movements db) ->
    In (stock_movements.product_id m) (List.map products.id (db_products db))
    /\ In (stock_movements.warehouse_id m) (List.map warehouses.id (db_warehouses db)).

(** A statement of an API caller on [user_roles]. *)
Inductive roles_statement :=
| roles_insert (e : env) (who : caller) (p : user_roles.new.row)
| roles_delete (who : caller) (where_ : user_roles.row -> bool).

(** A sequence of such statements, each one committed or rolled back on
    its own. *)
Definition run_roles_statements (db : database) (sts : list roles_statement) : database :=
  foldl (fun d st =>
           match st with
           | roles_insert e who p => state_after (insert_user_role d e (Api who) p) d
           | roles_delete who where_ => state_after (delete_user_roles d (Api who) where_) d
           end)
        db sts.

(** The example database with the three categories of the seed data, the
    widget filed under the second one, and a second product without a
    category. *)
Definition example_catalogue : database :=
  with_categories
    [{| categories.id := 50%N; categories.name := "Raw Materials";
        categories.description := Some "Basic materials for production";
        categories.created_at := 1000; categories.updated_at := 1000 |};
     {| categories.id := 51%N; categories.name := "Finished Goods";
        categories.description := Some "Ready to ship products";
        categories.created_at := 1000; categories.updated_at := 1000 |};
     {| categories.id := 52%N; categories.name := "Components";
        categories.description := Some "Parts and components";
        categories.created_at := 1000; categories.updated_at := 1000 |}]
    (with_products
       [with_category_id (Some 51%N) widget;
        {| products.id := 201%N; products.name := "Bolt"; products.sku := "B-1";
           products.category_id := None; products.unit_of_measure := "unit";
           products.reorder_level := Some 0; products.description := None;
           products.is_active := false;
           products.created_at := 1000; products.updated_at := 1000 |}]
       example_db).

(** The example database after a second submission, one second later. *)
Definition db_after_globex : database :=
  state_after
    (Receipts.handleSubmit example_uuid_in example_date_in db_after_acme
       {| now := 9010; gen_random_uuid := 501%N |} (Authenticated 3%N)
       1763786723000 form_globex)
    db_after_acme.

(** The database after the two example submissions, with two lines on the
    first receipt, a line on the second, and a movement that names the
    first receipt in [reference_id]. *)
Definition example_received : database :=
  with_stock_movements
    (example_movements ++
       [{| stock_movements.id := 302%N; stock_movements.product_id := 200%N;
           stock_movements.warehouse_id := 100%N; stock_movements.movement_type := receipt;
           stock_movements.reference_id := Some 500%N; stock_movements.quantity := 400;
           stock_movements.balance_after := 3400; stock_movements.notes := None;
           stock_movements.created_by := Some 2%N; stock_movements.created_at := 9100 |}])
    (with_receipt_lines
       [{| receipt_lines.id := 600%N; receipt_lines.receipt_id := 500%N;
           receipt_lines.product_id := 200%N; receipt_lines.quantity := 400;
           receipt_lines.received_quantity := Some 400; receipt_lines.created_at := 9050 |};
        {| receipt_lines.id := 601%N; receipt_lines.receipt_id := 501%N;
           receipt_lines.product_id := 200%N; receipt_lines.quantity := 100;
           receipt_lines.received_quantity := Some 0; receipt_lines.created_at := 9060 |};
        {| receipt_lines.id := 602%N; receipt_lines.receipt_id := 500%N;
           receipt_lines.product_id := 200%N; receipt_lines.quantity := 250;
           receipt_lines.received_quantity := None; receipt_lines.created_at := 9070 |}]
       db_after_globex).

(** Reading back the digits [string_of_number] writes. *)
Definition number_of_string (s : string) : option Z :=
  option_map Z.of_int (NilZero.int_of_string s).

(** The row a submission of the Deliveries page stores. *)
Definition submitted_delivery (e : env) (date_now : Z) (form : Deliveries.formData)
    (warehouse : uuid) (scheduled : option date) : deliveries.row :=
  {| deliveries.id := gen_random_uuid e;
     deliveries.reference := ("DEL-" ++ string_of_number date_now)%string;
     deliveries.warehouse_id := warehouse;
     deliveries.customer_name := Deliveries.customer_name form;
     deliveries.status := draft;
     deliveries.scheduled_date := scheduled;
     deliveries.delivered_date := None;
     deliveries.notes := None;
     deliveries.created_by := None;
     deliveries.created_at := now e;
     deliveries.updated_at := now e |}.

(** A submission of the Deliveries page, for the examples. *)
Definition form_initech : Deliveries.formData :=
  {| Deliveries.customer_name := "Initech"; Deliveries.warehouse_id := "100";
     Deliveries.scheduled_date := EmptyString |}.

Definition db_after_initech : database :=
  state_after
    (Deliveries.handleSubmit example_uuid_in example_date_in example_db
       {| now := 9000; gen_random_uuid := 700%N |} (Authenticated 2%N)
       1763786722000 form_initech)
    example_db.

(** ** Sequences of sign-ups *)

(** The database after the authentication service has tried to create an
    identity: unchanged when the statement failed. *)
Definition sign_up (db : database) (attempt : env * users.row) : database :=
  state_after (insert_auth_user db (fst attempt) (snd attempt)) db.

Definition sign_ups (db : database) (attempts : list (env * users.row)) : database :=
  fold_left sign_up attempts db.

(** Every identity has exactly one profile row. *)
Definition every_identity_has_profile (db : database) : Prop :=
  forall u, In u (auth_users db) -> exists p, profiles_of (users.id u) db = [p].

(** ** The lines of receipts *)

(** Both amounts are NUMERIC(10,2); CHECK (quantity > 0); PRIMARY KEY on
    [id]; [receipt_id] and [product_id] reference [receipts] and
    [products]. *)
Definition receipt_lines_constraints (db : database)
    (old : option receipt_lines.row) (r : receipt_lines.row) : option sqlerror :=
  first_violation [
    (numeric_10_2_ok (receipt_lines.quantity r)
       && match receipt_lines.received_quantity r with
          | Some q => numeric_10_2_ok q
          | None => true
          end,
     numeric_value_out_of_range);
    (0 <? receipt_lines.quantity r, check_violation "receipt_lines_quantity_check");
    (key_free receipt_lines.id (db_receipt_lines db) old r,
     unique_violation "receipt_lines_pkey");
    (has_id (R := receipts.row) db (receipt_lines.receipt_id r),
     foreign_key_violation "receipt_lines_receipt_id_fkey");
    (has_id (R := products.row) db (receipt_lines.product_id r),
     foreign_key_violation "receipt_lines_product_id_fkey")
  ].

(** [received_quantity] is nullable with DEFAULT 0: a statement that does
    not name the column stores 0, one that supplies NULL stores NULL. *)
Definition receipt_lines_build (e : env) (p : receipt_lines.new.row)
    : result receipt_lines.row :=
  receipt_id ← not_null "receipt_id" (receipt_lines.new.receipt_id p) None;
  product_id ← not_null "product_id" (receipt_lines.new.product_id p) None;
  quantity ← not_null "quantity" (receipt_lines.new.quantity p) None;
  Ok {| receipt_lines.id := default (gen_random_uuid e) (receipt_lines.new.id p);
        receipt_lines.receipt_id := receipt_id;
        receipt_lines.product_id := product_id;
        receipt_lines.quantity := quantity;
        receipt_lines.received_quantity :=
          default (Some 0) (receipt_lines.new.received_quantity p);
        receipt_lines.created_at := default (now e) (receipt_lines.new.created_at p) |}.

(** [INSERT INTO public.receipt_lines] *)
Definition insert_receipt_line (db : database) (e : env) (s : session)
    (p : receipt_lines.new.row) : write_result :=
  sql_insert db s (Some (default (gen_random_uuid e) (receipt_lines.new.id p))) None
    (receipt_lines_build e p) receipt_lines_constraints.

(** [UPDATE public.receipt_lines SET ... WHERE ...]: the table has no
    trigger. *)
Definition update_receipt_lines (db : database) (s : session)
    (where_ : receipt_lines.row -> bool)
    (set_ : receipt_lines.row -> receipt_lines.row) : write_result :=
  sql_update (fun NEW => NEW) receipt_lines_constraints db s where_ set_.

(** Statements that write [receipt_lines], directly or through the
    cascade from [receipts]. *)
Inductive lines_statement :=
| lines_insert (e : env) (s : session) (p : receipt_lines.new.row)
| lines_update (s : session) (where_ : receipt_lines.row -> bool)
    (set_ : receipt_lines.row -> receipt_lines.row)
| lines_delete_receipts (s : session) (where_ : receipts.row -> bool).

Definition run_lines_statement (db : database) (st : lines_statement) : database :=
  match st with
  | lines_insert e s p => state_after (insert_receipt_line db e s p) db
  | lines_update s where_ set_ => state_after (update_receipt_lines db s where_ set_) db
  | lines_delete_receipts s where_ => state_after (delete_receipts db s where_) db
  end.

Definition run_lines_statements (db : database) (sts : list lines_statement) : database :=
  fold_left run_lines_statement sts db.

(** Every stored line has a positive quantity and belongs to a stored
    receipt. *)
Definition lines_well_formed (db : database) : Prop :=
  forall l, In l (db_receipt_lines db) ->
    0 < receipt_lines.quantity l
    /\ In (receipt_lines.receipt_id l) (List.map receipts.id (db_receipts db)).

(** The row an accepted INSERT of a line stores. *)
Definition stored_line (e : env) (p : receipt_lines.new.row)
    (receipt product : uuid) (quantity : numeric) : receipt_lines.row :=
  {| receipt_lines.id := default (gen_random_uuid e) (receipt_lines.new.id p);
     receipt_lines.receipt_id := receipt;
     receipt_lines.product_id := product;
     receipt_lines.quantity := quantity;
     receipt_lines.received_quantity :=
       default (Some 0) (receipt_lines.new.received_quantity p);
     receipt_lines.created_at := default (now e) (receipt_lines.new.created_at p) |}.


(** * Properties *)

(** ** Ledger and balances *)

Lemma with_stock_movements_same (db : database) :
  with_stock_movements (db_stock_movements db) db = db.
Proof. by destruct db. Qed.

Lemma sql_insert_inv {R} `{Relation R} db s i cb (build : result R) constraints db' n :
  sql_insert db s i cb build constraints = Ok (db', n) ->
  exists r, build = Ok r /\ db' = with_rows (rows_of db ++ [r]) db.
Proof.
  unfold sql_insert. destruct (match s with Owner => _ | Api _ => _ end); [|done].
  destruct build as [r|e]; unfold mbind, result_bind; [|done].
  destruct (constraints db None r); [done|]. intros [= <- _]. by exists r.
Qed.

Lemma insert_stock_movement_ledger db e s p :
  db_stock_movements (state_after (insert_stock_movement db e s p) db) =
  db_stock_movements db ++
    match insert_stock_movement db e s p, stock_movements_build e p with
    | Ok _, Ok r => [r]
    | _, _ => []
    end.
Proof.
  destruct (insert_stock_movement db e s p) as [[db' n]|err] eqn:E; simpl.
  - apply sql_insert_inv in E as (r & -> & ->). by destruct db.
  - by rewrite app_nil_r.
Qed.

Lemma insert_all_ledger attempts db :
  db_stock_movements (insert_all db attempts) = db_stock_movements db ++ inserted db attempts.
Proof.
  revert db. induction attempts as [|a rest IH]; intros db; simpl.
  - by rewrite app_nil_r.
  - unfold insert_all in *. simpl. rewrite IH, insert_stock_movement_ledger.
    rewrite <- app_assoc. f_equal.
    destruct (insert_stock_movement db _ _ _) as [[]|]; simpl;
      [destruct (stock_movements_build _ _)|]; done.
Qed.

(** One pass of the aggregate over [rows], started from [groups]. *)
Lemma aggregate_lookup (rows : list stock_movements.row) (groups : gmap (uuid * uuid) numeric)
    (product warehouse : uuid) :
  foldl (fun groups r =>
           let k := (stock_movements.product_id r, stock_movements.warehouse_id r) in
           <[k := default 0 (groups !! k) + stock_movements.quantity r]> groups)
        groups rows !! (product, warehouse) =
  match movements_of product warehouse rows with
  | [] => groups !! (product, warehouse)
  | own => Some (default 0 (groups !! (product, warehouse)) + sum_quantity own)
  end.
Proof.
  revert groups. induction rows as [|r rest IH]; intros groups; [done|].
  simpl. rewrite IH. unfold movements_of. simpl.
  destruct (decide (stock_movements.product_id r = product)) as [Hp|Hp];
    destruct (decide (stock_movements.warehouse_id r = warehouse)) as [Hw|Hw];
    rewrite ?(bool_decide_eq_true_2 _ Hp), ?(bool_decide_eq_false_2 _ Hp),
            ?(bool_decide_eq_true_2 _ Hw), ?(bool_decide_eq_false_2 _ Hw); simpl.
  - subst. rewrite lookup_insert_eq. simpl.
    fold (movements_of (stock_movements.product_id r) (stock_movements.warehouse_id r) rest).
    destruct (movements_of _ _ rest) as [|r' own]; unfold sum_quantity; simpl; f_equal; lia.
  - rewrite lookup_insert_ne by congruence. done.
  - rewrite lookup_insert_ne by congruence. done.
  - rewrite lookup_insert_ne by congruence. done.
Qed.

Lemma stock_balances_lookup db product warehouse :
  stock_balances db !! (product, warehouse) =
  match movements_of product warehouse (db_stock_movements db) with
  | [] => None
  | own => Some (sum_quantity own)
  end.
Proof.
  unfold stock_balances. rewrite aggregate_lookup, lookup_empty. simpl.
  by destruct (movements_of _ _ _).
Qed.

(** C1. After any sequence of INSERTs into [stock_movements], the ledger is
    the old ledger followed by the rows of the INSERTs that succeeded, and
    [stock_balances] has a row for a (product, warehouse) pair exactly when
    the ledger has a movement of that pair, whose quantity is the sum of
    the signed quantities of the pair's movements. *)
Theorem stock_balances_sum_of_movements (db : database) (attempts : list attempt)
    (product warehouse : uuid) :
  let ledger := db_stock_movements db ++ inserted db attempts in
  db_stock_movements (insert_all db attempts) = ledger
  /\ stock_balances (insert_all db attempts) !! (product, warehouse) =
     match movements_of product warehouse ledger with
     | [] => None
     | own => Some (sum_quantity own)
     end.
Proof.
  simpl. split; [apply insert_all_ledger|].
  by rewrite stock_balances_lookup, insert_all_ledger.
Qed.

(** The end-to-end scenario of the specification: +50 received and -20
    delivered leave 30. *)
Example stock_balances_example :
  stock_balances example_db !! (200%N, 100%N) = Some 3000
  /\ stock_balances example_db !! (200%N, 101%N) = None.
Proof. split; vm_compute; reflexivity. Qed.

(** ** The ledger is append-only *)

Lemma with_rows_same_stock_movements (db : database) :
  with_rows (R := stock_movements.row) (rows_of db) db = db.
Proof. by destruct db. Qed.

(** An UPDATE that reaches no row leaves the table as it is. *)
Lemma rls_update_untargeted {R} `{Relation R} db s where_ set_ before constraints
    (rows : list R) :
  (forall r, targeted db s UPDATE where_ r = false) ->
  rls_update db s where_ set_ before constraints rows = Ok (rows, 0%nat).
Proof.
  intros Hno. induction rows as [|r rest IH]; [done|].
  simpl. by rewrite Hno, IH.
Qed.

(** A DELETE that reaches no row leaves the table as it is. *)
Lemma rls_delete_untargeted {R} `{Relation R} db s where_ (rows : list R) :
  (forall r, targeted db s DELETE where_ r = false) ->
  rls_delete db s where_ rows = (rows, []).
Proof.
  intros Hno. unfold rls_delete. f_equal.
  - induction rows as [|r rest IH]; [done|]. simpl. by rewrite Hno, IH.
  - induction rows as [|r rest IH]; [done|]. simpl. by rewrite Hno, IH.
Qed.

(** No policy of [stock_movements] is written for UPDATE, DELETE or ALL. *)
Lemma stock_movements_not_targeted db who c where_ (r : stock_movements.row) :
  c = UPDATE \/ c = DELETE -> targeted db (Api who) c where_ r = false.
Proof.
  intros [-> | ->]; unfold targeted; apply andb_false_intro2; reflexivity.
Qed.

(** C2. Whoever calls the API, an UPDATE or a DELETE on [stock_movements]
    reaches no row: the statement completes and the database, the ledger
    with it, is what it was.  An INSERT can only put one row at the end of
    the ledger. *)
Theorem stock_movements_immutable (db : database) (who : caller) (e : env)
    (where_ : stock_movements.row -> bool)
    (set_ : stock_movements.row -> stock_movements.row)
    (p : stock_movements.new.row) :
  update_stock_movements db (Api who) where_ set_ = Ok (db, 0%nat)
  /\ delete_stock_movements db (Api who) where_ = Ok (db, 0%nat)
  /\ exists added,
       db_stock_movements (state_after (insert_stock_movement db e (Api who) p) db)
       = db_stock_movements db ++ added.
Proof.
  split; [|split].
  - unfold update_stock_movements, sql_update.
    rewrite rls_update_untargeted
      by (intros r; apply stock_movements_not_targeted; by left).
    by rewrite with_rows_same_stock_movements.
  - unfold delete_stock_movements, sql_delete.
    rewrite rls_delete_untargeted
      by (intros r; apply stock_movements_not_targeted; by right).
    simpl. by rewrite with_stock_movements_same.
  - eexists. apply insert_stock_movement_ledger.
Qed.

(** ** Role assignments are for admins *)

(** What the three policies of [user_roles] come to. *)
Lemma user_roles_using db who c i cb :
  c = SELECT \/ c = DELETE ->
  using_ok db who public_user_roles c i cb = has_role db (auth_uid who) admin.
Proof.
  intros [-> | ->]; unfold using_ok; simpl;
    destruct (has_role db (auth_uid who) admin); reflexivity.
Qed.

Lemma user_roles_insert_check db who i cb :
  check_ok db who public_user_roles INSERT i cb = has_role db (auth_uid who) admin.
Proof.
  unfold check_ok; simpl. destruct (has_role db (auth_uid who) admin); reflexivity.
Qed.

Lemma filter_all {A} (f : A -> bool) (l : list A) :
  (forall a, f a = true) -> List.filter f l = l.
Proof. intros Hf. induction l as [|a l IH]; [done|]. simpl. by rewrite Hf, IH. Qed.

Lemma filter_none {A} (f : A -> bool) (l : list A) :
  (forall a, f a = false) -> List.filter f l = [].
Proof. intros Hf. induction l as [|a l IH]; [done|]. simpl. by rewrite Hf. Qed.

(** C8. A SELECT on [user_roles] returns every row to a caller who holds
    the admin role and no row at all to any other caller, the caller's own
    role assignments included. *)
Theorem user_roles_visible_to_admins_only (db : database) (who : caller) :
  select_user_roles db (Api who) =
  if has_role db (auth_uid who) admin then db_user_roles db else [].
Proof.
  unfold select_user_roles, rls_select.
  destruct (has_role db (auth_uid who) admin) eqn:Hadmin.
  - apply filter_all. intros r. simpl. rewrite user_roles_using by (by left). done.
  - apply filter_none. intros r. simpl. rewrite user_roles_using by (by left). done.
Qed.

(** Identity 2 holds the staff role and cannot read even that row. *)
Example staff_cannot_read_own_role :
  has_role example_db (Some 2%N) staff = true
  /\ select_user_roles example_db (Api (Authenticated 2%N)) = []
  /\ select_user_roles example_db (Api (Authenticated 1%N)) = example_user_roles.
Proof. repeat split; vm_compute; reflexivity. Qed.

(** ** Who may update documents and their lines *)

Lemma documents_policies db uid i cb :
  using_ok db (Authenticated uid) public_receipts UPDATE i cb
    = creator_or_privileged_holds db uid cb
  /\ using_ok db (Authenticated uid) public_deliveries UPDATE i cb
    = creator_or_privileged_holds db uid cb.
Proof.
  unfold using_ok, creator_or_privileged_holds.
  with_strategy opaque [has_role] simpl.
  destruct (has_role db (Some uid) admin), (has_role db (Some uid) manager);
    destruct cb as [c|]; simpl; split;
    repeat (case_bool_decide; simplify_eq/=); done.
Qed.

Lemma documents_readable db uid i cb :
  using_ok db (Authenticated uid) public_receipts SELECT i cb = true
  /\ using_ok db (Authenticated uid) public_deliveries SELECT i cb = true.
Proof. split; reflexivity. Qed.

Lemma documents_check db uid i cb :
  check_ok db (Authenticated uid) public_receipts UPDATE i cb
    = creator_or_privileged_holds db uid cb
  /\ check_ok db (Authenticated uid) public_deliveries UPDATE i cb
    = creator_or_privileged_holds db uid cb.
Proof.
  unfold check_ok, creator_or_privileged_holds.
  with_strategy opaque [has_role] simpl.
  destruct (has_role db (Some uid) admin), (has_role db (Some uid) manager);
    destruct cb as [c|]; simpl; split;
    repeat (case_bool_decide; simplify_eq/=); done.
Qed.

(** C9. Any signed-in identity may update any row of [receipt_lines] and of
    [delivery_lines], to any new row: neither the creator of the parent
    document nor the caller's roles are looked at.  For [receipts] and
    [deliveries] themselves the caller must have created the document or
    hold the admin or the manager role, on the row as it is and as it
    becomes. *)
Theorem lines_updatable_by_any_identity (db : database) (uid : uuid) :
  (forall old new : receipt_lines.row,
     update_permitted db (Api (Authenticated uid)) old new = true)
  /\ (forall old new : delivery_lines.row,
        update_permitted db (Api (Authenticated uid)) old new = true)
  /\ (forall old new : receipts.row,
        update_permitted db (Api (Authenticated uid)) old new =
        creator_or_privileged_holds db uid (receipts.created_by old)
        && creator_or_privileged_holds db uid (receipts.created_by new))
  /\ (forall old new : deliveries.row,
        update_permitted db (Api (Authenticated uid)) old new =
        creator_or_privileged_holds db uid (deliveries.created_by old)
        && creator_or_privileged_holds db uid (deliveries.created_by new)).
Proof.
  split; [|split; [|split]]; intros old new;
    unfold update_permitted, targeted, updated_row_ok, row_visible, row_accepted.
  - reflexivity.
  - reflexivity.
  - cbn [relname pk owner_col receipts_rel].
    rewrite (proj1 (documents_check db uid _ _)), (proj1 (documents_policies db uid _ _)).
    destruct (documents_readable db uid (Some (receipts.id old)) (receipts.created_by old)) as [-> _].
    destruct (documents_readable db uid (Some (receipts.id new)) (receipts.created_by new)) as [-> _].
    simpl. by rewrite andb_true_r.
  - cbn [relname pk owner_col deliveries_rel].
    rewrite (proj2 (documents_check db uid _ _)), (proj2 (documents_policies db uid _ _)).
    destruct (documents_readable db uid (Some (deliveries.id old)) (deliveries.created_by old)) as [_ ->].
    destruct (documents_readable db uid (Some (deliveries.id new)) (deliveries.created_by new)) as [_ ->].
    simpl. by rewrite andb_true_r.
Qed.

(** Identity 3 holds no role and did not create the receipt of identity 2:
    the receipt is out of reach, its lines are not. *)
Example stranger_updates_lines_not_documents :
  let rcp := {| receipts.id := 400%N; receipts.reference := "RCP-1";
                receipts.warehouse_id := 100%N; receipts.supplier_name := "Acme";
                receipts.status := draft; receipts.scheduled_date := None;
                receipts.received_date := None; receipts.notes := None;
                receipts.created_by := Some 2%N;
                receipts.created_at := 1000; receipts.updated_at := 1000 |} in
  let line := {| receipt_lines.id := 401%N; receipt_lines.receipt_id := 400%N;
                 receipt_lines.product_id := 200%N; receipt_lines.quantity := 500;
                 receipt_lines.received_quantity := Some 0;
                 receipt_lines.created_at := 1000 |} in
  update_permitted example_db (Api (Authenticated 3%N)) rcp rcp = false
  /\ update_permitted example_db (Api (Authenticated 3%N)) line line = true.
Proof. split; vm_compute; reflexivity. Qed.

(** ** Writing role assignments *)

Lemma with_user_roles_same (db : database) :
  with_user_roles (db_user_roles db) db = db.
Proof. by destruct db. Qed.

Lemma user_roles_delete_targeted db who where_ (r : user_roles.row) :
  targeted db (Api who) DELETE where_ r = where_ r && has_role db (auth_uid who) admin.
Proof.
  unfold targeted, row_visible. cbn [relname pk owner_col user_roles_rel].
  rewrite !user_roles_using by auto. by destruct (where_ r), (has_role _ _ _).
Qed.

(** C6, as the code has it. For a caller who does not hold the admin role,
    an INSERT into [user_roles] fails on the row-level security check and
    a DELETE reaches no row: both leave the database as it was, but only
    the INSERT is reported as denied; the DELETE completes, having deleted
    nothing. *)
Theorem user_roles_writes_need_admin (db : database) (e : env) (who : caller)
    (p : user_roles.new.row) (where_ : user_roles.row -> bool) :
  has_role db (auth_uid who) admin = false ->
  insert_user_role db e (Api who) p = Error insufficient_privilege
  /\ delete_user_roles db (Api who) where_ = Ok (db, 0%nat).
Proof.
  intros Hno. split.
  - unfold insert_user_role, sql_insert. cbn [relname user_roles_rel].
    by rewrite user_roles_insert_check, Hno.
  - unfold delete_user_roles, sql_delete.
    rewrite rls_delete_untargeted.
    + simpl. by rewrite with_user_roles_same.
    + intros r. rewrite user_roles_delete_targeted, Hno. apply andb_false_r.
Qed.

Lemma user_roles_writes_need_admin_witness :
  has_role example_db (auth_uid (Authenticated 2%N)) admin = false
  /\ insert_user_role example_db {| now := 2000; gen_random_uuid := 12%N |}
       (Api (Authenticated 2%N))
       {| user_roles.new.id := None; user_roles.new.user_id := Some 2%N;
          user_roles.new.role := Some admin; user_roles.new.created_at := None |}
     = Error insufficient_privilege
  /\ delete_user_roles example_db (Api (Authenticated 2%N)) (fun _ => true)
     = Ok (example_db, 0%nat).
Proof.
  split; [reflexivity|].
  apply (user_roles_writes_need_admin example_db _ (Authenticated 2%N)). reflexivity.
Defined.

(** C6, as the specification states it, asks for a denial to be reported
    for the DELETE too.  Identity 2 is not an admin; its DELETE of every
    role assignment comes back without an error. *)
Lemma user_roles_delete_by_non_admin_not_reported :
  ~ (forall (db : database) (who : caller) (where_ : user_roles.row -> bool),
       has_role db (auth_uid who) admin = false ->
       exists err, delete_user_roles db (Api who) where_ = Error err).
Proof.
  intros Hclaim.
  destruct (Hclaim example_db (Authenticated 2%N) (fun _ => true) eq_refl) as [err Herr].
  vm_compute in Herr. discriminate Herr.
Qed.

(** An admin does insert and delete role assignments. *)
Example admin_manages_roles :
  let e := {| now := 2000; gen_random_uuid := 12%N |} in
  db_user_roles
    (state_after
       (insert_user_role example_db e (Api (Authenticated 1%N))
          {| user_roles.new.id := None; user_roles.new.user_id := Some 3%N;
             user_roles.new.role := Some manager; user_roles.new.created_at := None |})
       example_db)
  = example_user_roles ++
      [{| user_roles.id := 12%N; user_roles.user_id := 3%N; user_roles.role := manager;
          user_roles.created_at := 2000 |}]
  /\ db_user_roles
       (state_after
          (delete_user_roles example_db (Api (Authenticated 1%N))
             (fun r => bool_decide (user_roles.user_id r = 2%N)))
          example_db)
     = [{| user_roles.id := 10%N; user_roles.user_id := 1%N; user_roles.role := admin;
           user_roles.created_at := 1000 |}].
Proof. split; vm_compute; reflexivity. Qed.

(** ** Deleting what the ledger refers to *)

Lemma with_warehouses_same (db : database) : with_warehouses (db_warehouses db) db = db.
Proof. by destruct db. Qed.

Lemma with_products_same (db : database) : with_products (db_products db) db = db.
Proof. by destruct db. Qed.

(** [warehouses] and [products] have no policy for DELETE or ALL. *)
Lemma masters_not_deletable db who :
  (forall where_ (w : warehouses.row), targeted db (Api who) DELETE where_ w = false)
  /\ (forall where_ (p : products.row), targeted db (Api who) DELETE where_ p = false).
Proof. split; intros; unfold targeted; apply andb_false_intro2; reflexivity. Qed.

Lemma delete_warehouses_api db who where_ :
  delete_warehouses db (Api who) where_ = Ok (db, 0%nat).
Proof.
  unfold delete_warehouses, sql_delete.
  rewrite rls_delete_untargeted by (intros; apply masters_not_deletable).
  simpl. by rewrite with_warehouses_same.
Qed.

Lemma delete_products_api db who where_ :
  delete_products db (Api who) where_ = Ok (db, 0%nat).
Proof.
  unfold delete_products, sql_delete.
  rewrite rls_delete_untargeted by (intros; apply masters_not_deletable).
  simpl. by rewrite with_products_same.
Qed.

(** When a row to delete is still referenced, the statement fails with the
    violation of the first such row. *)
Lemma restrict_fails {R} (restrict : R -> option sqlerror) (gone : list R) (w : R) :
  In w gone ->
  (forall r e, restrict r = Some e -> exists c, e = foreign_key_violation c) ->
  restrict w <> None ->
  exists c,
    first_violation
      (List.map (fun r => match restrict r with
                          | Some e => (false, e)
                          | None => (true, insufficient_privilege)
                          end) gone)
    = Some (foreign_key_violation c).
Proof.
  intros Hin Hfk Hw. induction gone as [|r rest IH]; [destruct Hin|].
  simpl. destruct (restrict r) as [e|] eqn:Hr.
  - destruct (Hfk r e Hr) as [c ->]. by exists c.
  - destruct Hin as [-> | Hin]; [congruence | by apply IH].
Qed.

Lemma sql_delete_restricted {R} `{Relation R} (restrict : database -> R -> option sqlerror)
    db where_ (w : R) :
  In w (rows_of db) -> where_ w = true ->
  (forall r e, restrict db r = Some e -> exists c, e = foreign_key_violation c) ->
  restrict db w <> None ->
  exists c, sql_delete restrict db Owner where_ = Error (foreign_key_violation c).
Proof.
  intros Hin Hwhere Hfk Hw. unfold sql_delete, rls_delete.
  destruct (restrict_fails (restrict db)
              (List.filter (targeted db Owner DELETE where_) (rows_of db)) w) as [c Hc];
    [ | done | done | ].
  - apply filter_In. split; [done|]. unfold targeted. by rewrite Hwhere.
  - exists c. by rewrite Hc.
Qed.

Lemma warehouses_restrict_fk db w e :
  warehouses_restrict db w = Some e -> exists c, e = foreign_key_violation c.
Proof.
  unfold warehouses_restrict. simpl.
  repeat (destruct (negb _); simpl); intros [= <-]; eauto.
Qed.

Lemma products_restrict_fk db p e :
  products_restrict db p = Some e -> exists c, e = foreign_key_violation c.
Proof.
  unfold products_restrict. simpl.
  repeat (destruct (negb _); simpl); intros [= <-]; eauto.
Qed.

Lemma warehouses_restrict_movement db w :
  warehouse_has_movement db w = true -> warehouses_restrict db w <> None.
Proof.
  unfold warehouse_has_movement, warehouses_restrict. intros ->. simpl.
  repeat (destruct (negb _); simpl); done.
Qed.

Lemma products_restrict_movement db p :
  product_has_movement db p = true -> products_restrict db p <> None.
Proof.
  unfold product_has_movement, products_restrict. intros ->. simpl.
  repeat (destruct (negb _); simpl); done.
Qed.

(** C5, as the code has it. A DELETE that names a warehouse or a product
    with a movement in the ledger never removes it.  Run by the owner of
    the tables it fails with a foreign-key violation (ON DELETE RESTRICT);
    run by an API caller it reaches no row, because [warehouses] and
    [products] have no DELETE policy, and completes having deleted
    nothing. *)
Theorem referenced_masters_stay (db : database) (s : session) :
  (forall where_ w,
     In w (db_warehouses db) -> where_ w = true -> warehouse_has_movement db w = true ->
     state_after (delete_warehouses db s where_) db = db
     /\ match s with
        | Owner => is_foreign_key_violation (delete_warehouses db s where_) = true
        | Api _ => delete_warehouses db s where_ = Ok (db, 0%nat)
        end)
  /\ (forall where_ p,
        In p (db_products db) -> where_ p = true -> product_has_movement db p = true ->
        state_after (delete_products db s where_) db = db
        /\ match s with
           | Owner => is_foreign_key_violation (delete_products db s where_) = true
           | Api _ => delete_products db s where_ = Ok (db, 0%nat)
           end).
Proof.
  split.
  - intros where_ w Hin Hwhere Href. destruct s as [who|].
    + by rewrite delete_warehouses_api.
    + destruct (sql_delete_restricted warehouses_restrict db where_ w) as [c Hc];
        [done | done | apply warehouses_restrict_fk
        | by apply warehouses_restrict_movement | ].
      unfold delete_warehouses. by rewrite Hc.
  - intros where_ p Hin Hwhere Href. destruct s as [who|].
    + by rewrite delete_products_api.
    + destruct (sql_delete_restricted products_restrict db where_ p) as [c Hc];
        [done | done | apply products_restrict_fk
        | by apply products_restrict_movement | ].
      unfold delete_products. by rewrite Hc.
Qed.

Lemma referenced_masters_stay_witness :
  (In main_warehouse (db_warehouses example_db)
   /\ warehouse_has_movement example_db main_warehouse = true
   /\ is_foreign_key_violation
        (delete_warehouses example_db Owner
           (fun w => bool_decide (warehouses.id w = 100%N))) = true)
  /\ (In widget (db_products example_db)
      /\ product_has_movement example_db widget = true
      /\ is_foreign_key_violation
           (delete_products example_db Owner
              (fun p => bool_decide (products.id p = 200%N))) = true).
Proof.
  split.
  - split; [by left|]. split; [reflexivity|].
    apply (proj1 (referenced_masters_stay example_db Owner)
             (fun w => bool_decide (warehouses.id w = 100%N)) main_warehouse);
      [by left | reflexivity | reflexivity].
  - split; [by left|]. split; [reflexivity|].
    apply (proj2 (referenced_masters_stay example_db Owner)
             (fun p => bool_decide (products.id p = 200%N)) widget);
      [by left | reflexivity | reflexivity].
Defined.

(** C5, as the specification states it, has every such DELETE rejected.
    Identity 1, an admin, deletes the main warehouse through the API: the
    statement is not rejected, it deletes no row. *)
Lemma referenced_warehouse_delete_not_rejected :
  ~ (forall (db : database) (s : session) (where_ : warehouses.row -> bool)
            (w : warehouses.row),
       In w (db_warehouses db) -> where_ w = true -> warehouse_has_movement db w = true ->
       exists err, delete_warehouses db s where_ = Error err).
Proof.
  intros Hclaim.
  destruct (Hclaim example_db (Api (Authenticated 1%N))
              (fun w => bool_decide (warehouses.id w = 100%N)) main_warehouse)
    as [err Herr]; [by left | reflexivity | reflexivity |].
  vm_compute in Herr. discriminate Herr.
Qed.

(** ** The timestamp trigger *)

(** [handle_updated_at] is attached to [profiles] and to no other table:
    on the five other tables with an [updated_at] column a BEFORE UPDATE
    leaves NEW as the statement made it. *)
Lemma fire_before_update_tables (e : env) :
  (forall NEW : profiles.row,
     profiles.updated_at (fire_before_update e NEW) = now e)
  /\ (forall NEW : warehouses.row, fire_before_update e NEW = NEW)
  /\ (forall NEW : categories.row, fire_before_update e NEW = NEW)
  /\ (forall NEW : products.row, fire_before_update e NEW = NEW)
  /\ (forall NEW : receipts.row, fire_before_update e NEW = NEW)
  /\ (forall NEW : deliveries.row, fire_before_update e NEW = NEW).
Proof. repeat split. Qed.

(** On [profiles] the trigger does its work: identity 2 renames itself at
    time 5000 and the row is stamped. *)
Example profile_update_is_stamped :
  db_profiles
    (state_after
       (rename_profile example_db {| now := 5000; gen_random_uuid := 0%N |}
          (Api (Authenticated 2%N)) 2%N "Sam Staff")
       example_db) !! 1%nat
  = Some {| profiles.id := 2%N; profiles.full_name := "Sam Staff";
            profiles.email := "staff@example.com";
            profiles.created_at := 1000; profiles.updated_at := 5000 |}.
Proof. vm_compute. reflexivity. Qed.

(** C3 fails on [warehouses]. The admin renames the main warehouse at time
    5000: the UPDATE goes through and changes one row, whose [updated_at]
    is still the 1000 of its creation. *)
Theorem warehouse_update_not_stamped :
  rename_warehouse example_db {| now := 5000; gen_random_uuid := 0%N |}
    (Api (Authenticated 1%N)) 100%N "Central Warehouse"
  = Ok (with_warehouses
          [{| warehouses.id := 100%N; warehouses.name := "Central Warehouse";
              warehouses.code := "WH-MAIN";
              warehouses.address := Some "123 Warehouse Street";
              warehouses.is_active := true;
              warehouses.created_at := 1000; warehouses.updated_at := 1000 |}]
          example_db, 1%nat).
Proof. vm_compute. reflexivity. Qed.

(** ** The profile provisioner *)

Lemma has_user_app db NEW i :
  has_user (with_auth_users (auth_users db ++ [NEW]) db) i
  = has_user db i || bool_decide (users.id NEW = i).
Proof.
  unfold has_user. simpl. rewrite existsb_app. simpl. by rewrite orb_false_r.
Qed.

(** Before an identity exists no profile carries its id. *)
Lemma no_profile_without_user db i :
  profiles_reference_users db -> has_user db i = false ->
  List.filter (fun p => bool_decide (profiles.id p = i)) (db_profiles db) = []
  /\ existsb (fun p => bool_decide (profiles.id p = i)) (db_profiles db) = false.
Proof.
  unfold profiles_reference_users. intros Hfk Hnew.
  induction (db_profiles db) as [|p rest IH]; [done|].
  simpl. destruct (decide (profiles.id p = i)) as [<-|Hne].
  - rewrite Hfk in Hnew by (by left). discriminate.
  - rewrite (bool_decide_eq_false_2 _ Hne). simpl.
    apply IH. intros q Hq. apply Hfk. by right.
Qed.

Lemma insert_auth_user_inv db e NEW db' n :
  profiles_reference_users db ->
  insert_auth_user db e NEW = Ok (db', n) ->
  exists email,
    users.email NEW = Some email
    /\ has_user db (users.id NEW) = false
    /\ db' = with_profiles
               (db_profiles db ++
                  [{| profiles.id := users.id NEW;
                      profiles.full_name :=
                        COALESCE (json_get_text (users.raw_user_meta_data NEW) "full_name") EmptyString;
                      profiles.email := email;
                      profiles.created_at := now e;
                      profiles.updated_at := now e |}])
               (with_auth_users (auth_users db ++ [NEW]) db).
Proof.
  intros Hfk. unfold insert_auth_user.
  destruct (has_user db (users.id NEW)) eqn:Hnew; [done|].
  unfold handle_new_user, insert_profile, sql_insert, profiles_build.
  destruct (users.email NEW) as [email|]; simpl; [|done].
  unfold mbind, result_bind. simpl.
  destruct (profiles_constraints _ _ _); simpl; [done|].
  intros [= <- _]. by exists email.
Qed.

Lemma insert_auth_user_succeeds db e NEW email :
  profiles_reference_users db ->
  has_user db (users.id NEW) = false ->
  users.email NEW = Some email ->
  exists db', insert_auth_user db e NEW = Ok (db', 1%nat).
Proof.
  intros Hfk Hnew Hemail. unfold insert_auth_user. rewrite Hnew.
  unfold handle_new_user, insert_profile, sql_insert, profiles_build.
  rewrite Hemail. simpl. unfold mbind, result_bind. simpl.
  unfold profiles_constraints, key_free. simpl.
  rewrite (proj2 (no_profile_without_user db _ Hfk Hnew)). simpl.
  rewrite has_user_app, bool_decide_eq_true_2, orb_true_r by done. simpl.
  by eexists.
Qed.

(** C4. Whenever the creation of an identity goes through, the database
    has exactly one profile with the identity's [id]; its [email] is the
    identity's, and its [full_name] is the [full_name] attribute of the
    identity's metadata, or the empty string when there is none.  The
    creation does go through for any identity that is new and has an
    email. *)
Theorem new_identity_gets_one_profile (db : database) (e : env) (NEW : users.row) :
  profiles_reference_users db ->
  (forall db' n,
     insert_auth_user db e NEW = Ok (db', n) ->
     exists p,
       profiles_of (users.id NEW) db' = [p]
       /\ profiles.id p = users.id NEW
       /\ users.email NEW = Some (profiles.email p)
       /\ profiles.full_name p =
          default EmptyString (json_get_text (users.raw_user_meta_data NEW) "full_name"))
  /\ (has_user db (users.id NEW) = false -> users.email NEW <> None ->
      exists db', insert_auth_user db e NEW = Ok (db', 1%nat)).
Proof.
  intros Hfk. split.
  - intros db' n Hok.
    destruct (insert_auth_user_inv db e NEW db' n Hfk Hok) as (email & Hemail & Hnew & ->).
    exists {| profiles.id := users.id NEW;
              profiles.full_name :=
                COALESCE (json_get_text (users.raw_user_meta_data NEW) "full_name") EmptyString;
              profiles.email := email;
              profiles.created_at := now e;
              profiles.updated_at := now e |}.
    split; [|split; [|split]]; [|reflexivity|exact Hemail|reflexivity].
    unfold profiles_of. simpl. rewrite List.filter_app.
    rewrite (proj1 (no_profile_without_user db _ Hfk Hnew)). simpl.
    by rewrite bool_decide_eq_true_2.
  - intros Hnew Hemail. destruct (users.email NEW) as [email|] eqn:E; [|done].
    by apply (insert_auth_user_succeeds db e NEW email).
Qed.

Lemma example_db_profiles_reference_users : profiles_reference_users example_db.
Proof.
  intros p Hp. simpl in Hp.
  destruct Hp as [<- | [<- | [<- | []]]]; reflexivity.
Qed.

Lemma new_identity_gets_one_profile_witness :
  let NEW := {| users.id := 4%N; users.email := Some "new@example.com";
                users.raw_user_meta_data := None |} in
  let e := {| now := 7000; gen_random_uuid := 0%N |} in
  exists db' p,
    insert_auth_user example_db e NEW = Ok (db', 1%nat)
    /\ profiles_of 4%N db' = [p]
    /\ profiles.id p = 4%N
    /\ Some "new@example.com" = Some (profiles.email p)
    /\ profiles.full_name p = EmptyString.
Proof.
  intros NEW e.
  destruct (new_identity_gets_one_profile example_db e NEW
              example_db_profiles_reference_users) as [Hone Hruns].
  destruct (Hruns eq_refl ltac:(discriminate)) as [db' Hok].
  destruct (Hone db' 1%nat Hok) as (p & Hp & Hid & Hemail & Hname).
  exists db', p. repeat split; assumption.
Defined.

(** ** Two receipts in the same millisecond *)

Lemma with_receipts_same (db : database) : with_receipts (db_receipts db) db = db.
Proof. by destruct db. Qed.

(** A signed-in caller passes the INSERT policy of [receipts] whatever the
    row. *)
Lemma receipts_insert_check db uid i cb :
  check_ok db (Authenticated uid) public_receipts INSERT i cb = true.
Proof. reflexivity. Qed.

Lemma stock_status_in_draft : stock_status_in "draft" = Some draft.
Proof. vm_compute. reflexivity. Qed.

Lemma bind_Ok {A B} (a : A) (k : A -> result B) : Ok a ≫= k = k a.
Proof. reflexivity. Qed.

(** What a submission that went through has stored. *)
Lemma handleSubmit_inv uuid_in date_in db e who t form db' n :
  Receipts.handleSubmit uuid_in date_in db e who t form = Ok (db', n) ->
  exists r,
    receipts.reference r = ("RCP-" ++ string_of_number t)%string
    /\ receipts.supplier_name r = Receipts.supplier_name form
    /\ receipts.status r = draft
    /\ db' = with_receipts (db_receipts db ++ [r]) db.
Proof.
  unfold Receipts.handleSubmit, cast, insert_receipt.
  destruct (uuid_in _) as [w|]; [|done]. rewrite bind_Ok.
  destruct (bool_decide _); [|destruct (date_in _) as [d|]; [|done]];
    rewrite !bind_Ok, stock_status_in_draft, bind_Ok;
    intros Hok; apply sql_insert_inv in Hok as (r & Hr & ->);
    injection Hr as <-; eexists; repeat split; reflexivity.
Qed.

(** An INSERT whose [reference] is already in the table fails on a
    unique index: the one of [reference], unless the one of [id] fails
    first. *)
Lemma insert_receipt_duplicate db e uid p r0 ref w sup :
  In r0 (db_receipts db) -> receipts.reference r0 = ref ->
  receipts.new.reference p = Some ref ->
  receipts.new.warehouse_id p = Some w ->
  receipts.new.supplier_name p = Some sup ->
  insert_receipt db e (Api (Authenticated uid)) p
    = Error (unique_violation "receipts_reference_key")
  \/ insert_receipt db e (Api (Authenticated uid)) p
    = Error (unique_violation "receipts_pkey").
Proof.
  intros Hin Href Hpref Hpw Hpsup.
  unfold insert_receipt, sql_insert. cbn [relname receipts_rel].
  rewrite receipts_insert_check.
  unfold receipts_build. rewrite Hpref, Hpw, Hpsup. unfold not_null.
  rewrite !bind_Ok. unfold receipts_constraints, first_violation.
  destruct (key_free receipts.id _ None _); [|by right].
  left. unfold key_free. cbn [receipts.reference].
  assert (Htaken : existsb (fun r => bool_decide (receipts.reference r = ref))
                     (db_receipts db) = true).
  { apply existsb_exists. exists r0. split; [done|]. by apply bool_decide_eq_true_2. }
  by rewrite Htaken.
Qed.

(** C7. Two submissions of the Receipts page read the same [Date.now()].
    The first goes through. The second, from any signed-in caller with a
    well-formed form, fails with a unique violation, on [reference] unless
    the fresh [id] already collides, and the database keeps the first
    receipt exactly as the first submission left it. *)
Theorem same_millisecond_receipt_rejected
    (uuid_in : string -> option uuid) (date_in : string -> option date)
    (db db1 : database) (e1 e2 : env) (who1 : caller) (uid2 : uuid) (t : Z)
    (form1 form2 : Receipts.formData) (n : nat) :
  Receipts.handleSubmit uuid_in date_in db e1 who1 t form1 = Ok (db1, n) ->
  Receipts.well_formed uuid_in date_in form2 ->
  let second := Receipts.handleSubmit uuid_in date_in db1 e2 (Authenticated uid2) t form2 in
  (second = Error (unique_violation "receipts_reference_key")
   \/ second = Error (unique_violation "receipts_pkey"))
  /\ state_after second db1 = db1
  /\ exists r,
       In r (db_receipts db1)
       /\ receipts.reference r = ("RCP-" ++ string_of_number t)%string
       /\ receipts.supplier_name r = Receipts.supplier_name form1.
Proof.
  intros Hfirst [Hw Hd] second.
  destruct (handleSubmit_inv _ _ _ _ _ _ _ _ _ Hfirst) as (r & Href & Hsup & _ & ->).
  assert (Hsecond : second = Error (unique_violation "receipts_reference_key")
                    \/ second = Error (unique_violation "receipts_pkey")).
  { subst second. unfold Receipts.handleSubmit, cast.
    destruct (uuid_in _) as [w|]; [|done]. rewrite bind_Ok.
    assert (Hdate : exists sd,
               (if bool_decide (Receipts.scheduled_date form2 = EmptyString) then Ok None
                else d ← match date_in (Receipts.scheduled_date form2) with
                         | Some a => Ok a
                         | None => Error invalid_text_representation
                         end; Ok (Some d)) = Ok sd).
    { case_bool_decide as Hempty; [by eexists|].
      destruct Hd as [Hd|Hd]; [done|].
      destruct (date_in _) as [d|]; [by eexists | done]. }
    destruct Hdate as [sd ->].
    rewrite bind_Ok, stock_status_in_draft, bind_Ok.
    eapply (insert_receipt_duplicate _ _ _ _ r); [|exact Href|reflexivity..].
    simpl. apply in_or_app. right. by left. }
  split; [exact Hsecond|]. split.
  - by destruct Hsecond as [-> | ->].
  - exists r. split; [|done]. simpl. apply in_or_app. right. by left.
Qed.

Lemma same_millisecond_receipt_rejected_witness :
  Receipts.handleSubmit example_uuid_in example_date_in example_db
    {| now := 9000; gen_random_uuid := 500%N |} (Authenticated 2%N)
    1763786722000 form_acme = Ok (db_after_acme, 1%nat)
  /\ Receipts.well_formed example_uuid_in example_date_in form_globex
  /\ (Receipts.handleSubmit example_uuid_in example_date_in db_after_acme
        {| now := 9001; gen_random_uuid := 501%N |} (Authenticated 3%N)
        1763786722000 form_globex = Error (unique_violation "receipts_reference_key")
      \/ Receipts.handleSubmit example_uuid_in example_date_in db_after_acme
           {| now := 9001; gen_random_uuid := 501%N |} (Authenticated 3%N)
           1763786722000 form_globex = Error (unique_violation "receipts_pkey")).
Proof.
  assert (Hfirst : Receipts.handleSubmit example_uuid_in example_date_in example_db
            {| now := 9000; gen_random_uuid := 500%N |} (Authenticated 2%N)
            1763786722000 form_acme = Ok (db_after_acme, 1%nat))
    by (vm_compute; reflexivity).
  assert (Hform : Receipts.well_formed example_uuid_in example_date_in form_globex)
    by (split; [|right]; vm_compute; discriminate).
  split; [exact Hfirst|]. split; [exact Hform|].
  exact (proj1 (same_millisecond_receipt_rejected example_uuid_in example_date_in
                  example_db db_after_acme _ {| now := 9001; gen_random_uuid := 501%N |}
                  _ 3%N _ _ form_globex _ Hfirst Hform)).
Defined.

(** The reference the page makes of a clock reading, and the collision
    itself. *)
Example same_millisecond_example :
  string_of_number 1763786722000 = "1763786722000"
  /\ List.map receipts.reference (db_receipts db_after_acme) = ["RCP-1763786722000"]
  /\ Receipts.handleSubmit example_uuid_in example_date_in db_after_acme
       {| now := 9001; gen_random_uuid := 501%N |} (Authenticated 3%N)
       1763786722000 form_globex = Error (unique_violation "receipts_reference_key")
  /\ Receipts.handleSubmit example_uuid_in example_date_in db_after_acme
       {| now := 9001; gen_random_uuid := 501%N |} (Authenticated 3%N)
       1763786722001 form_globex <> Error (unique_violation "receipts_reference_key").
Proof. repeat split; vm_compute; try reflexivity; discriminate. Qed.

(** ** The dashboard's low-stock figure *)

(** [digits2_pos] counts the bits of a positive number. *)
Lemma digits2_pos_bounds (p : positive) :
  2 ^ (Zpos (digits2_pos p) - 1) <= Zpos p < 2 ^ Zpos (digits2_pos p).
Proof.
  induction p as [p IH|p IH|]; simpl digits2_pos.
  - rewrite Pos2Z.inj_succ. replace (Z.succ (Z.pos (digits2_pos p)) - 1) with (Z.succ (Z.pos (digits2_pos p) - 1)) by lia.
    rewrite !Z.pow_succ_r by lia. lia.
  - rewrite Pos2Z.inj_succ. replace (Z.succ (Z.pos (digits2_pos p)) - 1) with (Z.succ (Z.pos (digits2_pos p) - 1)) by lia.
    rewrite !Z.pow_succ_r by lia. lia.
  - simpl. lia.
Qed.

Lemma digits2_pos_unique (p : positive) (d : Z) :
  2 ^ (d - 1) <= Zpos p < 2 ^ d -> Zpos (digits2_pos p) = d.
Proof.
  intros [Hlo Hhi]. pose proof (digits2_pos_bounds p) as [Hlo' Hhi'].
  assert (0 < d).
  { destruct (Z.lt_trichotomy d 0) as [Hd|[Hd|Hd]]; [|subst; simpl in Hhi; lia|done].
    rewrite Z.pow_neg_r in Hhi by done. lia. }
  destruct (Z.lt_trichotomy (Zpos (digits2_pos p)) d) as [Hlt|[Heq|Hgt]]; [|done|].
  - assert (2 ^ Zpos (digits2_pos p) <= 2 ^ (d - 1)) by (apply Z.pow_le_mono_r; lia). lia.
  - assert (2 ^ d <= 2 ^ (Zpos (digits2_pos p) - 1)) by (apply Z.pow_le_mono_r; lia). lia.
Qed.

(** The shift loop of the rounding, as a plain iteration. *)
Lemma iter_pos_nat {A} (f : A -> A) (p : positive) (x : A) :
  SpecFloat.iter_pos f p x = Nat.iter (Pos.to_nat p) f x.
Proof.
  revert x. induction p as [p IH|p IH|]; intros x; simpl SpecFloat.iter_pos.
  - rewrite !IH, Pos2Nat.inj_xI, <- Nat.iter_add, <- Nat.iter_succ_r. f_equal. lia.
  - rewrite !IH, Pos2Nat.inj_xO, <- Nat.iter_add. f_equal. lia.
  - reflexivity.
Qed.

Lemma shr_1_spec (m : Z) (r s : bool) :
  0 <= m -> shr_1 {| shr_m := m; shr_r := r; shr_s := s |}
            = {| shr_m := m / 2; shr_r := Z.odd m; shr_s := r || s |}.
Proof.
  intros Hm. rewrite <- Z.div2_div. destruct m as [|[p|p|]|]; try reflexivity. lia.
Qed.

Lemma mod_pow2_succ (m : Z) (j : Z) :
  0 <= m -> 0 <= j ->
  m mod 2 ^ (j + 1) = 2 ^ j * (if Z.odd (m / 2 ^ j) then 1 else 0) + m mod 2 ^ j.
Proof.
  intros Hm Hj. assert (Hpos : 0 < 2 ^ j) by (apply Z.pow_pos_nonneg; lia).
  pose proof (Z.div_mod m (2 ^ j) ltac:(lia)) as Hdm.
  pose proof (Z.mod_pos_bound m (2 ^ j) Hpos) as Hrho.
  pose proof (Z.div_mod (m / 2 ^ j) 2 ltac:(lia)) as Hdm2.
  rewrite Zmod_odd in Hdm2.
  symmetry. apply (Z.mod_unique_pos _ _ (m / 2 ^ j / 2)).
  - rewrite Z.pow_add_r, Z.pow_1_r by lia. destruct (Z.odd _); lia.
  - rewrite Z.pow_add_r, Z.pow_1_r by lia. destruct (Z.odd _); nia.
Qed.

(** After [j] shifts: the quotient, the round bit and the sticky bit. *)
Lemma shr_iter (m : Z) (j : nat) :
  0 <= m ->
  let mrs := Nat.iter j shr_1 {| shr_m := m; shr_r := false; shr_s := false |} in
  shr_m mrs = m / 2 ^ Z.of_nat j
  /\ (shr_r mrs = true <-> 2 ^ Z.of_nat j <= 2 * (m mod 2 ^ Z.of_nat j))
  /\ (shr_s mrs = false <->
      (m mod 2 ^ Z.of_nat j = 0 \/ 2 * (m mod 2 ^ Z.of_nat j) = 2 ^ Z.of_nat j)).
Proof.
  intros Hm. induction j as [|j IH].
  - simpl. rewrite Z.div_1_r, Z.mod_1_r. split; [done|]. split; [split; [done|lia]|]. split; [by left|done].
  - cbn zeta in *. rewrite Nat2Z.inj_succ, <- Z.add_1_r. simpl Nat.iter.
    destruct (Nat.iter j shr_1 _) as [mj r s]. simpl in IH.
    destruct IH as (Hmj & Hr & Hs).
    assert (Hpos : 0 < 2 ^ Z.of_nat j) by (apply Z.pow_pos_nonneg; lia).
    assert (0 <= mj) by (subst mj; apply Z.div_pos; lia).
    rewrite shr_1_spec by done. simpl.
    pose proof (Z.mod_pos_bound m (2 ^ Z.of_nat j) Hpos) as Hrho.
    rewrite (mod_pow2_succ m (Z.of_nat j)) by lia.
    rewrite Z.pow_add_r, Z.pow_1_r by lia. rewrite <- Hmj.
    split; [|split].
    + subst mj. rewrite Z.div_div by lia. done.
    + destruct (Z.odd mj); split; intros; try done; lia.
    + destruct (Z.odd mj), r, s; simpl; split; intros Hx; try done;
        try (exfalso; lia); try tauto;
        try (destruct Hs as [Hs1 Hs2]; destruct Hr as [Hr1 Hr2]; intuition lia).
Qed.

(** Rounding the shifted mantissa to nearest lands within half a unit. *)
Lemma round_nearest_even_spec (m : Z) (j : nat) :
  0 <= m ->
  let mrs := Nat.iter j shr_1 {| shr_m := m; shr_r := false; shr_s := false |} in
  let m' := round_nearest_even (shr_m mrs) (loc_of_shr_record mrs) in
  2 ^ Z.of_nat j * (2 * m' - 1) <= 2 * m <= 2 ^ Z.of_nat j * (2 * m' + 1)
  /\ m / 2 ^ Z.of_nat j <= m' <= m / 2 ^ Z.of_nat j + 1.
Proof.
  intros Hm. pose proof (shr_iter m j Hm) as Hinv. cbn zeta in *.
  destruct (Nat.iter j shr_1 _) as [q r s]. simpl in Hinv. destruct Hinv as (Hq & Hr & Hs).
  assert (Hpos : 0 < 2 ^ Z.of_nat j) by (apply Z.pow_pos_nonneg; lia).
  pose proof (Z.div_mod m (2 ^ Z.of_nat j) ltac:(lia)) as Hdm.
  pose proof (Z.mod_pos_bound m (2 ^ Z.of_nat j) Hpos) as Hrho.
  rewrite <- Hq in *. simpl.
  destruct r, s; simpl.
  - assert (2 ^ Z.of_nat j <= 2 * (m mod 2 ^ Z.of_nat j)) by (by apply Hr). nia.
  - assert (2 * (m mod 2 ^ Z.of_nat j) = 2 ^ Z.of_nat j).
    { destruct Hs as [Hs _]. destruct (Hs eq_refl) as [H0|H1]; [|done].
      assert (2 ^ Z.of_nat j <= 2 * (m mod 2 ^ Z.of_nat j)) by (by apply Hr). lia. }
    destruct (Z.even q); nia.
  - assert (~ 2 ^ Z.of_nat j <= 2 * (m mod 2 ^ Z.of_nat j)).
    { intros Hx. apply Hr in Hx. done. }
    nia.
  - assert (~ 2 ^ Z.of_nat j <= 2 * (m mod 2 ^ Z.of_nat j)).
    { intros Hx. apply Hr in Hx. done. }
    nia.
Qed.

(** Rounding a long positive mantissa to 53 bits: the result is the
    nearest 53-bit mantissa, renormalised when rounding carries. *)
Lemma binary_round_aux_long (P : positive) (E : Z) :
  let D := Zpos (digits2_pos P) in
  let k := D - 53 in
  54 <= D -> -1074 <= D + E - 53 -> E + k + 1 <= 971 ->
  exists m' : Z,
    2 ^ k * (2 * m' - 1) <= 2 * Zpos P <= 2 ^ k * (2 * m' + 1)
    /\ 2 ^ 52 <= m' <= 2 ^ 53
    /\ binary_round_aux 53 1024 false (Zpos P) E loc_Exact
       = if m' <? 2 ^ 53 then S754_finite false (Z.to_pos m') (E + k)
         else S754_finite false (Z.to_pos (2 ^ 52)) (E + k + 1).
Proof.
  intros D k HD Hemin Hemax.
  pose proof (digits2_pos_bounds P) as HP. fold D in HP.
  assert (Hj : k = Z.of_nat (Z.to_nat k)) by lia. set (j := Z.to_nat k) in Hj.
  pose proof (round_nearest_even_spec (Zpos P) j ltac:(lia)) as Hround. cbn zeta in Hround.
  rewrite <- Hj in Hround.
  set (m' := round_nearest_even _ _) in Hround.
  exists m'. destruct Hround as (Hnear & Hfloor).
  assert (Hpk : 0 < 2 ^ k) by (apply Z.pow_pos_nonneg; lia).
  assert (HDk : 2 ^ D = 2 ^ k * 2 ^ 53).
  { rewrite <- Z.pow_add_r by lia. f_equal. lia. }
  assert (HDk1 : 2 ^ (D - 1) = 2 ^ k * 2 ^ 52).
  { rewrite <- Z.pow_add_r by lia. f_equal. lia. }
  assert (Hq : 2 ^ 52 <= Zpos P / 2 ^ k < 2 ^ 53).
  { split.
    - apply Z.div_le_lower_bound; lia.
    - apply Z.div_lt_upper_bound; lia. }
  assert (Hm' : 2 ^ 52 <= m' <= 2 ^ 53) by lia.
  split; [exact Hnear|]. split; [exact Hm'|].
  unfold binary_round_aux, shr_fexp. simpl shr_record_of_loc.
  unfold Zdigits2 at 1. fold D. unfold fexp, emin.
  replace (Z.max (D + E - 53) (3 - 1024 - 53) - E) with k by lia.
  unfold shr at 1.
  destruct k as [|kp|kp] eqn:Hk; [lia| |lia].
  rewrite iter_pos_nat.
  assert (Hjk : Pos.to_nat kp = j) by lia. rewrite Hjk. fold m'.
  destruct m' as [|mp|mp] eqn:Em'; [lia| |lia].
  unfold Zdigits2.
  destruct (Z.ltb_spec (Zpos mp) (2 ^ 53)) as [Hlt|Hge].
  - rewrite (digits2_pos_unique mp 53) by lia.
    replace (Z.max (53 + (E + Z.pos kp) - 53) (3 - 1024 - 53) - (E + Z.pos kp)) with 0 by lia.
    cbn [shr shr_m shr_record_of_loc].
    rewrite Zle_imp_le_bool by lia. reflexivity.
  - assert (Hmp : Zpos mp = 2 ^ 53) by lia.
    rewrite (digits2_pos_unique mp 54) by (rewrite Hmp; simpl; lia).
    replace (Z.max (54 + (E + Z.pos kp) - 53) (3 - 1024 - 53) - (E + Z.pos kp)) with 1 by lia.
    injection Hmp as ->. cbn [shr shr_m shr_record_of_loc SpecFloat.iter_pos shr_1].
    rewrite Zle_imp_le_bool by lia. reflexivity.
Qed.

(** A mantissa that already has 53 bits is kept as it is. *)
Lemma binary_round_aux_exact (m : positive) (e : Z) :
  Zpos (digits2_pos m) = 53 -> -1074 <= e <= 971 ->
  binary_round_aux 53 1024 false (Zpos m) e loc_Exact = S754_finite false m e.
Proof.
  intros Hd He. unfold binary_round_aux, shr_fexp, Zdigits2. rewrite Hd.
  unfold fexp, emin.
  replace (Z.max (53 + e - 53) (3 - 1024 - 53) - e) with 0 by lia.
  cbn [shr shr_m shr_record_of_loc loc_of_shr_record round_nearest_even].
  rewrite Hd.
  replace (Z.max (53 + e - 53) (3 - 1024 - 53) - e) with 0 by lia.
  cbn [shr shr_m shr_record_of_loc].
  rewrite Zle_imp_le_bool by lia. reflexivity.
Qed.

(** A positive integer below 2^53 as a number: the integer itself, with
    its mantissa shifted up to 53 bits. *)
Lemma number_of_Z_pos (p : positive) :
  let d := Zpos (digits2_pos p) in
  d <= 53 ->
  exists mz : positive,
    Zpos mz = Zpos p * 2 ^ (53 - d)
    /\ number_of_Z (Zpos p) = S754_finite false mz (d - 53).
Proof.
  intros d Hd. pose proof (digits2_pos_bounds p) as Hp. fold d in Hp.
  unfold number_of_Z, binary_normalize, binary_round.
  fold d. unfold fexp, emin. unfold shl_align.
  replace (Z.max (d + 0 - 53) (3 - 1024 - 53) - 0) with (d - 53) by lia.
  replace (Z.max (d + 0 - 53) (3 - 1024 - 53)) with (d - 53) by lia.
  destruct (d - 53) as [|c|c] eqn:Hc; [|lia|].
  - exists p. assert (d = 53) by lia.
    split; [replace (53 - d) with 0 by lia; lia|].
    apply binary_round_aux_exact; lia.
  - exists (Pos.iter xO p c).
    assert (Hshift : Zpos (Pos.iter xO p c) = Zpos p * 2 ^ (53 - d)).
    { change (Pos.iter xO p c) with (shift_pos c p).
      rewrite shift_pos_correct, Z.pow_pos_fold. replace (53 - d) with (Zpos c) by lia. lia. }
    split; [exact Hshift|].
    apply binary_round_aux_exact; [|lia].
    apply digits2_pos_unique. rewrite Hshift.
    assert (Hpow : 0 < 2 ^ (53 - d)) by (apply Z.pow_pos_nonneg; lia).
    assert (H52 : 2 ^ (53 - 1) = 2 ^ (d - 1) * 2 ^ (53 - d)).
    { rewrite <- Z.pow_add_r by lia. f_equal. lia. }
    assert (H53 : 2 ^ 53 = 2 ^ d * 2 ^ (53 - d)).
    { rewrite <- Z.pow_add_r by lia. f_equal. lia. }
    rewrite H52, H53. nia.
Qed.

Lemma lit_0_15_eq : lit_0_15 = S754_finite false 5404319552844595 (-55).
Proof. vm_compute. reflexivity. Qed.

(** The arithmetic of the rounding: a mantissa within half a unit of
    n * 0.15 has the same integer part as 3n/20. *)
Lemma floor_of_nearest (n A K T m' : Z) :
  0 < n < 2 ^ 53 -> 0 < A -> 0 < K -> 32 <= T ->
  K * T = 2 ^ 55 * A ->
  n * A * 5404319552844595 < 2 ^ 53 * K ->
  K * (2 * m' - 1) <= 2 * (n * A * 5404319552844595) <= K * (2 * m' + 1) ->
  m' / T = 3 * n / 20.
Proof.
  intros Hn HA HK HT HKT HP [Hlo Hhi].
  pose proof (Z.div_mod (3 * n) 20 ltac:(lia)) as Hq.
  pose proof (Z.mod_pos_bound (3 * n) 20 ltac:(lia)) as Hrho.
  set (q := 3 * n / 20) in *. set (rho := (3 * n) mod 20) in *.
  symmetry. apply (Z.div_unique_pos m' T q (m' - T * q)); [|lia].
  change (2 ^ 55) with 36028797018963968 in *.
  change (2 ^ 53) with 9007199254740992 in *.
  split.
  - (* q * T <= m' *)
    destruct (Z.le_gt_cases (T * q) m') as [|Hbad]; [lia|exfalso].
    assert (H1 : K * (2 * m' + 1) <= K * (2 * (T * q) - 1)) by nia.
    assert (H2 : 20 * K <= 2 * A * (4 * n - 36028797018963968 * rho)) by nia.
    destruct (Z.eq_dec rho 0) as [H0|H0].
    + rewrite H0 in H2. nia.
    + assert (4 * n - 36028797018963968 * rho < 0) by lia. nia.
  - (* m' < (q + 1) * T *)
    destruct (Z.lt_ge_cases m' (T * q + T)) as [|Hbad]; [lia|exfalso].
    assert (H1 : K * (2 * (T * q + T) - 1) <= K * (2 * m' - 1)) by nia.
    assert (H2 : 2 * A * (36028797018963968 * (20 - rho) + 4 * n) <= 20 * K) by nia.
    assert (H3 : 32 * K <= 36028797018963968 * A) by nia.
    nia.
Qed.

(** Below 2^50 the binary64 product with 0.15 has the integer part of the
    exact product. *)
Lemma floor_times_0_15 (n : Z) :
  0 <= n < 2 ^ 50 ->
  Math_floor (number_mul (number_of_Z n) lit_0_15) = number_of_Z (3 * n / 20).
Proof.
  intros [Hn0 Hn]. unfold number_mul. destruct n as [|p|p]; [reflexivity| |lia].
  pose proof (digits2_pos_bounds p) as Hp.
  set (d := Zpos (digits2_pos p)) in *.
  assert (Hd : 1 <= d <= 50).
  { split; [subst d; lia|].
    destruct (Z.le_gt_cases d 50) as [|Hbig]; [done|].
    assert (2 ^ 50 <= 2 ^ (d - 1)) by (apply Z.pow_le_mono_r; lia). lia. }
  destruct (number_of_Z_pos p ltac:(fold d; lia)) as (mz & Hmz & ->). fold d in Hmz |- *.
  rewrite lit_0_15_eq. unfold SFmul. simpl xorb.
  set (A := 2 ^ (53 - d)) in *.
  assert (HA : 0 < A) by (apply Z.pow_pos_nonneg; lia).
  assert (HAd : 2 ^ 53 = 2 ^ d * A).
  { unfold A. rewrite <- Z.pow_add_r by lia. f_equal. lia. }
  assert (HAd1 : 2 ^ 52 = 2 ^ (d - 1) * A).
  { unfold A. rewrite <- Z.pow_add_r by lia. f_equal. lia. }
  assert (Hmzb : 2 ^ 52 <= Zpos mz < 2 ^ 53) by (rewrite Hmz, HAd, HAd1; nia).
  set (P := (mz * 5404319552844595)%positive).
  assert (HPz : Zpos P = Zpos p * A * 5404319552844595) by (unfold P; lia).
  pose proof (digits2_pos_bounds P) as HP.
  set (D := Zpos (digits2_pos P)) in *.
  assert (HPb : 2 ^ 104 <= Zpos P < 2 ^ 106).
  { change (2 ^ 104) with (2 ^ 52 * 2 ^ 52). change (2 ^ 106) with (2 ^ 53 * 2 ^ 53).
    change (2 ^ 52) with 4503599627370496 in *. change (2 ^ 53) with 9007199254740992 in *.
    unfold P. rewrite Pos2Z.inj_mul. nia. }
  assert (HD : 105 <= D <= 106).
  { split.
    - destruct (Z.le_gt_cases 105 D) as [|Hsmall]; [done|].
      assert (2 ^ D <= 2 ^ 104) by (apply Z.pow_le_mono_r; lia). lia.
    - destruct (Z.le_gt_cases D 106) as [|Hbig]; [done|].
      assert (2 ^ 106 <= 2 ^ (D - 1)) by (apply Z.pow_le_mono_r; lia). lia. }
  destruct (binary_round_aux_long P (d - 53 + -55)) as (m' & Hnear & Hm' & ->);
    fold D; [lia..|].
  set (k := D - 53) in *. set (t := 161 - D - d).
  assert (HK : 0 < 2 ^ k) by (apply Z.pow_pos_nonneg; lia).
  assert (HT : 32 <= 2 ^ t).
  { change 32 with (2 ^ 5). apply Z.pow_le_mono_r; lia. }
  assert (HKT : 2 ^ k * 2 ^ t = 2 ^ 55 * A).
  { unfold A. rewrite <- !Z.pow_add_r by lia. f_equal. lia. }
  assert (HPK : Zpos P < 2 ^ 53 * 2 ^ k).
  { rewrite <- Z.pow_add_r by lia. replace (53 + k) with D by lia. lia. }
  assert (Hfloor : m' / 2 ^ t = 3 * Zpos p / 20).
  { apply (floor_of_nearest (Zpos p) A (2 ^ k) (2 ^ t) m'); rewrite <- ?HPz;
      first [lia | exact Hnear]. }
  assert (He : d - 53 + -55 + k = - t) by lia.
  destruct (Z.ltb_spec m' (2 ^ 53)) as [Hlt|Hge]; unfold Math_floor.
  - rewrite He. destruct (Z.leb_spec 0 (- t)); [lia|].
    rewrite Z2Pos.id by lia. rewrite Z.opp_involutive. by rewrite Hfloor.
  - assert (m' = 2 ^ 53) by lia. subst m'.
    replace (d - 53 + -55 + k + 1) with (- (t - 1)) by lia.
    destruct (Z.leb_spec 0 (- (t - 1))); [lia|].
    rewrite Z2Pos.id by lia. rewrite Z.opp_involutive.
    rewrite <- Hfloor. f_equal.
    replace t with (1 + (t - 1)) at 2 by lia. rewrite Z.pow_add_r by lia.
    change (2 ^ 53) with (2 ^ 1 * 2 ^ 52).
    rewrite Z.div_mul_cancel_l; [done | | lia].
    apply Z.pow_nonzero; lia.
Qed.

(** Every signed-in caller sees every product, whatever else the database
    holds. *)
Lemma products_visible db uid (rows : list products.row) :
  rls_select db (Api (Authenticated uid)) rows = rows.
Proof. apply filter_all. intros r. reflexivity. Qed.

Lemma active_with_reorder_level (f : products.row -> option numeric) (rows : list products.row) :
  length (List.filter products.is_active
            (List.map (fun p => with_reorder_level (f p) p) rows))
  = length (List.filter products.is_active rows).
Proof.
  induction rows as [|p rest IH]; [done|].
  simpl. destruct (products.is_active p); simpl; by rewrite IH.
Qed.

(** C10. For a signed-in caller and fewer than 2^50 active products, the
    Low Stock Items figure is the number floor(15 * count / 100), where
    count is the number of active products.  It is the same whatever the
    ledger holds (and so whatever [stock_balances] shows) and whatever the
    products' reorder levels are. *)
Theorem low_stock_is_15_percent_of_active (db : database) (uid : uuid) :
  active_products db < 2 ^ 50 ->
  Dashboard.lowStockProducts (Dashboard.fetchStats db (Authenticated uid))
    = number_of_Z (15 * active_products db / 100)
  /\ (forall ledger,
        Dashboard.lowStockProducts
          (Dashboard.fetchStats (with_stock_movements ledger db) (Authenticated uid))
        = Dashboard.lowStockProducts (Dashboard.fetchStats db (Authenticated uid)))
  /\ (forall f : products.row -> option numeric,
        Dashboard.lowStockProducts
          (Dashboard.fetchStats
             (with_products (List.map (fun p => with_reorder_level (f p) p) (db_products db)) db)
             (Authenticated uid))
        = Dashboard.lowStockProducts (Dashboard.fetchStats db (Authenticated uid))).
Proof.
  intros Hsmall. split; [|split].
  - unfold Dashboard.fetchStats, Dashboard.count_exact, Dashboard.or_zero.
    cbn [Dashboard.lowStockProducts rows_of products_rel].
    rewrite products_visible. fold (active_products db).
    rewrite floor_times_0_15 by (unfold active_products in *; lia).
    f_equal. change 15 with (5 * 3). change 100 with (5 * 20).
    rewrite <- Z.mul_assoc. symmetry. apply Z.div_mul_cancel_l; lia.
  - intros ledger. unfold Dashboard.fetchStats, Dashboard.count_exact.
    cbn [Dashboard.lowStockProducts rows_of products_rel].
    by rewrite !products_visible.
  - intros f. unfold Dashboard.fetchStats, Dashboard.count_exact.
    cbn [Dashboard.lowStockProducts rows_of products_rel].
    rewrite !products_visible. simpl db_products.
    by rewrite active_with_reorder_level.
Qed.

Lemma low_stock_is_15_percent_of_active_witness :
  active_products (with_more_widgets 26) = 27
  /\ Dashboard.lowStockProducts
       (Dashboard.fetchStats (with_more_widgets 26) (Authenticated 2%N))
     = number_of_Z 4.
Proof.
  split; [reflexivity|].
  apply (proj1 (low_stock_is_15_percent_of_active (with_more_widgets 26) 2%N
                  ltac:(vm_compute; reflexivity))).
Defined.

(** 27 active products show 4 low-stock items although no product is below
    its reorder level; the binary64 product 27 * 0.15 is not 4.05 but its
    integer part is 4. *)
Example low_stock_example :
  Dashboard.lowStockProducts (Dashboard.fetchStats (with_more_widgets 26) (Authenticated 2%N))
    = S754_finite false 4503599627370496 (-50)
  /\ number_of_Z 4 = S754_finite false 4503599627370496 (-50)
  /\ Math_floor (number_mul (number_of_Z 20) lit_0_15) = number_of_Z 3
  /\ Dashboard.lowStockProducts (Dashboard.fetchStats example_db Anon) = number_of_Z 0.
Proof. repeat split; vm_compute; reflexivity. Qed.

(** Why the theorem stops at 2^50: past 2^50 / 0.15 the binary64 product
    has fewer than two fractional bits left and can round up to the next
    integer.  Such a count, nine thousand million million rows, is beyond
    what a table holds. *)
Example rounding_past_the_bound :
  Math_floor (number_mul (number_of_Z 9007199254740973) lit_0_15)
    = number_of_Z 1351079888211146
  /\ 15 * 9007199254740973 / 100 = 1351079888211145.
Proof. split; vm_compute; reflexivity. Qed.

(** * Further properties of the schema and the pages *)

(** ** What callers can read *)

(** X1. An anonymous caller reads no row of any of the ten tables. *)
Theorem anonymous_reads_nothing (db : database) :
  rls_select db (Api Anon) (db_profiles db) = []
  /\ rls_select db (Api Anon) (db_user_roles db) = []
  /\ rls_select db (Api Anon) (db_warehouses db) = []
  /\ rls_select db (Api Anon) (db_categories db) = []
  /\ rls_select db (Api Anon) (db_products db) = []
  /\ rls_select db (Api Anon) (db_receipts db) = []
  /\ rls_select db (Api Anon) (db_receipt_lines db) = []
  /\ rls_select db (Api Anon) (db_deliveries db) = []
  /\ rls_select db (Api Anon) (db_delivery_lines db) = []
  /\ rls_select db (Api Anon) (db_stock_movements db) = [].
Proof.
  repeat (split; [apply filter_none; intros r; reflexivity|]).
  apply filter_none; intros r; reflexivity.
Qed.

Lemma profiles_using db uid c (r : profiles.row) :
  c = SELECT \/ c = UPDATE ->
  using_ok db (Authenticated uid) public_profiles c (Some (profiles.id r)) None
  = bool_decide (profiles.id r = uid).
Proof.
  intros [-> | ->]; unfold using_ok; simpl;
    repeat (case_bool_decide; simplify_eq/=); done.
Qed.

Lemma profiles_check db uid (r : profiles.row) :
  check_ok db (Authenticated uid) public_profiles UPDATE (Some (profiles.id r)) None
  = bool_decide (profiles.id r = uid).
Proof.
  unfold check_ok; simpl; repeat (case_bool_decide; simplify_eq/=); done.
Qed.

(** X2. A signed-in caller reads its own profile and no other. *)
Theorem profiles_visible_to_owner_only (db : database) (uid : uuid) :
  rls_select db (Api (Authenticated uid)) (db_profiles db)
  = List.filter (fun p => bool_decide (profiles.id p = uid)) (db_profiles db).
Proof.
  unfold rls_select. apply filter_ext. intros r.
  unfold row_visible. cbn [relname pk owner_col profiles_rel].
  apply profiles_using. by left.
Qed.

(** ** What an UPDATE that succeeds has done *)

Lemma rls_update_ok {R} `{Relation R} db s where_ set_ before constraints
    (rows rows' : list R) n :
  rls_update db s where_ set_ before constraints rows = Ok (rows', n) ->
  rows' = List.map (fun r => if targeted db s UPDATE where_ r then before (set_ r) else r) rows
  /\ n = length (List.filter (targeted db s UPDATE where_) rows)
  /\ forall r, In r rows -> targeted db s UPDATE where_ r = true ->
       updated_row_ok db s (before (set_ r)) = true
       /\ constraints (Some r) (before (set_ r)) = None.
Proof.
  revert rows' n. induction rows as [|r0 rest IH]; intros rows' n; simpl.
  - intros [= <- <-]. split; [done|]. split; [done|]. intros x [].
  - destruct (targeted db s UPDATE where_ r0) eqn:Ht.
    + destruct (updated_row_ok db s (before (set_ r0))) eqn:Hok; [|done].
      destruct (constraints (Some r0) (before (set_ r0))) eqn:Hc; [done|].
      destruct (rls_update db s where_ set_ before constraints rest) as [[rest' m]|] eqn:Hrest;
        [|done].
      intros [= <- <-]. destruct (IH rest' m eq_refl) as (-> & -> & Hall).
      split; [done|]. split; [done|].
      intros x [<- | Hin] Hx; [done | by apply Hall].
    + destruct (rls_update db s where_ set_ before constraints rest) as [[rest' m]|] eqn:Hrest;
        [|done].
      intros [= <- <-]. destruct (IH rest' m eq_refl) as (-> & -> & Hall).
      split; [done|]. split; [done|].
      intros x [<- | Hin] Hx; [congruence | by apply Hall].
Qed.

Lemma profiles_targeted db uid where_ (p : profiles.row) :
  targeted db (Api (Authenticated uid)) UPDATE where_ p
  = bool_decide (profiles.id p = uid) && where_ p.
Proof.
  unfold targeted, row_visible. cbn [relname pk owner_col profiles_rel].
  rewrite !profiles_using by auto.
  by destruct (where_ p), (bool_decide _).
Qed.

(** X3. When a signed-in caller's UPDATE on [profiles] succeeds, the rows
    it changed are the caller's own among those the WHERE clause names,
    each of them carries [now()] as [updated_at] whatever the statement
    assigned, and none of them changed its [id]; every other row and every
    other table is as before. *)
Theorem own_profile_update (db db' : database) (e : env) (uid : uuid)
    (where_ : profiles.row -> bool) (set_ : profiles.row -> profiles.row) (n : nat) :
  update_profiles db e (Api (Authenticated uid)) where_ set_ = Ok (db', n) ->
  db' = with_profiles
          (List.map (fun p => if bool_decide (profiles.id p = uid) && where_ p
                              then set_updated_at (now e) (set_ p) else p)
                    (db_profiles db))
          db
  /\ forall p, In p (db_profiles db) -> profiles.id p = uid -> where_ p = true ->
       profiles.id (set_ p) = uid.
Proof.
  unfold update_profiles, sql_update. cbn [rows_of with_rows profiles_rel].
  destruct (rls_update _ _ _ _ _ _ _) as [[rows' m]|] eqn:Hup; [|done].
  intros [= <- <-]. apply rls_update_ok in Hup as (-> & _ & Hall).
  split.
  - f_equal. apply map_ext. intros p. by rewrite profiles_targeted.
  - intros p Hin Hid Hwhere.
    destruct (Hall p Hin) as [Hok _].
    { rewrite profiles_targeted, Hwhere. by rewrite bool_decide_eq_true_2. }
    unfold updated_row_ok, row_accepted in Hok.
    apply andb_true_iff in Hok as [Hcheck _].
    cbn [relname pk owner_col profiles_rel] in Hcheck.
    rewrite profiles_check in Hcheck. by apply bool_decide_eq_true_1 in Hcheck.
Qed.

Lemma own_profile_update_witness :
  let e := {| now := 5000; gen_random_uuid := 0%N |} in
  let db' := state_after
               (update_profiles example_db e (Api (Authenticated 2%N)) (fun _ => true)
                  (with_full_name "Sam Staff"))
               example_db in
  update_profiles example_db e (Api (Authenticated 2%N)) (fun _ => true)
    (with_full_name "Sam Staff") = Ok (db', 1%nat)
  /\ List.map profiles.full_name (db_profiles db') = ["Ada Admin"; "Sam Staff"; EmptyString]
  /\ List.map profiles.updated_at (db_profiles db') = [1000; 5000; 1000].
Proof.
  intros e db'.
  assert (Hok : update_profiles example_db e (Api (Authenticated 2%N)) (fun _ => true)
                  (with_full_name "Sam Staff") = Ok (db', 1%nat))
    by (vm_compute; reflexivity).
  split; [exact Hok|].
  rewrite (proj1 (own_profile_update example_db db' e 2%N _ _ _ Hok)).
  split; vm_compute; reflexivity.
Defined.

(** ** Who can write master data and documents *)

Lemma rls_update_unreached {R} `{Relation R} db s where_ set_ before constraints
    (rows : list R) :
  (forall r, In r rows -> targeted db s UPDATE where_ r = false) ->
  rls_update db s where_ set_ before constraints rows = Ok (rows, 0%nat).
Proof.
  induction rows as [|r rest IH]; intros Hno; [done|].
  simpl. rewrite Hno by (by left). rewrite IH; [done|]. intros x Hx. apply Hno. by right.
Qed.


Lemma with_deliveries_same (db : database) : with_deliveries (db_deliveries db) db = db.
Proof. by destruct db. Qed.

(** What the policies of the three master tables come to for writes. *)
Lemma masters_using db who i cb :
  using_ok db who public_warehouses UPDATE i cb = has_role db (auth_uid who) admin
  /\ using_ok db who public_categories UPDATE i cb = has_role db (auth_uid who) admin
  /\ using_ok db who public_categories DELETE i cb = has_role db (auth_uid who) admin
  /\ using_ok db who public_products UPDATE i cb
     = has_role db (auth_uid who) admin || has_role db (auth_uid who) manager.
Proof.
  unfold using_ok. with_strategy opaque [has_role] simpl.
  destruct (has_role db (auth_uid who) admin), (has_role db (auth_uid who) manager);
    repeat split; reflexivity.
Qed.





Lemma documents_targeted db uid where_ :
  (forall r : receipts.row,
     targeted db (Api (Authenticated uid)) UPDATE where_ r
     = where_ r && creator_or_privileged_holds db uid (receipts.created_by r))
  /\ (forall (where' : deliveries.row -> bool) (d : deliveries.row),
        targeted db (Api (Authenticated uid)) UPDATE where' d
        = where' d && creator_or_privileged_holds db uid (deliveries.created_by d)).
Proof.
  split; intros; unfold targeted, row_visible.
  - cbn [relname pk owner_col receipts_rel].
    rewrite (proj1 (documents_policies db uid _ _)).
    destruct (documents_readable db uid (Some (receipts.id r)) (receipts.created_by r))
      as [-> _].
    by rewrite andb_true_r.
  - cbn [relname pk owner_col deliveries_rel].
    rewrite (proj2 (documents_policies db uid _ _)).
    destruct (documents_readable db uid (Some (deliveries.id d)) (deliveries.created_by d))
      as [_ ->].
    by rewrite andb_true_r.
Qed.

(** X5. A signed-in caller who is neither admin nor manager changes
    nothing with an UPDATE on [receipts] or [deliveries] whose WHERE clause
    names only documents created by others (or by nobody): the statement
    completes with zero rows. *)
Theorem foreign_documents_out_of_reach (db : database) (e : env) (uid : uuid)
    (where_r : receipts.row -> bool) (set_r : receipts.row -> receipts.row)
    (where_d : deliveries.row -> bool) (set_d : deliveries.row -> deliveries.row) :
  has_role db (Some uid) admin = false ->
  has_role db (Some uid) manager = false ->
  (forall r, In r (db_receipts db) -> where_r r = true -> receipts.created_by r <> Some uid) ->
  (forall d, In d (db_deliveries db) -> where_d d = true ->
             deliveries.created_by d <> Some uid) ->
  update_receipts db e (Api (Authenticated uid)) where_r set_r = Ok (db, 0%nat)
  /\ update_deliveries db e (Api (Authenticated uid)) where_d set_d = Ok (db, 0%nat).
Proof.
  intros Hadmin Hmanager Hr Hd. split.
  - unfold update_receipts, sql_update. cbn [rows_of with_rows receipts_rel].
    rewrite rls_update_unreached; [by rewrite with_receipts_same|].
    intros r Hin. rewrite (proj1 (documents_targeted db uid where_r)).
    unfold creator_or_privileged_holds. rewrite Hadmin, Hmanager.
    destruct (where_r r) eqn:Hw; [|done]. simpl.
    rewrite bool_decide_eq_false_2; [done|]. by apply Hr.
  - unfold update_deliveries, sql_update. cbn [rows_of with_rows deliveries_rel].
    rewrite rls_update_unreached; [by rewrite with_deliveries_same|].
    intros d Hin. rewrite (proj2 (documents_targeted db uid where_r)).
    unfold creator_or_privileged_holds. rewrite Hadmin, Hmanager.
    destruct (where_d d) eqn:Hw; [|done]. simpl.
    rewrite bool_decide_eq_false_2; [done|]. by apply Hd.
Qed.

Lemma foreign_documents_out_of_reach_witness :
  update_receipts db_after_acme {| now := 9500; gen_random_uuid := 0%N |}
    (Api (Authenticated 3%N)) (fun _ => true) (set_updated_at 0)
  = Ok (db_after_acme, 0%nat).
Proof.
  apply (proj1 (foreign_documents_out_of_reach db_after_acme
                  {| now := 9500; gen_random_uuid := 0%N |} 3%N
                  (fun _ => true) (set_updated_at 0) (fun _ => true) (set_updated_at 0)
                  eq_refl eq_refl
                  ltac:(intros r Hin _; vm_compute in Hin;
                        destruct Hin as [<- | []]; discriminate)
                  ltac:(intros d Hin; vm_compute in Hin; destruct Hin))).
Defined.

(** ** Submitting a receipt *)

Lemma sql_insert_ok {R} `{Relation R} db s i cb (build : result R) constraints db' n :
  sql_insert db s i cb build constraints = Ok (db', n) <->
  (match s with
   | Owner => true
   | Api who => check_ok db who (relname (R := R)) INSERT i cb
   end = true
   /\ exists r, build = Ok r /\ constraints db None r = None
                /\ db' = with_rows (rows_of db ++ [r]) db /\ n = 1%nat).
Proof.
  unfold sql_insert. split.
  - destruct (match s with Owner => _ | Api _ => _ end); [|done].
    destruct build as [r|err]; unfold mbind, result_bind; [|done].
    destruct (constraints db None r) eqn:Hc; [done|].
    intros [= <- <-]. split; [done|]. by exists r.
  - intros [-> (r & -> & Hc & -> & ->)]. unfold mbind, result_bind. by rewrite Hc.
Qed.

Lemma first_violation_none (checks : list (bool * sqlerror)) :
  first_violation checks = None <-> Forall (fun c => c.1 = true) checks.
Proof.
  induction checks as [|[b err] rest IH]; simpl.
  - split; [constructor | done].
  - destruct b; simpl.
    + rewrite IH. split; [by constructor | by inversion 1].
    + split; [done | inversion 1; done].
Qed.

Lemma receipts_check db who i cb :
  check_ok db who public_receipts INSERT i cb = bool_decide (auth_uid who <> None).
Proof. by destruct who. Qed.

(** When a submission of the Receipts page goes through, and what it
    stores. *)
Lemma handleSubmit_accepted_iff
    (uuid_in : string -> option uuid) (date_in : string -> option date)
    (db db' : database) (e : env) (who : caller) (t : Z) (form : Receipts.formData)
    (n : nat) :
  Receipts.handleSubmit uuid_in date_in db e who t form = Ok (db', n) <->
  exists w sd,
    auth_uid who <> None
    /\ uuid_in (Receipts.warehouse_id form) = Some w
    /\ scheduled_of date_in (Receipts.scheduled_date form) = Some sd
    /\ ~ In (gen_random_uuid e) (List.map receipts.id (db_receipts db))
    /\ ~ In ("RCP-" ++ string_of_number t)%string (List.map receipts.reference (db_receipts db))
    /\ In w (List.map warehouses.id (db_warehouses db))
    /\ db' = with_receipts (db_receipts db ++ [submitted_receipt e t form w sd]) db
    /\ n = 1%nat.
Proof.
  unfold Receipts.handleSubmit, cast, scheduled_of.
  destruct (uuid_in (Receipts.warehouse_id form)) as [w|]; cycle 1.
  { split; [done|]. by intros (w & sd & _ & ? & _). }
  rewrite bind_Ok.
  assert (Hin : forall {A B} `{EqDecision B} (key : A -> B) (l : list A) (b : B),
             existsb (fun r => bool_decide (key r = b)) l = false <-> ~ In b (List.map key l)).
  { intros A B ? key l b. rewrite <- not_true_iff_false, existsb_exists, in_map_iff.
    split; intros Hn (x & H1 & H2); apply Hn; exists x.
    - split; [done|]. by apply bool_decide_eq_true_2.
    - split; [by apply bool_decide_eq_true_1 in H2 | done]. }
  assert (Hin' : forall (l : list warehouses.row) (b : uuid),
             existsb (fun r => bool_decide (warehouses.id r = b)) l = true
             <-> In b (List.map warehouses.id l)).
  { intros l b. rewrite existsb_exists, in_map_iff.
    split; intros (x & H1 & H2); exists x.
    - split; [by apply bool_decide_eq_true_1 in H2 | done].
    - split; [done|]. by apply bool_decide_eq_true_2. }
  set (parsed := if bool_decide (Receipts.scheduled_date form = EmptyString) then Ok None
                 else d ← match date_in (Receipts.scheduled_date form) with
                          | Some a => Ok a
                          | None => Error invalid_text_representation
                          end; Ok (Some d)).
  assert (Hparsed : match (if bool_decide (Receipts.scheduled_date form = EmptyString)
                           then Some None
                           else match date_in (Receipts.scheduled_date form) with
                                | Some d => Some (Some d)
                                | None => None
                                end) with
                    | Some sd => parsed = Ok sd
                    | None => exists err, parsed = Error err
                    end).
  { subst parsed. destruct (bool_decide _); [done|].
    destruct (date_in _); [done | by eexists]. }
  destruct (if bool_decide (Receipts.scheduled_date form = EmptyString) then Some None
            else _) as [sd|]; cycle 1.
  { destruct Hparsed as [err ->]. split; [done|]. by intros (? & ? & _ & _ & ? & _). }
  rewrite Hparsed, bind_Ok, stock_status_in_draft, bind_Ok.
  unfold insert_receipt. rewrite sql_insert_ok.
  cbn [relname receipts_rel rows_of with_rows]. rewrite receipts_check.
  unfold receipts_build, not_null. cbn [receipts.new.reference receipts.new.warehouse_id
    receipts.new.supplier_name receipts.new.id receipts.new.status
    receipts.new.scheduled_date receipts.new.received_date receipts.new.notes
    receipts.new.created_by receipts.new.created_at receipts.new.updated_at].
  rewrite !bind_Ok. cbn [default from_option].
  fold (submitted_receipt e t form w sd).
  split.
  - intros [Hauth (r & [= <-] & Hc & -> & ->)].
    exists w, sd. apply bool_decide_eq_true_1 in Hauth.
    unfold receipts_constraints in Hc. apply first_violation_none in Hc.
    inversion_clear Hc as [|? ? Hid Hc']. inversion_clear Hc' as [|? ? Href Hc''].
    inversion_clear Hc'' as [|? ? Hfk _]. simpl in Hid, Href, Hfk.
    unfold key_free in Hid, Href. apply negb_true_iff in Hid, Href.
    apply Hin in Hid, Href. apply Hin' in Hfk. done.
  - intros (w' & sd' & Hauth & [= <-] & [= <-] & Hid & Href & Hfk & -> & ->).
    split; [by apply bool_decide_eq_true_2|].
    eexists. split; [reflexivity|]. split; [|done].
    unfold receipts_constraints. apply first_violation_none.
    apply (proj2 (Hin _ _ _ receipts.id _ _)) in Hid.
    apply (proj2 (Hin _ _ _ receipts.reference _ _)) in Href.
    apply (proj2 (Hin' _ _)) in Hfk.
    repeat constructor; simpl; unfold key_free, has_id; simpl.
    + apply negb_true_iff. exact Hid.
    + apply negb_true_iff. exact Href.
    + exact Hfk.
Qed.

(** X6. A submission of the Receipts page goes through exactly when the
    caller is signed in, the chosen warehouse reads as the id of a
    warehouse in the table, the date is empty or a date, and neither the
    fresh id nor the reference is taken.  It then adds one row: status
    draft, timestamps [now()], and no creator. *)
Theorem receipt_submission_accepted
    (uuid_in : string -> option uuid) (date_in : string -> option date)
    (db db' : database) (e : env) (who : caller) (t : Z) (form : Receipts.formData)
    (n : nat) :
  Receipts.handleSubmit uuid_in date_in db e who t form = Ok (db', n) <->
  exists w sd,
    auth_uid who <> None
    /\ uuid_in (Receipts.warehouse_id form) = Some w
    /\ scheduled_of date_in (Receipts.scheduled_date form) = Some sd
    /\ ~ In (gen_random_uuid e) (List.map receipts.id (db_receipts db))
    /\ ~ In ("RCP-" ++ string_of_number t)%string (List.map receipts.reference (db_receipts db))
    /\ In w (List.map warehouses.id (db_warehouses db))
    /\ db' = with_receipts (db_receipts db ++ [submitted_receipt e t form w sd]) db
    /\ n = 1%nat.
Proof. apply handleSubmit_accepted_iff. Qed.

Lemma receipt_submission_accepted_witness :
  exists db',
    Receipts.handleSubmit example_uuid_in example_date_in example_db
      {| now := 9000; gen_random_uuid := 500%N |} (Authenticated 2%N)
      1763786722000 form_acme = Ok (db', 1%nat)
    /\ List.map receipts.created_by (db_receipts db') = [None].
Proof.
  eexists. split.
  - apply (proj2 (receipt_submission_accepted example_uuid_in example_date_in example_db _
                    {| now := 9000; gen_random_uuid := 500%N |} (Authenticated 2%N)
                    1763786722000 form_acme 1%nat)).
    exists 100%N, None.
    split; [discriminate|]. split; [reflexivity|]. split; [reflexivity|].
    split; [intros []|]. split; [intros []|]. split; [by left|]. split; reflexivity.
  - reflexivity.
Defined.

(** X7. The Receipts page never sends [created_by], so the receipt it
    stores has no creator: the identity that submitted it can update it
    afterwards only by holding the admin or the manager role. *)
Theorem page_receipt_has_no_creator
    (uuid_in : string -> option uuid) (date_in : string -> option date)
    (db db' : database) (e : env) (uid : uuid) (t : Z) (form : Receipts.formData)
    (n : nat) :
  Receipts.handleSubmit uuid_in date_in db e (Authenticated uid) t form = Ok (db', n) ->
  exists r,
    db_receipts db' = db_receipts db ++ [r]
    /\ receipts.created_by r = None
    /\ forall new,
         update_permitted db' (Api (Authenticated uid)) r new
         = (has_role db (Some uid) admin || has_role db (Some uid) manager)
           && creator_or_privileged_holds db uid (receipts.created_by new).
Proof.
  intros Hok. apply handleSubmit_accepted_iff in Hok
    as (w & sd & _ & _ & _ & _ & _ & _ & -> & _).
  exists (submitted_receipt e t form w sd). split; [reflexivity|]. split; [reflexivity|].
  intros new. unfold update_permitted, updated_row_ok, row_accepted.
  rewrite (proj1 (documents_targeted _ uid (fun _ => true))).
  unfold row_visible. cbn [relname pk owner_col receipts_rel].
  rewrite (proj1 (documents_check _ uid _ _)).
  destruct (documents_readable (with_receipts (db_receipts db ++ [submitted_receipt e t form w sd]) db)
              uid (Some (receipts.id new)) (receipts.created_by new)) as [-> _].
  rewrite andb_true_r. reflexivity.
Qed.

Lemma page_receipt_has_no_creator_witness :
  exists r,
    db_receipts db_after_acme = db_receipts example_db ++ [r]
    /\ receipts.created_by r = None
    /\ update_permitted db_after_acme (Api (Authenticated 2%N)) r r = false.
Proof.
  destruct (page_receipt_has_no_creator example_uuid_in example_date_in example_db
              db_after_acme {| now := 9000; gen_random_uuid := 500%N |} 2%N
              1763786722000 form_acme 1%nat ltac:(vm_compute; reflexivity))
    as (r & Hrows & Hnone & Hperm).
  exists r. split; [exact Hrows|]. split; [exact Hnone|].
  rewrite Hperm. reflexivity.
Defined.

(** ** More on the ledger *)

Lemma existsb_key_false {A B} `{EqDecision B} (key : A -> B) (l : list A) (b : B) :
  existsb (fun r => bool_decide (key r = b)) l = false <-> ~ In b (List.map key l).
Proof.
  rewrite <- not_true_iff_false, existsb_exists, in_map_iff.
  split; intros Hn (x & H1 & H2); apply Hn; exists x.
  - split; [done|]. by apply bool_decide_eq_true_2.
  - split; [by apply bool_decide_eq_true_1 in H2 | done].
Qed.

Lemma existsb_key_true {A B} `{EqDecision B} (key : A -> B) (l : list A) (b : B) :
  existsb (fun r => bool_decide (key r = b)) l = true <-> In b (List.map key l).
Proof.
  rewrite existsb_exists, in_map_iff.
  split; intros (x & H1 & H2); exists x.
  - split; [by apply bool_decide_eq_true_1 in H2 | done].
  - split; [done|]. by apply bool_decide_eq_true_2.
Qed.

Lemma stock_movements_check db who i cb :
  check_ok db who public_stock_movements INSERT i cb = bool_decide (auth_uid who <> None).
Proof. by destruct who. Qed.

(** When an INSERT into the ledger goes through, and what it stores. *)
Lemma insert_stock_movement_iff (db db' : database) (e : env) (s : session)
    (p : stock_movements.new.row) (n : nat) :
  insert_stock_movement db e s p = Ok (db', n) <->
  exists product warehouse kind quantity balance_after,
    match s with Owner => True | Api who => auth_uid who <> None end
    /\ stock_movements.new.product_id p = Some product
    /\ stock_movements.new.warehouse_id p = Some warehouse
    /\ stock_movements.new.movement_type p = Some kind
    /\ stock_movements.new.quantity p = Some quantity
    /\ stock_movements.new.balance_after p = Some balance_after
    /\ Z.abs quantity < 10 ^ 10 /\ Z.abs balance_after < 10 ^ 10
    /\ ~ In (default (gen_random_uuid e) (stock_movements.new.id p))
            (List.map stock_movements.id (db_stock_movements db))
    /\ In product (List.map products.id (db_products db))
    /\ In warehouse (List.map warehouses.id (db_warehouses db))
    /\ match stock_movements.new.created_by p with
       | Some u => In u (List.map users.id (auth_users db))
       | None => True
       end
    /\ db' = with_stock_movements
               (db_stock_movements db ++
                  [recorded_movement e p product warehouse kind quantity balance_after]) db
    /\ n = 1%nat.
Proof.
  unfold insert_stock_movement. rewrite sql_insert_ok.
  cbn [relname stock_movements_rel rows_of with_rows].
  unfold stock_movements_build, not_null.
  split.
  - intros [Hs (r & Hbuild & Hc & -> & ->)].
    destruct (stock_movements.new.product_id p) as [product|]; [|done].
    destruct (stock_movements.new.warehouse_id p) as [warehouse|]; [|done].
    destruct (stock_movements.new.movement_type p) as [kind|]; [|done].
    destruct (stock_movements.new.quantity p) as [quantity|]; [|done].
    destruct (stock_movements.new.balance_after p) as [balance_after|]; [|done].
    rewrite !bind_Ok in Hbuild. injection Hbuild as <-.
    exists product, warehouse, kind, quantity, balance_after.
    unfold stock_movements_constraints in Hc. apply first_violation_none in Hc.
    inversion_clear Hc as [|? ? Hnum Hc1]. inversion_clear Hc1 as [|? ? Hid Hc2].
    inversion_clear Hc2 as [|? ? Hprod Hc3]. inversion_clear Hc3 as [|? ? Hwh Hc4].
    inversion_clear Hc4 as [|? ? Hby _]. simpl in Hnum, Hid, Hprod, Hwh, Hby.
    apply andb_true_iff in Hnum as [Hq Hb]. unfold numeric_10_2_ok in Hq, Hb.
    apply Z.ltb_lt in Hq, Hb.
    unfold key_free in Hid. apply negb_true_iff, existsb_key_false in Hid.
    unfold has_id in Hprod, Hwh. apply existsb_key_true in Hprod, Hwh.
    split.
    { destruct s as [who|]; [|done]. rewrite stock_movements_check in Hs.
      by apply bool_decide_eq_true_1 in Hs. }
    repeat (split; [done|]). split; [|done].
    destruct (stock_movements.new.created_by p) as [u|]; [|done].
    simpl in Hby. unfold has_user in Hby. by apply existsb_key_true in Hby.
  - intros (product & warehouse & kind & quantity & balance_after & Hs & -> & -> & -> & ->
            & -> & Hq & Hb & Hid & Hprod & Hwh & Hby & -> & ->).
    split.
    { destruct s as [who|]; [|done]. rewrite stock_movements_check.
      by apply bool_decide_eq_true_2. }
    rewrite !bind_Ok. eexists. split; [reflexivity|]. split; [|done].
    unfold stock_movements_constraints. apply first_violation_none.
    repeat constructor; simpl.
    + unfold numeric_10_2_ok. apply andb_true_iff. split; by apply Z.ltb_lt.
    + unfold key_free. apply negb_true_iff. by apply existsb_key_false.
    + unfold has_id. by apply existsb_key_true.
    + unfold has_id. by apply existsb_key_true.
    + destruct (stock_movements.new.created_by p) as [u|]; [|done].
      simpl. unfold has_user. by apply existsb_key_true.
Qed.

(** X8. The ledger takes an INSERT exactly when the caller is signed in
    (or owns the table), the five mandatory columns are given, both amounts
    fit NUMERIC(10,2), the id is new and the product, the warehouse and the
    creator exist.  Nothing else is looked at: any movement type goes with
    a quantity of any sign, and [balance_after] is stored as given. *)
Theorem ledger_insert_accepted (db db' : database) (e : env) (s : session)
    (p : stock_movements.new.row) (n : nat) :
  insert_stock_movement db e s p = Ok (db', n) <->
  exists product warehouse kind quantity balance_after,
    match s with Owner => True | Api who => auth_uid who <> None end
    /\ stock_movements.new.product_id p = Some product
    /\ stock_movements.new.warehouse_id p = Some warehouse
    /\ stock_movements.new.movement_type p = Some kind
    /\ stock_movements.new.quantity p = Some quantity
    /\ stock_movements.new.balance_after p = Some balance_after
    /\ Z.abs quantity < 10 ^ 10 /\ Z.abs balance_after < 10 ^ 10
    /\ ~ In (default (gen_random_uuid e) (stock_movements.new.id p))
            (List.map stock_movements.id (db_stock_movements db))
    /\ In product (List.map products.id (db_products db))
    /\ In warehouse (List.map warehouses.id (db_warehouses db))
    /\ match stock_movements.new.created_by p with
       | Some u => In u (List.map users.id (auth_users db))
       | None => True
       end
    /\ db' = with_stock_movements
               (db_stock_movements db ++
                  [recorded_movement e p product warehouse kind quantity balance_after]) db
    /\ n = 1%nat.
Proof. apply insert_stock_movement_iff. Qed.

Lemma ledger_insert_accepted_witness :
  let p := {| stock_movements.new.id := None;
              stock_movements.new.product_id := Some 200%N;
              stock_movements.new.warehouse_id := Some 100%N;
              stock_movements.new.movement_type := Some delivery;
              stock_movements.new.reference_id := None;
              stock_movements.new.quantity := Some 700;
              stock_movements.new.balance_after := Some (-12345);
              stock_movements.new.notes := None;
              stock_movements.new.created_by := None;
              stock_movements.new.created_at := None |} in
  let e := {| now := 1300; gen_random_uuid := 302%N |} in
  exists db',
    insert_stock_movement example_db e (Api (Authenticated 3%N)) p = Ok (db', 1%nat)
    /\ stock_balances db' !! (200%N, 100%N) = Some 3700.
Proof.
  intros p e. eexists. split.
  - apply (proj2 (ledger_insert_accepted example_db _ e (Api (Authenticated 3%N)) p 1%nat)).
    exists 200%N, 100%N, delivery, 700, (-12345).
    split; [discriminate|]. do 5 (split; [reflexivity|]).
    split; [reflexivity|]. split; [reflexivity|].
    split; [intros [H|[H|[]]]; discriminate H|].
    split; [by left|]. split; [by left|]. split; [exact I|]. split; reflexivity.
  - vm_compute. reflexivity.
Defined.

(** One more row in the ledger is one more step of the aggregate. *)
Lemma stock_balances_snoc (db : database) (ledger : list stock_movements.row)
    (m : stock_movements.row) :
  stock_balances (with_stock_movements (ledger ++ [m]) db)
  = let k := (stock_movements.product_id m, stock_movements.warehouse_id m) in
    <[k := default 0 (stock_balances (with_stock_movements ledger db) !! k)
           + stock_movements.quantity m]>
      (stock_balances (with_stock_movements ledger db)).
Proof. unfold stock_balances. simpl. by rewrite foldl_app. Qed.

(** X9. An INSERT into the ledger that goes through adds its quantity to
    the balance of its (product, warehouse) pair, which starts from zero
    when the pair had no movement, and leaves every other balance as it
    was.  The balance may become negative. *)
Theorem balance_follows_insert (db db' : database) (e : env) (s : session)
    (p : stock_movements.new.row) (n : nat) :
  insert_stock_movement db e s p = Ok (db', n) ->
  exists product warehouse quantity,
    stock_movements.new.product_id p = Some product
    /\ stock_movements.new.warehouse_id p = Some warehouse
    /\ stock_movements.new.quantity p = Some quantity
    /\ stock_balances db'
       = <[(product, warehouse) :=
             default 0 (stock_balances db !! (product, warehouse)) + quantity]>
           (stock_balances db).
Proof.
  intros Hok. apply insert_stock_movement_iff in Hok
    as (product & warehouse & kind & quantity & balance_after & _ & Hp & Hw & _ & Hq & _ & _
        & _ & _ & _ & _ & _ & -> & _).
  exists product, warehouse, quantity. repeat (split; [done|]).
  rewrite stock_balances_snoc. simpl. by rewrite with_stock_movements_same.
Qed.

Lemma balance_follows_insert_witness :
  let p := {| stock_movements.new.id := None;
              stock_movements.new.product_id := Some 200%N;
              stock_movements.new.warehouse_id := Some 100%N;
              stock_movements.new.movement_type := Some delivery;
              stock_movements.new.reference_id := None;
              stock_movements.new.quantity := Some (-9000);
              stock_movements.new.balance_after := Some 0;
              stock_movements.new.notes := None;
              stock_movements.new.created_by := None;
              stock_movements.new.created_at := None |} in
  let e := {| now := 1300; gen_random_uuid := 302%N |} in
  let db' := state_after (insert_stock_movement example_db e (Api (Authenticated 3%N)) p)
               example_db in
  stock_balances db' = <[(200%N, 100%N) := -6000]> (stock_balances example_db).
Proof.
  intros p e db'.
  destruct (balance_follows_insert example_db db' e (Api (Authenticated 3%N)) p 1%nat
              ltac:(vm_compute; reflexivity))
    as (product & warehouse & quantity & [= <-] & [= <-] & [= <-] & ->).
  reflexivity.
Defined.

Lemma aggregate_step_comm (groups : gmap (uuid * uuid) numeric)
    (k1 k2 : uuid * uuid) (q1 q2 : numeric) :
  <[k2 := default 0 (<[k1 := default 0 (groups !! k1) + q1]> groups !! k2) + q2]>
    (<[k1 := default 0 (groups !! k1) + q1]> groups)
  = <[k1 := default 0 (<[k2 := default 0 (groups !! k2) + q2]> groups !! k1) + q1]>
      (<[k2 := default 0 (groups !! k2) + q2]> groups).
Proof.
  destruct (decide (k1 = k2)) as [->|Hne].
  - rewrite !lookup_insert_eq, !insert_insert_eq. simpl. f_equal. lia.
  - rewrite !lookup_insert_ne by done. by apply insert_insert_ne.
Qed.

(** The aggregate over the three columns it reads. *)
Lemma aggregate_columns (rows : list stock_movements.row) (groups : gmap (uuid * uuid) numeric) :
  foldl (fun groups r =>
           let k := (stock_movements.product_id r, stock_movements.warehouse_id r) in
           <[k := default 0 (groups !! k) + stock_movements.quantity r]> groups)
        groups rows
  = foldl (fun groups (c : uuid * uuid * numeric) =>
             <[c.1 := default 0 (groups !! c.1) + c.2]> groups)
          groups (List.map balance_columns rows).
Proof.
  revert groups. induction rows as [|r rest IH]; intros groups; [done|].
  simpl. by rewrite IH.
Qed.

Lemma aggregate_permutation (cs1 cs2 : list (uuid * uuid * numeric))
    (groups : gmap (uuid * uuid) numeric) :
  Permutation cs1 cs2 ->
  foldl (fun groups (c : uuid * uuid * numeric) =>
           <[c.1 := default 0 (groups !! c.1) + c.2]> groups) groups cs1
  = foldl (fun groups (c : uuid * uuid * numeric) =>
             <[c.1 := default 0 (groups !! c.1) + c.2]> groups) groups cs2.
Proof.
  intros Hperm. revert groups.
  induction Hperm as [|c l1 l2 _ IH|c1 c2 l|l1 l2 l3 _ IH1 _ IH2]; intros groups.
  - done.
  - simpl. apply IH.
  - simpl. f_equal. apply aggregate_step_comm.
  - by rewrite IH1.
Qed.

(** X10. [stock_balances] reads the product, the warehouse and the
    quantity of each movement and nothing else, in no particular order:
    two ledgers holding the same such triples, however arranged and
    whatever their movement types, balances-after, authors and dates, show
    the same balances. *)
Theorem balances_read_three_columns (db1 db2 : database) :
  Permutation (List.map balance_columns (db_stock_movements db1))
              (List.map balance_columns (db_stock_movements db2)) ->
  stock_balances db1 = stock_balances db2.
Proof.
  intros Hperm. unfold stock_balances. rewrite !aggregate_columns.
  by apply aggregate_permutation.
Qed.

Lemma balances_read_three_columns_witness :
  stock_balances example_db
  = stock_balances
      (with_stock_movements
         [{| stock_movements.id := 7%N; stock_movements.product_id := 200%N;
             stock_movements.warehouse_id := 100%N;
             stock_movements.movement_type := adjustment;
             stock_movements.reference_id := None; stock_movements.quantity := -2000;
             stock_movements.balance_after := 1; stock_movements.notes := None;
             stock_movements.created_by := None; stock_movements.created_at := 5 |};
          {| stock_movements.id := 8%N; stock_movements.product_id := 200%N;
             stock_movements.warehouse_id := 100%N;
             stock_movements.movement_type := transfer;
             stock_movements.reference_id := None; stock_movements.quantity := 5000;
             stock_movements.balance_after := 2; stock_movements.notes := None;
             stock_movements.created_by := None; stock_movements.created_at := 6 |}]
         example_db).
Proof.
  apply balances_read_three_columns. simpl. apply perm_swap.
Defined.

(** A DELETE that goes through has met no restriction on the rows it
    removed; every row of the table is among the kept or the removed. *)
Lemma sql_delete_ok {R} `{Relation R} (restrict : database -> R -> option sqlerror)
    db s where_ db' n :
  sql_delete restrict db s where_ = Ok (db', n) ->
  db' = with_rows (List.filter (fun r => negb (targeted db s DELETE where_ r)) (rows_of db)) db
  /\ forall r, In r (rows_of db) -> targeted db s DELETE where_ r = true ->
       restrict db r = None.
Proof.
  unfold sql_delete, rls_delete.
  destruct (first_violation _) eqn:Hv; [done|]. intros [= <- _]. split; [done|].
  intros r Hin Ht. apply first_violation_none in Hv.
  rewrite List.Forall_forall in Hv.
  destruct (restrict db r) as [err|] eqn:Hr; [|done].
  specialize (Hv (false, err)). simpl in Hv. exfalso.
  assert (false = true); [|done]. apply Hv.
  apply in_map_iff. exists r. rewrite Hr. split; [done|]. apply filter_In. done.
Qed.

Lemma In_map_filter_kept {A} (key : A -> uuid) (keep : A -> bool) (rows : list A) (i : uuid) :
  In i (List.map key rows) ->
  (forall r, In r rows -> key r = i -> keep r = true) ->
  In i (List.map key (List.filter keep rows)).
Proof.
  intros Hin Hkeep. apply in_map_iff in Hin as (r & Hk & Hr).
  apply in_map_iff. exists r. split; [done|]. apply filter_In. split; [done|].
  by apply Hkeep.
Qed.

(** X11. The ledger never refers to a product or a warehouse that is not
    there: if every movement's product and warehouse exist, they still do
    after any INSERT into the ledger and after any DELETE on [warehouses]
    or [products], in any session, whether the statement succeeds or
    fails. *)
Theorem ledger_references_stay_valid (db : database) (e : env) (s : session)
    (p : stock_movements.new.row)
    (where_w : warehouses.row -> bool) (where_p : products.row -> bool) :
  ledger_references_valid db ->
  ledger_references_valid (state_after (insert_stock_movement db e s p) db)
  /\ ledger_references_valid (state_after (delete_warehouses db s where_w) db)
  /\ ledger_references_valid (state_after (delete_products db s where_p) db).
Proof.
  intros Hvalid. split; [|split].
  - destruct (insert_stock_movement db e s p) as [[db' n]|] eqn:Hins; [|done].
    apply insert_stock_movement_iff in Hins
      as (product & warehouse & kind & quantity & balance_after & _ & _ & _ & _ & _ & _ & _
          & _ & _ & Hprod & Hwh & _ & -> & _).
    intros m Hin. simpl in Hin |- *. apply in_app_or in Hin as [Hin | [<- | []]].
    + by apply Hvalid.
    + done.
  - destruct (delete_warehouses db s where_w) as [[db' n]|] eqn:Hdel; [|done].
    apply sql_delete_ok in Hdel as [-> Hfree].
    intros m Hin. cbn [with_rows rows_of warehouses_rel] in *. simpl in Hin |- *.
    destruct (Hvalid m Hin) as [Hprod Hwh]. split; [done|].
    apply In_map_filter_kept; [done|]. intros w Hw Hid.
    destruct (targeted db s DELETE where_w w) eqn:Ht; [|done]. exfalso.
    apply (warehouses_restrict_movement db w); [|by apply Hfree].
    unfold warehouse_has_movement. apply existsb_exists. exists m.
    split; [done|]. by apply bool_decide_eq_true_2.
  - destruct (delete_products db s where_p) as [[db' n]|] eqn:Hdel; [|done].
    apply sql_delete_ok in Hdel as [-> Hfree].
    intros m Hin. cbn [with_rows rows_of products_rel] in *. simpl in Hin |- *.
    destruct (Hvalid m Hin) as [Hprod Hwh]. split; [|done].
    apply In_map_filter_kept; [done|]. intros q Hq Hid.
    destruct (targeted db s DELETE where_p q) eqn:Ht; [|done]. exfalso.
    apply (products_restrict_movement db q); [|by apply Hfree].
    unfold product_has_movement. apply existsb_exists. exists m.
    split; [done|]. by apply bool_decide_eq_true_2.
Qed.

Lemma example_db_ledger_references_valid : ledger_references_valid example_db.
Proof.
  intros m Hin. simpl in Hin.
  destruct Hin as [<- | [<- | []]]; split; by left.
Qed.

Lemma ledger_references_stay_valid_witness :
  ledger_references_valid
    (state_after (delete_products example_db Owner (fun _ => true)) example_db).
Proof.
  apply (ledger_references_stay_valid example_db {| now := 0; gen_random_uuid := 0%N |}
           Owner
           {| stock_movements.new.id := None; stock_movements.new.product_id := None;
              stock_movements.new.warehouse_id := None;
              stock_movements.new.movement_type := None;
              stock_movements.new.reference_id := None;
              stock_movements.new.quantity := None;
              stock_movements.new.balance_after := None;
              stock_movements.new.notes := None;
              stock_movements.new.created_by := None;
              stock_movements.new.created_at := None |}
           (fun _ => true) (fun _ => true) example_db_ledger_references_valid).
Defined.

(** ** Granting and revoking roles *)

Lemma has_role_app db (rows : list user_roles.row) (x : user_roles.row) u r :
  has_role (with_user_roles (rows ++ [x]) db) (Some u) r
  = has_role (with_user_roles rows db) (Some u) r
    || (bool_decide (user_roles.user_id x = u) && bool_decide (user_roles.role x = r)).
Proof. unfold has_role. simpl. rewrite existsb_app. simpl. by rewrite orb_false_r. Qed.

Lemma has_role_same_roles db db' u r :
  db_user_roles db' = db_user_roles db -> has_role db' u r = has_role db u r.
Proof. unfold has_role. by intros ->. Qed.

Lemma existsb_pointwise {A} (f g : A -> bool) (l : list A) :
  (forall x, f x = g x) -> existsb f l = existsb g l.
Proof. intros Hfg. induction l as [|x l IH]; [done|]. simpl. by rewrite Hfg, IH. Qed.

(** X12. A role assignment that goes in makes [has_role] true for its
    identity and role and changes no other answer of [has_role]; it can
    only go in when [has_role] was false for that identity and role
    (UNIQUE(user_id, role)). *)
Theorem role_grant_round_trip (db db' : database) (e : env) (s : session)
    (p : user_roles.new.row) (n : nat) :
  insert_user_role db e s p = Ok (db', n) ->
  exists u r,
    user_roles.new.user_id p = Some u /\ user_roles.new.role p = Some r
    /\ has_role db (Some u) r = false
    /\ forall u' r',
         has_role db' (Some u') r'
         = has_role db (Some u') r' || (bool_decide (u = u') && bool_decide (r = r')).
Proof.
  unfold insert_user_role. rewrite sql_insert_ok.
  intros [_ (x & Hbuild & Hc & -> & _)].
  unfold user_roles_build, not_null in Hbuild.
  destruct (user_roles.new.user_id p) as [u|]; [|done].
  destruct (user_roles.new.role p) as [r|]; [|done].
  rewrite !bind_Ok in Hbuild. injection Hbuild as <-.
  exists u, r. split; [done|]. split; [done|].
  unfold user_roles_constraints in Hc. apply first_violation_none in Hc.
  inversion_clear Hc as [|? ? _ Hc1]. inversion_clear Hc1 as [|? ? Hkey _].
  simpl in Hkey. unfold key_free in Hkey. apply negb_true_iff in Hkey. simpl in Hkey.
  split.
  - unfold has_role. rewrite <- Hkey. apply existsb_pointwise.
    intros y. repeat (case_bool_decide; simplify_eq/=); done.
  - intros u' r'. cbn [with_rows rows_of user_roles_rel].
    rewrite has_role_app. simpl. f_equal.
Qed.

Lemma role_grant_round_trip_witness :
  let e := {| now := 2000; gen_random_uuid := 12%N |} in
  let p := {| user_roles.new.id := None; user_roles.new.user_id := Some 3%N;
              user_roles.new.role := Some manager; user_roles.new.created_at := None |} in
  let db' := state_after (insert_user_role example_db e (Api (Authenticated 1%N)) p)
               example_db in
  has_role db' (Some 3%N) manager = true
  /\ has_role db' (Some 3%N) admin = false
  /\ has_role db' (Some 2%N) manager = false.
Proof.
  intros e p db'.
  destruct (role_grant_round_trip example_db db' e (Api (Authenticated 1%N)) p 1%nat
              ltac:(vm_compute; reflexivity))
    as (u & r & [= <-] & [= <-] & _ & Hafter).
  rewrite !Hafter. repeat split; reflexivity.
Defined.

Lemma user_roles_delete_reach db s where_ (x : user_roles.row) :
  match s with
  | Owner => True
  | Api who => has_role db (auth_uid who) admin = true
  end ->
  targeted db s DELETE where_ x = where_ x.
Proof.
  destruct s as [who|]; intros Hs.
  - rewrite user_roles_delete_targeted, Hs. apply andb_true_r.
  - unfold targeted. simpl. by rewrite !andb_true_r.
Qed.

(** X13. A DELETE on [user_roles] run by an admin (or by the owner of the
    table) removes exactly the rows its WHERE clause names.  Afterwards
    [has_role] is false for an identity and role all of whose assignments
    were named, and unchanged for one none of whose assignments were. *)
Theorem role_revoke (db : database) (s : session) (where_ : user_roles.row -> bool) :
  match s with
  | Owner => True
  | Api who => has_role db (auth_uid who) admin = true
  end ->
  let db' := with_user_roles
               (List.filter (fun x => negb (where_ x)) (db_user_roles db)) db in
  delete_user_roles db s where_
    = Ok (db', length (List.filter where_ (db_user_roles db)))
  /\ (forall u r,
        (forall x, user_roles.user_id x = u -> user_roles.role x = r -> where_ x = true) ->
        has_role db' (Some u) r = false)
  /\ (forall u r,
        (forall x, where_ x = true -> ~ (user_roles.user_id x = u /\ user_roles.role x = r)) ->
        has_role db' (Some u) r = has_role db (Some u) r).
Proof.
  intros Hs db'. split; [|split].
  - unfold delete_user_roles, sql_delete, rls_delete.
    cbn [rows_of with_rows user_roles_rel].
    rewrite (filter_ext (targeted db s DELETE where_) where_)
      by (intros; by apply user_roles_delete_reach).
    rewrite (filter_ext (fun r => negb (targeted db s DELETE where_ r))
               (fun x => negb (where_ x)))
      by (intros; by rewrite user_roles_delete_reach).
    assert (Hnone : forall l : list user_roles.row,
               first_violation
                 (List.map (fun _ : user_roles.row => (true, insufficient_privilege)) l) = None).
    { induction l as [|? ? IH]; [done | exact IH]. }
    by rewrite Hnone.
  - intros u r Hall. unfold has_role, db'. simpl.
    apply not_true_iff_false. rewrite existsb_exists. intros (x & Hin & Hx).
    apply filter_In in Hin as [_ Hkeep]. apply andb_true_iff in Hx as [Hu Hr].
    apply bool_decide_eq_true_1 in Hu, Hr. rewrite (Hall x Hu Hr) in Hkeep. done.
  - intros u r Hnone. unfold has_role, db'. simpl.
    induction (db_user_roles db) as [|x rest IH]; [done|]. simpl.
    destruct (where_ x) eqn:Hw; simpl.
    + rewrite IH. specialize (Hnone x Hw).
      destruct (decide (user_roles.user_id x = u)) as [Hu|Hu];
        destruct (decide (user_roles.role x = r)) as [Hr|Hr];
        rewrite ?(bool_decide_eq_true_2 _ Hu), ?(bool_decide_eq_false_2 _ Hu),
                ?(bool_decide_eq_true_2 _ Hr), ?(bool_decide_eq_false_2 _ Hr); try done.
      exfalso. by apply Hnone.
    + by rewrite IH.
Qed.

Lemma role_revoke_witness :
  has_role example_db (auth_uid (Authenticated 1%N)) admin = true
  /\ delete_user_roles example_db (Api (Authenticated 1%N))
       (fun x => bool_decide (user_roles.user_id x = 1%N))
     = Ok (with_user_roles
             [{| user_roles.id := 11%N; user_roles.user_id := 2%N; user_roles.role := staff;
                 user_roles.created_at := 1000 |}] example_db, 1%nat).
Proof.
  split; [reflexivity|].
  rewrite (proj1 (role_revoke example_db (Api (Authenticated 1%N))
                    (fun x => bool_decide (user_roles.user_id x = 1%N)) eq_refl)).
  reflexivity.
Defined.

Lemma no_admin_has_role db u :
  (forall x, In x (db_user_roles db) -> user_roles.role x <> admin) ->
  has_role db u admin = false.
Proof.
  intros Hno. destruct u as [u|]; [|done]. unfold has_role.
  apply not_true_iff_false. rewrite existsb_exists. intros (x & Hin & Hx).
  apply andb_true_iff in Hx as [_ Hr]. apply bool_decide_eq_true_1 in Hr.
  by apply (Hno x Hin).
Qed.

(** X14. While [user_roles] holds no admin assignment, no sequence of
    INSERTs and DELETEs on [user_roles] by API callers changes the
    database: the first admin cannot be made through the API. *)
Theorem first_admin_not_through_api (db : database) (sts : list roles_statement) :
  (forall x, In x (db_user_roles db) -> user_roles.role x <> admin) ->
  run_roles_statements db sts = db.
Proof.
  intros Hno. unfold run_roles_statements.
  induction sts as [|st rest IH]; [done|]. simpl.
  assert (Hstep : match st with
                  | roles_insert e who p => state_after (insert_user_role db e (Api who) p) db
                  | roles_delete who where_ =>
                      state_after (delete_user_roles db (Api who) where_) db
                  end = db).
  { destruct st as [e who p | who where_].
    - unfold insert_user_role, sql_insert. cbn [relname user_roles_rel].
      by rewrite user_roles_insert_check, no_admin_has_role.
    - unfold delete_user_roles, sql_delete. rewrite rls_delete_untargeted.
      + simpl. by rewrite with_user_roles_same.
      + intros x. rewrite user_roles_delete_targeted, no_admin_has_role by done.
        apply andb_false_r. }
  rewrite Hstep. exact IH.
Qed.

Lemma first_admin_not_through_api_witness :
  let db := with_user_roles
              [{| user_roles.id := 11%N; user_roles.user_id := 2%N; user_roles.role := staff;
                  user_roles.created_at := 1000 |}] example_db in
  run_roles_statements db
    [roles_insert {| now := 2000; gen_random_uuid := 12%N |} (Authenticated 2%N)
       {| user_roles.new.id := None; user_roles.new.user_id := Some 2%N;
          user_roles.new.role := Some admin; user_roles.new.created_at := None |};
     roles_delete (Authenticated 2%N) (fun _ => true)]
  = db.
Proof.
  intros db. apply first_admin_not_through_api.
  intros x [<- | []]. discriminate.
Defined.

(** ** Deleting categories and receipts *)

Lemma categories_delete_reach db s where_ (c : categories.row) :
  match s with
  | Owner => True
  | Api who => has_role db (auth_uid who) admin = true
  end ->
  targeted db s DELETE where_ c = where_ c.
Proof.
  destruct s as [who|]; intros Hs.
  - unfold targeted, row_visible. cbn [relname categories_rel].
    rewrite (proj1 (proj2 (proj2 (masters_using db who _ _)))), Hs.
    unfold using_ok. with_strategy opaque [has_role] simpl. rewrite Hs.
    with_strategy opaque [has_role] simpl.
    by destruct (where_ c), (applicable _ _ _ _).
  - unfold targeted. simpl. by rewrite !andb_true_r.
Qed.

(** X15. A DELETE on [categories] run by an admin (or by the owner)
    removes the categories its WHERE clause names and deletes no product:
    the products that referred to a removed category are kept with
    [category_id] NULL, the others are untouched, and no product refers to
    a removed category afterwards. *)
Theorem category_delete_sets_null (db : database) (s : session)
    (where_ : categories.row -> bool) :
  match s with
  | Owner => True
  | Api who => has_role db (auth_uid who) admin = true
  end ->
  exists db',
    delete_categories db s where_
      = Ok (db', length (List.filter where_ (db_categories db)))
    /\ db_categories db' = List.filter (fun c => negb (where_ c)) (db_categories db)
    /\ db_products db'
       = List.map (fun p => if in_categories (List.filter where_ (db_categories db)) p
                            then with_category_id None p else p)
                  (db_products db)
    /\ List.map products.id (db_products db') = List.map products.id (db_products db)
    /\ forall p c g,
         In p (db_products db') -> products.category_id p = Some c ->
         In g (db_categories db) -> where_ g = true -> categories.id g <> c.
Proof.
  intros Hs. unfold delete_categories, rls_delete.
  rewrite (filter_ext (targeted db s DELETE where_) where_)
    by (intros; by apply categories_delete_reach).
  rewrite (filter_ext (fun r => negb (targeted db s DELETE where_ r))
             (fun c => negb (where_ c)))
    by (intros; by rewrite categories_delete_reach).
  eexists. split; [reflexivity|]. split; [reflexivity|]. split; [reflexivity|]. split.
  - simpl. rewrite map_map. apply map_ext. intros p. by destruct (in_categories _ p).
  - simpl. intros p c g Hp Hc Hg Hw Heq.
    apply in_map_iff in Hp as (q & Hq & Hin).
    destruct (in_categories (List.filter where_ (db_categories db)) q) eqn:Hgone.
    + subst p. simpl in Hc. done.
    + subst p. unfold in_categories in Hgone. rewrite Hc in Hgone.
      apply not_true_iff_false in Hgone. apply Hgone.
      apply existsb_exists. exists g. split; [by apply filter_In|].
      by apply bool_decide_eq_true_2.
Qed.

Lemma category_delete_sets_null_witness :
  has_role example_catalogue (auth_uid (Authenticated 1%N)) admin = true
  /\ exists db',
       delete_categories example_catalogue (Api (Authenticated 1%N))
         (fun c => bool_decide (categories.id c = 51%N)) = Ok (db', 1%nat)
       /\ List.map categories.id (db_categories db') = [50%N; 52%N]
       /\ List.map products.category_id (db_products db') = [None; None]
       /\ List.map products.id (db_products db') = [200%N; 201%N].
Proof.
  split; [reflexivity|].
  destruct (category_delete_sets_null example_catalogue (Api (Authenticated 1%N))
              (fun c => bool_decide (categories.id c = 51%N)) eq_refl)
    as (db' & Hdel & Hcats & Hprods & _ & _).
  exists db'. split; [exact Hdel|]. rewrite Hcats, Hprods. repeat split; reflexivity.
Defined.

Lemma receipts_not_deletable db who where_ (r : receipts.row) :
  targeted db (Api who) DELETE where_ r = false.
Proof. unfold targeted. apply andb_false_intro2. reflexivity. Qed.

(** X16. [receipts] has no DELETE policy: a DELETE by an API caller
    removes nothing.  Run by the owner of the table, it removes the
    receipts its WHERE clause names together with exactly their lines, and
    touches nothing else: a movement that names a removed receipt in
    [reference_id] stays in the ledger with that reference. *)
Theorem receipt_delete_cascades (db : database) (where_ : receipts.row -> bool) :
  (forall who, delete_receipts db (Api who) where_ = Ok (db, 0%nat))
  /\ exists db',
       delete_receipts db Owner where_
         = Ok (db', length (List.filter where_ (db_receipts db)))
       /\ db_receipts db' = List.filter (fun r => negb (where_ r)) (db_receipts db)
       /\ db_receipt_lines db'
          = List.filter
              (fun l => negb (existsb (fun r => where_ r
                                        && bool_decide (receipts.id r = receipt_lines.receipt_id l))
                                      (db_receipts db)))
              (db_receipt_lines db)
       /\ db_stock_movements db' = db_stock_movements db
       /\ db_products db' = db_products db
       /\ db_warehouses db' = db_warehouses db.
Proof.
  split.
  - intros who. unfold delete_receipts.
    rewrite rls_delete_untargeted by (intros; apply receipts_not_deletable).
    simpl. rewrite filter_all by done. by destruct db.
  - unfold delete_receipts, rls_delete.
    rewrite (filter_ext (targeted db Owner DELETE where_) where_)
      by (intros; unfold targeted; simpl; by rewrite !andb_true_r).
    rewrite (filter_ext (fun r => negb (targeted db Owner DELETE where_ r))
               (fun r => negb (where_ r)))
      by (intros; unfold targeted; simpl; by rewrite !andb_true_r).
    eexists. split; [reflexivity|]. split; [reflexivity|]. split; [|done].
    simpl. apply filter_ext. intros l. f_equal.
    induction (db_receipts db) as [|r rest IH]; [done|]. simpl.
    destruct (where_ r); simpl; by rewrite IH.
Qed.

(** The owner deletes the first receipt of the example: its two lines
    go, the other receipt with its line and the movement that names the
    deleted receipt stay. *)
Example receipt_delete_example :
  let db' := state_after
               (delete_receipts example_received Owner
                  (fun r => bool_decide (receipts.id r = 500%N)))
               example_received in
  List.map receipts.id (db_receipts db') = [501%N]
  /\ List.map receipt_lines.id (db_receipt_lines db') = [601%N]
  /\ List.map stock_movements.reference_id (db_stock_movements db')
     = [None; None; Some 500%N].
Proof. repeat split; vm_compute; reflexivity. Qed.

(** ** References made of the clock *)

Lemma string_of_number_round_trip (n : Z) : number_of_string (string_of_number n) = Some n.
Proof.
  unfold number_of_string, string_of_number.
  rewrite NilZero.isi.
  - simpl. by rewrite DecimalZ.of_to.
  - intros Hnil. pose proof (DecimalZ.of_to n) as Hn. rewrite Hnil in Hn.
    simpl in Hn. subst n. discriminate Hnil.
  - intros Hnil. pose proof (DecimalZ.of_to n) as Hn. rewrite Hnil in Hn.
    simpl in Hn. subst n. discriminate Hnil.
Qed.

Lemma append_inj_r (prefix a b : string) :
  (prefix ++ a)%string = (prefix ++ b)%string -> a = b.
Proof. induction prefix as [|c prefix IH]; simpl; [done|]. intros [= H]. by apply IH. Qed.

(** X17. The reference of a document determines the clock reading it was
    made of: two receipts (or two deliveries) get the same reference only
    when their submissions read the same millisecond, and a receipt never
    shares a reference with a delivery. *)
Theorem references_tell_the_millisecond (t1 t2 : Z) :
  (("RCP-" ++ string_of_number t1)%string = ("RCP-" ++ string_of_number t2)%string
   <-> t1 = t2)
  /\ (("DEL-" ++ string_of_number t1)%string = ("DEL-" ++ string_of_number t2)%string
      <-> t1 = t2)
  /\ ("RCP-" ++ string_of_number t1)%string <> ("DEL-" ++ string_of_number t2)%string.
Proof.
  assert (Hinj : string_of_number t1 = string_of_number t2 -> t1 = t2).
  { intros Heq. pose proof (string_of_number_round_trip t1) as H1.
    rewrite Heq, string_of_number_round_trip in H1. by injection H1. }
  split; [|split].
  - split; [|by intros ->]. intros Heq. by apply Hinj, (append_inj_r "RCP-").
  - split; [|by intros ->]. intros Heq. by apply Hinj, (append_inj_r "DEL-").
  - simpl. discriminate.
Qed.

(** X18. Two submissions of the Receipts page that read different
    milliseconds do not collide: when the first went through, the second,
    by a signed-in caller for the same warehouse, with a date that reads
    and a fresh id, goes through as well, provided its reference was not
    in the table to begin with. *)
Theorem different_milliseconds_both_accepted
    (uuid_in : string -> option uuid) (date_in : string -> option date)
    (db db1 : database) (e1 e2 : env) (who1 who2 : caller) (t1 t2 : Z)
    (form1 form2 : Receipts.formData) (n : nat) (sd : option date) :
  Receipts.handleSubmit uuid_in date_in db e1 who1 t1 form1 = Ok (db1, n) ->
  t2 <> t1 ->
  auth_uid who2 <> None ->
  uuid_in (Receipts.warehouse_id form2) = uuid_in (Receipts.warehouse_id form1) ->
  scheduled_of date_in (Receipts.scheduled_date form2) = Some sd ->
  gen_random_uuid e2 <> gen_random_uuid e1 ->
  ~ In (gen_random_uuid e2) (List.map receipts.id (db_receipts db)) ->
  ~ In ("RCP-" ++ string_of_number t2)%string (List.map receipts.reference (db_receipts db)) ->
  exists db2,
    Receipts.handleSubmit uuid_in date_in db1 e2 who2 t2 form2 = Ok (db2, 1%nat)
    /\ List.map receipts.reference (db_receipts db2)
       = List.map receipts.reference (db_receipts db)
         ++ [("RCP-" ++ string_of_number t1)%string; ("RCP-" ++ string_of_number t2)%string].
Proof.
  intros Hfirst Ht Hwho Hwh Hsd Hgen Hid Href.
  apply handleSubmit_accepted_iff in Hfirst
    as (w & sd1 & _ & Hw1 & _ & _ & _ & Hfk & -> & _).
  eexists. split.
  - apply handleSubmit_accepted_iff. exists w, sd.
    split; [done|]. split; [by rewrite Hwh|]. split; [done|].
    simpl. rewrite !map_app. simpl. split; [|split; [|done]].
    + intros Hin. apply in_app_or in Hin as [Hin | [Heq | []]]; [done | by symmetry in Heq].
    + intros Hin. apply in_app_or in Hin as [Hin | [Heq | []]]; [done|].
      apply append_inj_r in Heq.
      pose proof (string_of_number_round_trip t1) as H1.
      rewrite Heq, string_of_number_round_trip in H1. by injection H1.
  - simpl. rewrite !map_app. simpl. by rewrite <- app_assoc.
Qed.

Lemma different_milliseconds_both_accepted_witness :
  exists db2,
    Receipts.handleSubmit example_uuid_in example_date_in db_after_acme
      {| now := 9001; gen_random_uuid := 501%N |} (Authenticated 3%N)
      1763786722001 form_globex = Ok (db2, 1%nat)
    /\ List.map receipts.reference (db_receipts db2)
       = ["RCP-1763786722000"; "RCP-1763786722001"].
Proof.
  destruct (different_milliseconds_both_accepted example_uuid_in example_date_in
              example_db db_after_acme
              {| now := 9000; gen_random_uuid := 500%N |}
              {| now := 9001; gen_random_uuid := 501%N |}
              (Authenticated 2%N) (Authenticated 3%N) 1763786722000 1763786722001
              form_acme form_globex 1%nat (Some 20050)
              ltac:(vm_compute; reflexivity) ltac:(discriminate) ltac:(discriminate)
              eq_refl ltac:(vm_compute; reflexivity) ltac:(discriminate)
              ltac:(intros []) ltac:(intros []))
    as (db2 & Hok & Hrefs).
  exists db2. split; [exact Hok|]. rewrite Hrefs. vm_compute. reflexivity.
Defined.

(** ** Submitting a delivery *)

Lemma deliveries_check db who i cb :
  check_ok db who public_deliveries INSERT i cb = bool_decide (auth_uid who <> None).
Proof. by destruct who. Qed.

(** When a submission of the Deliveries page goes through, and what it
    stores. *)
Lemma deliveries_handleSubmit_accepted_iff
    (uuid_in : string -> option uuid) (date_in : string -> option date)
    (db db' : database) (e : env) (who : caller) (t : Z) (form : Deliveries.formData)
    (n : nat) :
  Deliveries.handleSubmit uuid_in date_in db e who t form = Ok (db', n) <->
  exists w sd,
    auth_uid who <> None
    /\ uuid_in (Deliveries.warehouse_id form) = Some w
    /\ scheduled_of date_in (Deliveries.scheduled_date form) = Some sd
    /\ ~ In (gen_random_uuid e) (List.map deliveries.id (db_deliveries db))
    /\ ~ In ("DEL-" ++ string_of_number t)%string (List.map deliveries.reference (db_deliveries db))
    /\ In w (List.map warehouses.id (db_warehouses db))
    /\ db' = with_deliveries (db_deliveries db ++ [submitted_delivery e t form w sd]) db
    /\ n = 1%nat.
Proof.
  unfold Deliveries.handleSubmit, cast, scheduled_of.
  destruct (uuid_in (Deliveries.warehouse_id form)) as [w|]; cycle 1.
  { split; [done|]. by intros (w & sd & _ & ? & _). }
  rewrite bind_Ok.
  assert (Hin : forall {A B} `{EqDecision B} (key : A -> B) (l : list A) (b : B),
             existsb (fun r => bool_decide (key r = b)) l = false <-> ~ In b (List.map key l)).
  { intros A B ? key l b. rewrite <- not_true_iff_false, existsb_exists, in_map_iff.
    split; intros Hn (x & H1 & H2); apply Hn; exists x.
    - split; [done|]. by apply bool_decide_eq_true_2.
    - split; [by apply bool_decide_eq_true_1 in H2 | done]. }
  assert (Hin' : forall (l : list warehouses.row) (b : uuid),
             existsb (fun r => bool_decide (warehouses.id r = b)) l = true
             <-> In b (List.map warehouses.id l)).
  { intros l b. rewrite existsb_exists, in_map_iff.
    split; intros (x & H1 & H2); exists x.
    - split; [by apply bool_decide_eq_true_1 in H2 | done].
    - split; [done|]. by apply bool_decide_eq_true_2. }
  set (parsed := if bool_decide (Deliveries.scheduled_date form = EmptyString) then Ok None
                 else d ← match date_in (Deliveries.scheduled_date form) with
                          | Some a => Ok a
                          | None => Error invalid_text_representation
                          end; Ok (Some d)).
  assert (Hparsed : match (if bool_decide (Deliveries.scheduled_date form = EmptyString)
                           then Some None
                           else match date_in (Deliveries.scheduled_date form) with
                                | Some d => Some (Some d)
                                | None => None
                                end) with
                    | Some sd => parsed = Ok sd
                    | None => exists err, parsed = Error err
                    end).
  { subst parsed. destruct (bool_decide _); [done|].
    destruct (date_in _); [done | by eexists]. }
  destruct (if bool_decide (Deliveries.scheduled_date form = EmptyString) then Some None
            else _) as [sd|]; cycle 1.
  { destruct Hparsed as [err ->]. split; [done|]. by intros (? & ? & _ & _ & ? & _). }
  rewrite Hparsed, bind_Ok, stock_status_in_draft, bind_Ok.
  unfold insert_delivery. rewrite sql_insert_ok.
  cbn [relname deliveries_rel rows_of with_rows]. rewrite deliveries_check.
  unfold deliveries_build, not_null. cbn [deliveries.new.reference deliveries.new.warehouse_id
    deliveries.new.customer_name deliveries.new.id deliveries.new.status
    deliveries.new.scheduled_date deliveries.new.delivered_date deliveries.new.notes
    deliveries.new.created_by deliveries.new.created_at deliveries.new.updated_at].
  rewrite !bind_Ok. cbn [default from_option].
  fold (submitted_delivery e t form w sd).
  split.
  - intros [Hauth (r & [= <-] & Hc & -> & ->)].
    exists w, sd. apply bool_decide_eq_true_1 in Hauth.
    unfold deliveries_constraints in Hc. apply first_violation_none in Hc.
    inversion_clear Hc as [|? ? Hid Hc']. inversion_clear Hc' as [|? ? Href Hc''].
    inversion_clear Hc'' as [|? ? Hfk _]. simpl in Hid, Href, Hfk.
    unfold key_free in Hid, Href. apply negb_true_iff in Hid, Href.
    apply Hin in Hid, Href. apply Hin' in Hfk. done.
  - intros (w' & sd' & Hauth & [= <-] & [= <-] & Hid & Href & Hfk & -> & ->).
    split; [by apply bool_decide_eq_true_2|].
    eexists. split; [reflexivity|]. split; [|done].
    unfold deliveries_constraints. apply first_violation_none.
    apply (proj2 (Hin _ _ _ deliveries.id _ _)) in Hid.
    apply (proj2 (Hin _ _ _ deliveries.reference _ _)) in Href.
    apply (proj2 (Hin' _ _)) in Hfk.
    repeat constructor; simpl; unfold key_free, has_id; simpl.
    + apply negb_true_iff. exact Hid.
    + apply negb_true_iff. exact Href.
    + exact Hfk.
Qed.

(** X19. Two submissions of the Deliveries page that read the same
    millisecond collide like receipts do: when the first went through, the
    second, from any signed-in caller with a form that reads, fails with a
    unique violation and leaves the database as the first left it. *)
Theorem same_millisecond_delivery_rejected
    (uuid_in : string -> option uuid) (date_in : string -> option date)
    (db db1 : database) (e1 e2 : env) (who1 who2 : caller) (t : Z)
    (form1 form2 : Deliveries.formData) (n : nat) :
  Deliveries.handleSubmit uuid_in date_in db e1 who1 t form1 = Ok (db1, n) ->
  auth_uid who2 <> None ->
  uuid_in (Deliveries.warehouse_id form2) <> None ->
  scheduled_of date_in (Deliveries.scheduled_date form2) <> None ->
  exists constraint,
    Deliveries.handleSubmit uuid_in date_in db1 e2 who2 t form2
      = Error (unique_violation constraint)
    /\ (constraint = "deliveries_reference_key" \/ constraint = "deliveries_pkey")
    /\ In ("DEL-" ++ string_of_number t)%string
          (List.map deliveries.reference (db_deliveries db1)).
Proof.
  intros Hfirst Hwho Hw Hsd.
  apply deliveries_handleSubmit_accepted_iff in Hfirst
    as (w1 & sd1 & _ & _ & _ & _ & _ & _ & -> & _).
  assert (Hthere : In ("DEL-" ++ string_of_number t)%string
                      (List.map deliveries.reference
                         (db_deliveries db ++ [submitted_delivery e1 t form1 w1 sd1]))).
  { rewrite map_app. apply in_or_app. right. by left. }
  unfold Deliveries.handleSubmit, cast.
  destruct (uuid_in (Deliveries.warehouse_id form2)) as [w|]; [|done]. rewrite bind_Ok.
  unfold scheduled_of in Hsd.
  destruct (bool_decide (Deliveries.scheduled_date form2 = EmptyString)).
  - rewrite bind_Ok, stock_status_in_draft, bind_Ok.
    unfold insert_delivery, sql_insert. cbn [relname deliveries_rel].
    rewrite deliveries_check, bool_decide_eq_true_2 by done.
    unfold deliveries_build, not_null. simpl. rewrite ?bind_Ok.
    unfold deliveries_constraints, first_violation.
    destruct (key_free deliveries.id _ None _).
    + exists "deliveries_reference_key". split; [|split; [by left | exact Hthere]].
      unfold key_free. simpl.
      by rewrite (proj2 (existsb_key_true deliveries.reference _ _) Hthere).
    + exists "deliveries_pkey". split; [done|]. split; [by right | exact Hthere].
  - destruct (date_in (Deliveries.scheduled_date form2)) as [d|]; [|done].
    rewrite !bind_Ok, stock_status_in_draft, bind_Ok.
    unfold insert_delivery, sql_insert. cbn [relname deliveries_rel].
    rewrite deliveries_check, bool_decide_eq_true_2 by done.
    unfold deliveries_build, not_null. simpl. rewrite ?bind_Ok.
    unfold deliveries_constraints, first_violation.
    destruct (key_free deliveries.id _ None _).
    + exists "deliveries_reference_key". split; [|split; [by left | exact Hthere]].
      unfold key_free. simpl.
      by rewrite (proj2 (existsb_key_true deliveries.reference _ _) Hthere).
    + exists "deliveries_pkey". split; [done|]. split; [by right | exact Hthere].
Qed.

Lemma same_millisecond_delivery_rejected_witness :
  Deliveries.handleSubmit example_uuid_in example_date_in db_after_initech
    {| now := 9001; gen_random_uuid := 701%N |} (Authenticated 3%N)
    1763786722000 form_initech
  = Error (unique_violation "deliveries_reference_key").
Proof.
  destruct (same_millisecond_delivery_rejected example_uuid_in example_date_in
              example_db db_after_initech
              {| now := 9000; gen_random_uuid := 700%N |}
              {| now := 9001; gen_random_uuid := 701%N |}
              (Authenticated 2%N) (Authenticated 3%N) 1763786722000
              form_initech form_initech 1%nat
              ltac:(vm_compute; reflexivity) ltac:(discriminate)
              ltac:(vm_compute; discriminate) ltac:(vm_compute; discriminate))
    as (c & Herr & _ & _).
  vm_compute. reflexivity.
Defined.

Lemma insert_delivery_with_receipts db e s p (rows : list receipts.row) :
  insert_delivery (with_receipts rows db) e s p
  = match insert_delivery db e s p with
    | Ok (db', n) => Ok (with_receipts rows db', n)
    | Error err => Error err
    end.
Proof.
  unfold insert_delivery, sql_insert. cbn [relname deliveries_rel rows_of with_rows].
  change (match s with
          | Api who => check_ok (with_receipts rows db) who public_deliveries INSERT
                         (Some (default (gen_random_uuid e) (deliveries.new.id p)))
                         (deliveries.new.created_by p)
          | Owner => true
          end)
    with (match s with
          | Api who => check_ok db who public_deliveries INSERT
                         (Some (default (gen_random_uuid e) (deliveries.new.id p)))
                         (deliveries.new.created_by p)
          | Owner => true
          end).
  destruct (match s with Api _ => _ | Owner => _ end); [|done].
  destruct (deliveries_build e p) as [r|err]; unfold mbind, result_bind; [|done].
  change (deliveries_constraints (with_receipts rows db) None r)
    with (deliveries_constraints db None r).
  by destruct (deliveries_constraints db None r).
Qed.

(** X20. Receipts and deliveries do not get in each other's way: once a
    receipt submission has gone through, a delivery submission (in the same
    millisecond or any other) has the outcome it would have had before,
    and when it goes through both documents are stored. *)
Theorem receipt_then_delivery
    (uuid_in : string -> option uuid) (date_in : string -> option date)
    (db db1 : database) (e1 e2 : env) (who1 who2 : caller) (t1 t2 : Z)
    (form1 : Receipts.formData) (form2 : Deliveries.formData) (n : nat) :
  Receipts.handleSubmit uuid_in date_in db e1 who1 t1 form1 = Ok (db1, n) ->
  Deliveries.handleSubmit uuid_in date_in db1 e2 who2 t2 form2
  = match Deliveries.handleSubmit uuid_in date_in db e2 who2 t2 form2 with
    | Ok (db2, m) => Ok (with_receipts (db_receipts db1) db2, m)
    | Error err => Error err
    end.
Proof.
  intros Hfirst.
  apply handleSubmit_accepted_iff in Hfirst as (w & sd & _ & _ & _ & _ & _ & _ & -> & _).
  unfold Deliveries.handleSubmit, cast.
  destruct (uuid_in (Deliveries.warehouse_id form2)) as [w2|]; [|done]. rewrite !bind_Ok.
  destruct (bool_decide (Deliveries.scheduled_date form2 = EmptyString)).
  - rewrite !bind_Ok, stock_status_in_draft, !bind_Ok. apply insert_delivery_with_receipts.
  - destruct (date_in (Deliveries.scheduled_date form2)) as [d|]; [|done].
    rewrite !bind_Ok, stock_status_in_draft, !bind_Ok. apply insert_delivery_with_receipts.
Qed.

Lemma receipt_then_delivery_witness :
  exists db2,
    Deliveries.handleSubmit example_uuid_in example_date_in db_after_acme
      {| now := 9000; gen_random_uuid := 700%N |} (Authenticated 2%N)
      1763786722000 form_initech = Ok (db2, 1%nat)
    /\ List.map receipts.reference (db_receipts db2) = ["RCP-1763786722000"]
    /\ List.map deliveries.reference (db_deliveries db2) = ["DEL-1763786722000"].
Proof.
  eexists. split.
  - rewrite (receipt_then_delivery example_uuid_in example_date_in example_db db_after_acme
               {| now := 9000; gen_random_uuid := 500%N |} _ (Authenticated 2%N) _
               1763786722000 _ form_acme _ 1%nat ltac:(vm_compute; reflexivity)).
    vm_compute. reflexivity.
  - split; vm_compute; reflexivity.
Defined.

(** ** The dashboard after a submission *)

Lemma receipts_visible db uid (rows : list receipts.row) :
  rls_select db (Api (Authenticated uid)) rows = rows.
Proof. apply filter_all. intros r. reflexivity. Qed.

Lemma deliveries_visible db uid (rows : list deliveries.row) :
  rls_select db (Api (Authenticated uid)) rows = rows.
Proof. apply filter_all. intros r. reflexivity. Qed.

(** X21. A receipt that the Receipts page has just stored is a pending one
    on the dashboard: for every signed-in viewer the count of pending
    receipts is the old count plus one, and the three other figures are
    what they were. *)
Theorem submitted_receipt_is_pending
    (uuid_in : string -> option uuid) (date_in : string -> option date)
    (db db1 : database) (e : env) (who : caller) (t : Z)
    (form : Receipts.formData) (n : nat) (viewer : uuid) :
  Receipts.handleSubmit uuid_in date_in db e who t form = Ok (db1, n) ->
  let count :=
    Z.of_nat (length (List.filter (fun r => Dashboard.pending (receipts.status r))
                        (db_receipts db))) in
  let before := Dashboard.fetchStats db (Authenticated viewer) in
  let after := Dashboard.fetchStats db1 (Authenticated viewer) in
  Dashboard.pendingReceipts before = number_of_Z count
  /\ Dashboard.pendingReceipts after = number_of_Z (count + 1)
  /\ Dashboard.totalProducts after = Dashboard.totalProducts before
  /\ Dashboard.lowStockProducts after = Dashboard.lowStockProducts before
  /\ Dashboard.pendingDeliveries after = Dashboard.pendingDeliveries before.
Proof.
  intros Hsub.
  apply handleSubmit_accepted_iff in Hsub as (w & sd & _ & _ & _ & _ & _ & _ & -> & _).
  unfold Dashboard.fetchStats, Dashboard.count_exact, Dashboard.or_zero.
  cbn [Dashboard.pendingReceipts Dashboard.totalProducts Dashboard.lowStockProducts
       Dashboard.pendingDeliveries].
  rewrite !receipts_visible, !deliveries_visible, !products_visible.
  split; [reflexivity|]. split; [|by repeat split].
  cbn [rows_of receipts_rel with_receipts db_receipts].
  rewrite List.filter_app, length_app. simpl. f_equal. lia.
Qed.

Lemma submitted_receipt_is_pending_witness :
  Dashboard.pendingReceipts (Dashboard.fetchStats example_db (Authenticated 3%N))
    = number_of_Z 0
  /\ Dashboard.pendingReceipts (Dashboard.fetchStats db_after_acme (Authenticated 3%N))
    = number_of_Z 1.
Proof.
  destruct (submitted_receipt_is_pending example_uuid_in example_date_in example_db
              db_after_acme {| now := 9000; gen_random_uuid := 500%N |}
              (Authenticated 2%N) 1763786722000 form_acme 1%nat 3%N
              ltac:(vm_compute; reflexivity)) as (H0 & H1 & _).
  split; [exact H0 | exact H1].
Defined.

(** ** Signing up *)

Lemma insert_auth_user_no_email db e NEW :
  has_user db (users.id NEW) = false ->
  users.email NEW = None ->
  insert_auth_user db e NEW = Error (not_null_violation "email").
Proof.
  intros Hnew Hemail. unfold insert_auth_user. rewrite Hnew.
  unfold handle_new_user, insert_profile, sql_insert, profiles_build.
  by rewrite Hemail.
Qed.

(** X22. An identity without an email address (a phone sign-up) cannot be
    created: the provisioning trigger's INSERT violates NOT NULL on
    [profiles.email], which aborts the creation of the identity as well, so
    neither the identity nor a profile is stored. *)
Theorem identity_without_email_refused (db : database) (e : env) (NEW : users.row) :
  has_user db (users.id NEW) = false ->
  users.email NEW = None ->
  insert_auth_user db e NEW = Error (not_null_violation "email")
  /\ sign_up db (e, NEW) = db.
Proof.
  intros Hnew Hemail. unfold sign_up. simpl.
  by rewrite (insert_auth_user_no_email db e NEW Hnew Hemail).
Qed.

Lemma identity_without_email_refused_witness :
  let NEW := {| users.id := 4%N; users.email := None;
                users.raw_user_meta_data := None |} in
  insert_auth_user example_db {| now := 9000; gen_random_uuid := 500%N |} NEW
    = Error (not_null_violation "email")
  /\ sign_up example_db ({| now := 9000; gen_random_uuid := 500%N |}, NEW) = example_db.
Proof.
  apply (identity_without_email_refused example_db
           {| now := 9000; gen_random_uuid := 500%N |}
           {| users.id := 4%N; users.email := None; users.raw_user_meta_data := None |});
    reflexivity.
Defined.

Lemma has_user_In db u : In u (auth_users db) -> has_user db (users.id u) = true.
Proof.
  intros Hin. unfold has_user. apply existsb_exists. exists u.
  split; [done|]. by apply bool_decide_eq_true_2.
Qed.

Lemma sign_up_keeps db attempt :
  profiles_reference_users db -> every_identity_has_profile db ->
  profiles_reference_users (sign_up db attempt)
  /\ every_identity_has_profile (sign_up db attempt).
Proof.
  intros Hfk Hone. destruct attempt as [e NEW]. unfold sign_up. simpl.
  destruct (insert_auth_user db e NEW) as [[db' n]|err] eqn:Hrun; [|done].
  apply insert_auth_user_inv in Hrun as (email & Hemail & Hnew & ->); [|done].
  simpl. split.
  - intros p Hp. simpl in Hp. apply in_app_iff in Hp as [Hp|[<-|[]]].
    + specialize (Hfk p Hp). unfold has_user in *. simpl.
      by rewrite existsb_app, Hfk.
    + unfold has_user. simpl. rewrite existsb_app. simpl.
      rewrite bool_decide_eq_true_2 by done. apply orb_true_r.
  - intros u Hu. simpl in Hu. unfold profiles_of. simpl.
    rewrite List.filter_app. simpl.
    apply in_app_iff in Hu as [Hu|[<-|[]]].
    + destruct (Hone u Hu) as [p Hp]. exists p. unfold profiles_of in Hp. rewrite Hp.
      rewrite bool_decide_eq_false_2; [done|].
      intros Heq. apply has_user_In in Hu. congruence.
    + rewrite (proj1 (no_profile_without_user db _ Hfk Hnew)).
      rewrite bool_decide_eq_true_2 by done. by eexists.
Qed.

Lemma sign_ups_keep attempts : forall db,
  profiles_reference_users db -> every_identity_has_profile db ->
  profiles_reference_users (sign_ups db attempts)
  /\ every_identity_has_profile (sign_ups db attempts).
Proof.
  induction attempts as [|a rest IH]; intros db Hfk Hone; [done|].
  destruct (sign_up_keeps db a Hfk Hone) as [Hfk' Hone'].
  exact (IH _ Hfk' Hone').
Qed.

Lemma example_db_every_identity_has_profile : every_identity_has_profile example_db.
Proof.
  intros u Hu. simpl in Hu.
  repeat (destruct Hu as [<-|Hu]; [by eexists|]). destruct Hu.
Qed.

(** X23. Whatever sign-ups are attempted, in whatever order and whether
    they go through or fail, every identity keeps exactly one profile and
    every profile keeps its identity. *)
Theorem sign_ups_keep_one_profile_each (db : database) (attempts : list (env * users.row)) :
  profiles_reference_users db -> every_identity_has_profile db ->
  profiles_reference_users (sign_ups db attempts)
  /\ every_identity_has_profile (sign_ups db attempts).
Proof. apply sign_ups_keep. Qed.

Lemma sign_ups_keep_one_profile_each_witness :
  let e := {| now := 9000; gen_random_uuid := 500%N |} in
  let attempts :=
    [(e, {| users.id := 4%N; users.email := Some "new@example.com";
            users.raw_user_meta_data := None |});
     (e, {| users.id := 4%N; users.email := Some "again@example.com";
            users.raw_user_meta_data := None |});
     (e, {| users.id := 5%N; users.email := None; users.raw_user_meta_data := None |})] in
  profiles_reference_users (sign_ups example_db attempts)
  /\ every_identity_has_profile (sign_ups example_db attempts).
Proof.
  intros e attempts.
  exact (sign_ups_keep_one_profile_each example_db attempts
           example_db_profiles_reference_users example_db_every_identity_has_profile).
Defined.

(** ** The lines of receipts *)

Lemma rls_update_all {R} `{Relation R} db s where_ set_ before_update constraints
    (P : R -> Prop) : forall rows rows' n,
  rls_update db s where_ set_ before_update constraints rows = Ok (rows', n) ->
  (forall r, In r rows -> P r) ->
  (forall old r', constraints (Some old) r' = None -> P r') ->
  forall r, In r rows' -> P r.
Proof.
  induction rows as [|x rest IH]; intros rows' n Hrun Hrows Hnew r Hr.
  - injection Hrun as <- <-. destruct Hr.
  - simpl in Hrun.
    destruct (targeted db s UPDATE where_ x).
    + destruct (updated_row_ok db s (before_update (set_ x))); [|done].
      destruct (constraints (Some x) (before_update (set_ x))) eqn:Hc; [done|].
      destruct (rls_update db s where_ set_ before_update constraints rest)
        as [[rest' m]|] eqn:Hrest; [|done].
      injection Hrun as <- <-. destruct Hr as [<-|Hr].
      * by apply (Hnew x).
      * apply (IH rest' m eq_refl); [|done|done]. intros y Hy. apply Hrows. by right.
    + destruct (rls_update db s where_ set_ before_update constraints rest)
        as [[rest' m]|] eqn:Hrest; [|done].
      injection Hrun as <- <-. destruct Hr as [<-|Hr].
      * apply Hrows. by left.
      * apply (IH rest' m eq_refl); [|done|done]. intros y Hy. apply Hrows. by right.
Qed.

Lemma receipt_lines_constraints_none db old r :
  receipt_lines_constraints db old r = None ->
  0 < receipt_lines.quantity r
  /\ In (receipt_lines.receipt_id r) (List.map receipts.id (db_receipts db)).
Proof.
  unfold receipt_lines_constraints. rewrite first_violation_none.
  intros Hc. inversion_clear Hc as [|? ? _ Hc1]. inversion_clear Hc1 as [|? ? Hq Hc2].
  inversion_clear Hc2 as [|? ? _ Hc3]. inversion_clear Hc3 as [|? ? Hrec _].
  simpl in Hq, Hrec. split; [by apply Z.ltb_lt|].
  unfold has_id in Hrec. by apply existsb_key_true in Hrec.
Qed.

Lemma run_lines_statement_keeps db st :
  lines_well_formed db -> lines_well_formed (run_lines_statement db st).
Proof.
  intros Hwf. destruct st as [e s p | s where_ set_ | s where_]; simpl.
  - destruct (insert_receipt_line db e s p) as [[db' n]|err] eqn:Hrun; [|done].
    apply sql_insert_ok in Hrun as [_ (r & _ & Hc & -> & _)].
    apply receipt_lines_constraints_none in Hc.
    intros l Hl. simpl in Hl. apply in_app_iff in Hl as [Hl|[<-|[]]]; [|done].
    exact (Hwf l Hl).
  - unfold update_receipt_lines, sql_update.
    destruct (rls_update _ _ _ _ _ _ _) as [[rows' n]|err] eqn:Hrun; [|done].
    simpl. intros l Hl. simpl in Hl.
    apply (rls_update_all _ _ _ _ _ _
             (fun l => 0 < receipt_lines.quantity l
                       /\ In (receipt_lines.receipt_id l)
                            (List.map receipts.id (db_receipts db)))
             _ _ _ Hrun); [exact Hwf | | exact Hl].
    intros old r'. apply receipt_lines_constraints_none.
  - unfold delete_receipts, rls_delete. simpl.
    intros l Hl. simpl in Hl. apply filter_In in Hl as [Hl Hkept].
    destruct (Hwf l Hl) as [Hq Hrec]. split; [done|].
    apply in_map_iff in Hrec as (g & Hid & Hg). apply in_map_iff. exists g.
    split; [done|]. apply filter_In. split; [done|].
    destruct (targeted db s DELETE where_ g) eqn:Ht; [|done].
    apply negb_true_iff in Hkept.
    assert (Hgone : existsb (fun g0 => bool_decide (receipts.id g0 = receipt_lines.receipt_id l))
                      (List.filter (targeted db s DELETE where_) (db_receipts db)) = true).
    { apply existsb_exists. exists g. split; [by apply filter_In|].
      by apply bool_decide_eq_true_2. }
    congruence.
Qed.

Lemma run_lines_statements_keep sts : forall db,
  lines_well_formed db -> lines_well_formed (run_lines_statements db sts).
Proof.
  induction sts as [|st rest IH]; intros db Hwf; [done|].
  apply IH. by apply run_lines_statement_keeps.
Qed.

Lemma example_received_lines_well_formed : lines_well_formed example_received.
Proof.
  intros l Hl. simpl in Hl.
  repeat (destruct Hl as [<-|Hl]; [split; [done | vm_compute; tauto]|]). destruct Hl.
Qed.

(** X24. Whatever is done to the lines of receipts, by API callers or by
    the owner of the tables (lines inserted, lines updated, receipts
    deleted), every stored line keeps a positive quantity and a receipt
    that is stored too. *)
Theorem receipt_lines_stay_well_formed (db : database) (sts : list lines_statement) :
  lines_well_formed db -> lines_well_formed (run_lines_statements db sts).
Proof. apply run_lines_statements_keep. Qed.

Lemma receipt_lines_stay_well_formed_witness :
  let e := {| now := 9200; gen_random_uuid := 603%N |} in
  let line q :=
    {| receipt_lines.new.id := None; receipt_lines.new.receipt_id := Some 501%N;
       receipt_lines.new.product_id := Some 200%N; receipt_lines.new.quantity := Some q;
       receipt_lines.new.received_quantity := None;
       receipt_lines.new.created_at := None |} in
  let sts :=
    [lines_insert e (Api (Authenticated 3%N)) (line 0);
     lines_insert e (Api (Authenticated 3%N)) (line 150);
     lines_delete_receipts Owner (fun r => bool_decide (receipts.id r = 500%N))] in
  lines_well_formed (run_lines_statements example_received sts)
  /\ List.map (fun l => (receipt_lines.id l, receipt_lines.quantity l))
       (db_receipt_lines (run_lines_statements example_received sts))
     = [(601%N, 100); (603%N, 150)].
Proof.
  intros e line sts. split.
  - exact (receipt_lines_stay_well_formed example_received sts
             example_received_lines_well_formed).
  - vm_compute. reflexivity.
Defined.

Lemma receipt_lines_check db who i cb :
  check_ok db who public_receipt_lines INSERT i cb = bool_decide (auth_uid who <> None).
Proof. by destruct who. Qed.

Lemma insert_receipt_line_iff (db db' : database) (e : env) (s : session)
    (p : receipt_lines.new.row) (n : nat) :
  insert_receipt_line db e s p = Ok (db', n) <->
  exists receipt product quantity,
    match s with Owner => True | Api who => auth_uid who <> None end
    /\ receipt_lines.new.receipt_id p = Some receipt
    /\ receipt_lines.new.product_id p = Some product
    /\ receipt_lines.new.quantity p = Some quantity
    /\ 0 < quantity < 10 ^ 10
    /\ match receipt_lines.new.received_quantity p with
       | Some (Some q) => Z.abs q < 10 ^ 10
       | _ => True
       end
    /\ ~ In (default (gen_random_uuid e) (receipt_lines.new.id p))
            (List.map receipt_lines.id (db_receipt_lines db))
    /\ In receipt (List.map receipts.id (db_receipts db))
    /\ In product (List.map products.id (db_products db))
    /\ db' = with_receipt_lines
               (db_receipt_lines db ++ [stored_line e p receipt product quantity]) db
    /\ n = 1%nat.
Proof.
  unfold insert_receipt_line. rewrite sql_insert_ok.
  cbn [relname receipt_lines_rel rows_of with_rows].
  unfold receipt_lines_build, not_null.
  split.
  - intros [Hs (r & Hbuild & Hc & -> & ->)].
    destruct (receipt_lines.new.receipt_id p) as [receipt|]; [|done].
    destruct (receipt_lines.new.product_id p) as [product|]; [|done].
    destruct (receipt_lines.new.quantity p) as [quantity|]; [|done].
    rewrite !bind_Ok in Hbuild. injection Hbuild as <-.
    exists receipt, product, quantity.
    unfold receipt_lines_constraints in Hc. apply first_violation_none in Hc.
    inversion_clear Hc as [|? ? Hnum Hc1]. inversion_clear Hc1 as [|? ? Hpos Hc2].
    inversion_clear Hc2 as [|? ? Hid Hc3]. inversion_clear Hc3 as [|? ? Hrec Hc4].
    inversion_clear Hc4 as [|? ? Hprod _]. simpl in Hnum, Hpos, Hid, Hrec, Hprod.
    apply andb_true_iff in Hnum as [Hq Hb]. unfold numeric_10_2_ok in Hq.
    apply Z.ltb_lt in Hq, Hpos.
    unfold key_free in Hid. apply negb_true_iff, existsb_key_false in Hid.
    unfold has_id in Hrec, Hprod. apply existsb_key_true in Hrec, Hprod.
    split.
    { destruct s as [who|]; [|done]. rewrite receipt_lines_check in Hs.
      by apply bool_decide_eq_true_1 in Hs. }
    repeat (split; [done|]). split; [lia|]. split; [|done].
    destruct (receipt_lines.new.received_quantity p) as [[q|]|]; [|done|done].
    simpl in Hb. unfold numeric_10_2_ok in Hb. by apply Z.ltb_lt in Hb.
  - intros (receipt & product & quantity & Hs & -> & -> & -> & Hq & Hb & Hid & Hrec
            & Hprod & -> & ->).
    split.
    { destruct s as [who|]; [|done]. rewrite receipt_lines_check.
      by apply bool_decide_eq_true_2. }
    rewrite !bind_Ok. eexists. split; [reflexivity|]. split; [|done].
    unfold receipt_lines_constraints. apply first_violation_none.
    repeat constructor; simpl.
    + unfold numeric_10_2_ok. apply andb_true_iff. split; [apply Z.ltb_lt; lia|].
      destruct (receipt_lines.new.received_quantity p) as [[q|]|]; [|done|done].
      simpl. by apply Z.ltb_lt.
    + apply Z.ltb_lt. lia.
    + unfold key_free. apply negb_true_iff. by apply existsb_key_false.
    + unfold has_id. by apply existsb_key_true.
    + unfold has_id. by apply existsb_key_true.
Qed.

(** X25. A line goes onto a receipt exactly when the caller is signed in
    (or owns the table), the receipt, the product and the quantity are
    given, the quantity is positive and fits NUMERIC(10,2) just as the
    received quantity does, the [id] is not taken, and the receipt and the
    product exist.  Who created the receipt plays no part.  The stored
    line has a received quantity of 0 unless the statement supplies one. *)
Theorem receipt_line_accepted (db db' : database) (e : env) (s : session)
    (p : receipt_lines.new.row) (n : nat) :
  insert_receipt_line db e s p = Ok (db', n) <->
  exists receipt product quantity,
    match s with Owner => True | Api who => auth_uid who <> None end
    /\ receipt_lines.new.receipt_id p = Some receipt
    /\ receipt_lines.new.product_id p = Some product
    /\ receipt_lines.new.quantity p = Some quantity
    /\ 0 < quantity < 10 ^ 10
    /\ match receipt_lines.new.received_quantity p with
       | Some (Some q) => Z.abs q < 10 ^ 10
       | _ => True
       end
    /\ ~ In (default (gen_random_uuid e) (receipt_lines.new.id p))
            (List.map receipt_lines.id (db_receipt_lines db))
    /\ In receipt (List.map receipts.id (db_receipts db))
    /\ In product (List.map products.id (db_products db))
    /\ db' = with_receipt_lines
               (db_receipt_lines db ++ [stored_line e p receipt product quantity]) db
    /\ n = 1%nat.
Proof. apply insert_receipt_line_iff. Qed.

(** The third identity of the example adds a line to the receipt that the
    second one created; a line with quantity 0 is refused. *)
Example receipt_line_example :
  let e := {| now := 9200; gen_random_uuid := 603%N |} in
  let line q :=
    {| receipt_lines.new.id := None; receipt_lines.new.receipt_id := Some 500%N;
       receipt_lines.new.product_id := Some 200%N; receipt_lines.new.quantity := Some q;
       receipt_lines.new.received_quantity := None;
       receipt_lines.new.created_at := None |} in
  (exists db', insert_receipt_line example_received e (Api (Authenticated 3%N)) (line 150)
               = Ok (db', 1%nat)
               /\ List.map receipt_lines.received_quantity (db_receipt_lines db')
                  = [Some 400; Some 0; None; Some 0])
  /\ insert_receipt_line example_received e (Api (Authenticated 3%N)) (line 0)
     = Error (check_violation "receipt_lines_quantity_check")
  /\ insert_receipt_line example_received e (Api Anon) (line 150)
     = Error insufficient_privilege.
Proof.
  intros e line. split; [|split; vm_compute; reflexivity].
  eexists. split; vm_compute; reflexivity.
Qed.

Lemma receipt_line_accepted_witness :
  let e := {| now := 9200; gen_random_uuid := 603%N |} in
  let p := {| receipt_lines.new.id := None; receipt_lines.new.receipt_id := Some 500%N;
              receipt_lines.new.product_id := Some 200%N;
              receipt_lines.new.quantity := Some 150;
              receipt_lines.new.received_quantity := None;
              receipt_lines.new.created_at := None |} in
  exists db',
    insert_receipt_line example_received e (Api (Authenticated 3%N)) p = Ok (db', 1%nat).
Proof.
  intros e p. eexists.
  apply (proj2 (receipt_line_accepted example_received _ e (Api (Authenticated 3%N)) p 1%nat)).
  exists 500%N, 200%N, 150.
  split; [discriminate|]. do 3 (split; [reflexivity|]).
  split; [lia|]. split; [exact I|].
  split; [intros [H|[H|[H|[]]]]; discriminate H|].
  split; [by left|]. split; [by left|]. split; reflexivity.
Defined.

(** ** What a new identity may do *)





(** ** When a delivery goes in *)

(** X27. A submission of the Deliveries page goes through exactly when the
    caller is signed in, the chosen warehouse reads as the id of a
    warehouse in the table, the date is empty or a date, and neither the
    fresh id nor the reference is taken.  It then adds one row: status
    draft, timestamps [now()], and no creator. *)
Theorem delivery_submission_accepted
    (uuid_in : string -> option uuid) (date_in : string -> option date)
    (db db' : database) (e : env) (who : caller) (t : Z) (form : Deliveries.formData)
    (n : nat) :
  Deliveries.handleSubmit uuid_in date_in db e who t form = Ok (db', n) <->
  exists w sd,
    auth_uid who <> None
    /\ uuid_in (Deliveries.warehouse_id form) = Some w
    /\ scheduled_of date_in (Deliveries.scheduled_date form) = Some sd
    /\ ~ In (gen_random_uuid e) (List.map deliveries.id (db_deliveries db))
    /\ ~ In ("DEL-" ++ string_of_number t)%string
            (List.map deliveries.reference (db_deliveries db))
    /\ In w (List.map warehouses.id (db_warehouses db))
    /\ db' = with_deliveries (db_deliveries db ++ [submitted_delivery e t form w sd]) db
    /\ n = 1%nat.
Proof. apply deliveries_handleSubmit_accepted_iff. Qed.

Lemma delivery_submission_accepted_witness :
  exists db',
    Deliveries.handleSubmit example_uuid_in example_date_in example_db
      {| now := 9000; gen_random_uuid := 700%N |} (Authenticated 2%N)
      1763786722000 form_initech = Ok (db', 1%nat)
    /\ List.map (fun d => (deliveries.status d, deliveries.created_by d)) (db_deliveries db')
       = [(draft, None)].
Proof.
  eexists. split.
  - apply (proj2 (delivery_submission_accepted example_uuid_in example_date_in example_db _
                    {| now := 9000; gen_random_uuid := 700%N |} (Authenticated 2%N)
                    1763786722000 form_initech 1%nat)).
    exists 100%N, None.
    split; [discriminate|]. split; [reflexivity|]. split; [reflexivity|].
    split; [intros []|]. split; [intros []|]. split; [by left|]. split; reflexivity.
  - reflexivity.
Defined.
